(** * Netflix dashboards: a model of the ingestion step and of the aggregates

  The repository holds two Streamlit scripts,
  [netflix_max_chartier_dashboard.py] and [netflix_story_dashboard.py].
  Both load four CSV tables with pandas, derive a handful of grouped
  aggregates and draw one chart per aggregate.

  This development embeds the pandas operations the scripts rely on
  (missing-value handling, [groupby], [sum], [count], [mean], [quantile],
  left and inner [merge], [cut] and [qcut]) as executable functions on
  lists of rows, and the scripts themselves as functions on those tables.

  Numbers: a float64 cell is a rational ([Q]), a missing cell (NaN) is
  [None], and the infinities are left out.  The aggregates are first
  computed in exact arithmetic ([Pd.sum], [Pd.mean]); what is proved of them
  is their sign, their order and which rows they cover.  Where a statement
  compares sums taken in different groupings, the rounding of binary64
  decides, and the sums are computed with [Float64.add]. *)

From Stdlib Require Import List String Ascii Bool Arith ZArith QArith Qround.
From Stdlib Require Import Qabs Qcanon Lia Lqa Permutation Sorted.
Import ListNotations.

Local Open Scope Q_scope.

(* ================================================================== *)
(** * Pandas primitives *)

Module Pd.

(** ** Missing values *)

(** [Series.dropna]: the non-missing values, in order. *)
Fixpoint dropna {A : Type} (xs : list (option A)) : list A :=
  match xs with
  | [] => []
  | Some x :: xs' => x :: dropna xs'
  | None :: xs' => dropna xs'
  end.

(** [Series.notna] on one cell. *)
Definition notna {A : Type} (x : option A) : bool :=
  match x with Some _ => true | None => false end.

(** [Series.fillna(v)] on one cell. *)
Definition fillna {A : Type} (v : A) (x : option A) : A :=
  match x with Some y => y | None => v end.

(** [Series.count]: the number of non-missing cells. *)
Definition count {A : Type} (xs : list (option A)) : nat :=
  List.length (dropna xs).

(** ** Reductions *)

(** [Series.sum] of a column without missing cells. *)
Definition sum (xs : list Q) : Q := fold_right Qplus 0 xs.

(** [Series.sum] with the default [skipna=True]. *)
Definition sum_skipna (xs : list (option Q)) : Q := sum (dropna xs).

(** A quotient of two finite numbers; a zero divisor gives NaN or an
    infinity in pandas, which the model renders as [None]. *)
Definition div (a b : Q) : option Q :=
  if Qeq_bool b 0 then None else Some (a / b).

Definition of_nat (n : nat) : Q := inject_Z (Z.of_nat n).

(** [Series.mean] with [skipna=True]: NaN on a column with no value. *)
Definition mean (xs : list (option Q)) : option Q :=
  div (sum_skipna xs) (of_nat (count xs)).

(** ** Sorting *)

Section Sort.
Context {A : Type} (leb : A -> A -> bool).

Fixpoint insert (x : A) (l : list A) : list A :=
  match l with
  | [] => [x]
  | y :: l' => if leb x y then x :: l else y :: insert x l'
  end.

Fixpoint sort (l : list A) : list A :=
  match l with
  | [] => []
  | x :: l' => insert x (sort l')
  end.
End Sort.

(** [Series.sort_values] on numbers. *)
Definition sort_values : list Q -> list Q := sort Qle_bool.

(** ** Quantiles *)

(** [Series.quantile(q)] with the default linear interpolation: the value
    at the virtual index [q * (n - 1)] of the sorted column, interpolated
    between its two neighbours.  NaN on an empty column. *)
Definition quantile (q : Q) (xs : list Q) : option Q :=
  let s := sort_values xs in
  match s with
  | [] => None
  | _ :: _ =>
      let pos := q * of_nat (List.length s - 1) in
      let i := Z.to_nat (Qfloor pos) in
      let gamma := pos - inject_Z (Qfloor pos) in
      let a := nth i s 0 in
      let b := nth (Nat.min (i + 1) (List.length s - 1)) s 0 in
      Some (a + (b - a) * gamma)
  end.

Definition median (xs : list Q) : option Q := quantile (1 # 2) xs.

(** [Series.round(1)]: one decimal, ties to the even neighbour. *)
Definition round_half_even (x : Q) : Z :=
  let f := Qfloor x in
  match Qcompare (x - inject_Z f) (1 # 2) with
  | Lt => f
  | Gt => (f + 1)%Z
  | Eq => if Z.even f then f else (f + 1)%Z
  end.

Definition round1 (x : Q) : Q := inject_Z (round_half_even (x * 10)) / 10.

(** ** Grouping *)

(** Does the (possibly missing) key of a row equal the group label [k]? *)
Definition key_is (k : string) (o : option string) : bool :=
  match o with
  | Some k' => String.eqb k k'
  | None => false
  end.

(** The labels of [groupby]: the distinct non-missing keys, sorted
    ([sort=True], [dropna=True] are the defaults). *)
Definition group_keys (ks : list (option string)) : list string :=
  sort String.leb (nodup string_dec (dropna ks)).

(** Does the row carry one of the labels [ks]? *)
Definition has_key_in {R : Type} (key : R -> option string)
           (ks : list string) (r : R) : bool :=
  existsb (fun k => key_is k (key r)) ks.

(** The rows of the group labelled [k], in table order. *)
Definition group {R : Type} (key : R -> option string) (k : string)
           (rows : list R) : list R :=
  filter (fun r => key_is k (key r)) rows.

(** [DataFrame.groupby(key)]: every label with its rows. *)
Definition groupby {R : Type} (key : R -> option string) (rows : list R)
  : list (string * list R) :=
  map (fun k => (k, group key k rows)) (group_keys (map key rows)).

(** [groupby(key)[col].agg(f)]. *)
Definition groupby_agg {R B : Type} (key : R -> option string)
           (f : list R -> B) (rows : list R) : list (string * B) :=
  map (fun g => (fst g, f (snd g))) (groupby key rows).

(** [groupby(key, group_keys=False).apply(f)] for an [f] that returns a
    sub-frame of its group: the pieces are concatenated. *)
Definition groupby_apply {R : Type} (key : R -> option string)
           (f : list R -> list R) (rows : list R) : list R :=
  flat_map (fun g => f (snd g)) (groupby key rows).


(** [Series.nunique]: the number of distinct non-missing values. *)
Definition nunique (ks : list (option string)) : nat :=
  List.length (nodup string_dec (dropna ks)).

(** ** Joins *)

(** Key equality of [merge]: equal labels match, and so do two missing
    keys. *)
Definition key_eqb (a b : option string) : bool :=
  match a, b with
  | Some x, Some y => String.eqb x y
  | None, None => true
  | _, _ => false
  end.

Definition matches {L R : Type} (lk : L -> option string)
           (rk : R -> option string) (l : L) (right : list R) : list R :=
  filter (fun r => key_eqb (lk l) (rk r)) right.

(** [left.merge(right, on=key, how="left")]: every left row, once per
    matching right row, and once with missing right columns when nothing
    matches. *)
Definition merge_left {L R : Type} (lk : L -> option string)
           (rk : R -> option string) (left : list L) (right : list R)
  : list (L * option R) :=
  flat_map (fun l =>
              match matches lk rk l right with
              | [] => [(l, None)]
              | ms => map (fun r => (l, Some r)) ms
              end) left.

(** [left.merge(right, on=key, how="inner")]. *)
Definition merge_inner {L R : Type} (lk : L -> option string)
           (rk : R -> option string) (left : list L) (right : list R)
  : list (L * R) :=
  flat_map (fun l => map (fun r => (l, r)) (matches lk rk l right)) left.

(** ** Binning *)

(** [bins.searchsorted(x, side="left")]: how many edges lie strictly below
    [x] (the edges are increasing). *)
Definition searchsorted_left (bins : list Q) (x : Q) : nat :=
  List.length (filter (fun b => negb (Qle_bool x b)) bins).

(** The bin of [x] among right-closed intervals over increasing edges:
    [None] outside them.  With [include_lowest] the first edge belongs to
    the first bin. *)
Definition bin_index (include_lowest : bool) (bins : list Q) (x : Q)
  : option nat :=
  let id :=
    if include_lowest && Qeq_bool x (hd 0 bins)
    then 1%nat else searchsorted_left bins x in
  if (id =? 0)%nat || (id =? List.length bins)%nat
  then None else Some (id - 1)%nat.

(** [pd.cut(x, bins=bins, labels=labels)] on one cell. *)
Definition cut {Lbl : Type} (bins : list Q) (labels : list Lbl)
           (x : option Q) : option Lbl :=
  match x with
  | None => None
  | Some v =>
      match bin_index false bins v with
      | Some i => nth_error labels i
      | None => None
      end
  end.

(** Distinct edges, first occurrences kept ([algos.unique]). *)
Fixpoint unique_bins (bins : list Q) : list Q :=
  match bins with
  | [] => []
  | b :: bins' =>
      b :: filter (fun c => negb (Qeq_bool b c)) (unique_bins bins')
  end.

(** [pd.qcut(col, q=4, labels=labels, duplicates="drop")]: the edges are the
    quantiles at 0, 1/4, 1/2, 3/4 and 1 of the column; repeated edges are
    dropped, after which the labels must still be one fewer than the edges,
    or the call raises ([None]). *)
Definition qcut4 {Lbl : Type} (labels : list Lbl) (col : list Q)
  : option (list (option Lbl)) :=
  match quantile 0 col, quantile (1 # 4) col, quantile (1 # 2) col,
        quantile (3 # 4) col, quantile 1 col with
  | Some e0, Some e1, Some e2, Some e3, Some e4 =>
      let bins := unique_bins [e0; e1; e2; e3; e4] in
      if (List.length labels =? List.length bins - 1)%nat
      then Some (map (fun v =>
                        match bin_index true bins v with
                        | Some i => nth_error labels i
                        | None => None
                        end) col)
      else None
  | _, _, _, _, _ => None
  end.

End Pd.

(* ================================================================== *)
(** * Binary64 arithmetic

    A finite float64 is a rational [m * 2^e] with [|m| < 2^53].  An
    operation of IEEE 754 returns the exact result rounded to the nearest
    such number, a tie going to the even [m].  The exponent is not bounded
    here: overflow and the subnormal numbers are left out. *)

Module Float64.

Definition prec : Z := 53.

(** [x * 2^e]. *)
Definition scale (e : Z) (x : Q) : Q :=
  match e with
  | Z0 => x
  | Zpos p => x * inject_Z (2 ^ Zpos p)
  | Zneg p => x / inject_Z (2 ^ Zpos p)
  end.

(** The integer part of the binary logarithm of a positive number: with
    [d] the difference of the bit lengths of numerator and denominator, it
    is [d] or [d - 1]. *)
Definition ilog2 (x : Q) : Z :=
  let d := (Z.log2 (Qnum x) - Z.log2 (Zpos (Qden x)))%Z in
  if Qle_bool (scale d 1) x then d else (d - 1)%Z.

(** Rounding to nearest, ties to even, with 53 significant bits. *)
Definition round (x : Q) : Q :=
  let x := Qred x in
  if Qeq_bool x 0 then 0
  else
    let e := (ilog2 (Qabs x) - (prec - 1))%Z in
    Qred (scale e (inject_Z (Pd.round_half_even (scale (- e) x)))).

Definition add (x y : Q) : Q := round (x + y).

(** A sum of float64 cells, added one after the other in row order. *)
Definition sum (xs : list Q) : Q := fold_left add xs 0.

(** A whole number. *)
Definition integral (x : Q) : bool := Qeq_bool x (inject_Z (Qfloor x)).

(** A column of whole numbers whose absolute values add up to less than
    [2^53]: every addition of its cells is exact, in whatever order and
    grouping they are added. *)
Definition whole (xs : list Q) : bool :=
  forallb integral xs
  && negb (Qle_bool (inject_Z (2 ^ prec)) (Pd.sum (map Qabs xs))).

End Float64.

(* ================================================================== *)
(** * The four tables *)

(** A cell of a column that [read_csv] may or may not have typed as
    numeric: a number, a string, or a missing value. *)
Inductive cell : Type :=
| CNum (q : Q)
| CStr (s : string)
| CNaN.

(** The users table; [N] is the type of its numeric columns
    [monthly_spend] and [age] ([cell] as read, [option Q] once coerced). *)
Module Users.
Record row (N : Type) : Type := mk {
  user_id : option string;
  subscription_plan : option string;
  monthly_spend : N;
  age : N;
  is_active : option bool;
  country : option string;
  primary_device : option string;
  household_size : option Q
}.
Arguments mk {N}.
Arguments user_id {N}.
Arguments subscription_plan {N}.
Arguments monthly_spend {N}.
Arguments age {N}.
Arguments is_active {N}.
Arguments country {N}.
Arguments primary_device {N}.
Arguments household_size {N}.
Definition raw : Type := row cell.
Definition t : Type := row (option Q).
End Users.

(** The watch history; [D] is the type of [watch_duration_minutes] and [P]
    that of [progress_percentage]. *)
Module Watch.
Record row (D P : Type) : Type := mk {
  user_id : option string;
  movie_id : option string;
  watch_duration_minutes : D;
  progress_percentage : P;
  device_type : option string;
  user_rating : option Q
}.
Arguments mk {D P}.
Arguments user_id {D P}.
Arguments movie_id {D P}.
Arguments watch_duration_minutes {D P}.
Arguments progress_percentage {D P}.
Arguments device_type {D P}.
Arguments user_rating {D P}.
Definition raw : Type := row cell cell.
(** Once loaded, the durations are numbers without missing values. *)
Definition t (P : Type) : Type := row Q P.
End Watch.

Module Movies.
Record row : Type := mk {
  movie_id : option string;
  genre_primary : option string;
  content_type : option string
}.
End Movies.

(** The recommendation log; [C] is the type of [was_clicked]: [option bool]
    as read, [string] after [astype(str)]. *)
Module Recs.
Record row (C : Type) : Type := mk {
  recommendation_id : option string;
  algorithm_version : option string;
  recommendation_type : option string;
  was_clicked : C
}.
Arguments mk {C}.
Arguments recommendation_id {C}.
Arguments algorithm_version {C}.
Arguments recommendation_type {C}.
Arguments was_clicked {C}.
Definition raw : Type := row (option bool).
End Recs.

(* ================================================================== *)
(** * Coercion of numeric columns *)

Module Numeric.

Inductive errors : Type := Raise | Coerce.

Section ToNumeric.
(** The float parser behind [pd.to_numeric]: [None] when the text is not a
    number, [Some None] when it reads as NaN. *)
Variable parse_float : string -> option (option Q).

(** [pd.to_numeric] on one cell; the outer [None] is "unable to parse". *)
Definition convert (c : cell) : option (option Q) :=
  match c with
  | CNum q => Some (Some q)
  | CNaN => Some None
  | CStr s => parse_float s
  end.

(** [pd.to_numeric(col, errors=...)]: with ["raise"] the first cell that
    does not parse aborts the call, with ["coerce"] it becomes NaN. *)
Fixpoint to_numeric (e : errors) (col : list cell)
  : option (list (option Q)) :=
  match col with
  | [] => Some []
  | c :: col' =>
      match convert c, e with
      | Some v, _ => option_map (cons v) (to_numeric e col')
      | None, Coerce => option_map (cons None) (to_numeric e col')
      | None, Raise => None
      end
  end.
(** What [errors="coerce"] leaves in one cell. *)
Definition coerced (c : cell) : option Q :=
  match convert c with
  | Some v => v
  | None => None
  end.

(** Stated from the specification: a lenient coercion keeps a number, keeps
    a missing value missing, reads a text that parses, and turns a text
    that does not parse into a missing value. *)
Inductive coerces : cell -> option Q -> Prop :=
| number_kept (q : Q) : coerces (CNum q) (Some q)
| missing_kept : coerces CNaN None
| text_read (s : string) (v : option Q) :
    parse_float s = Some v -> coerces (CStr s) v
| text_dropped (s : string) :
    parse_float s = None -> coerces (CStr s) None.
End ToNumeric.

End Numeric.

(** Stated from the specification: how a row as read and the row once
    loaded relate when the numeric columns are coerced leniently and the
    missing durations are filled with zero. *)
Module Lenient.

Section Rows.
Variable parse_float : string -> option (option Q).

Definition same_user_columns {N N' : Type} (raw : Users.row N)
           (u : Users.row N') : Prop :=
  Users.user_id u = Users.user_id raw /\
  Users.subscription_plan u = Users.subscription_plan raw /\
  Users.is_active u = Users.is_active raw /\
  Users.country u = Users.country raw /\
  Users.primary_device u = Users.primary_device raw /\
  Users.household_size u = Users.household_size raw.

Definition user_loaded (raw : Users.raw) (u : Users.t) : Prop :=
  Numeric.coerces parse_float (Users.monthly_spend raw)
                  (Users.monthly_spend u) /\
  Numeric.coerces parse_float (Users.age raw) (Users.age u) /\
  same_user_columns raw u.

Definition same_watch_columns {D P D' P' : Type} (raw : Watch.row D P)
           (w : Watch.row D' P') : Prop :=
  Watch.user_id w = Watch.user_id raw /\
  Watch.movie_id w = Watch.movie_id raw /\
  Watch.device_type w = Watch.device_type raw /\
  Watch.user_rating w = Watch.user_rating raw.

Definition duration_loaded (raw : cell) (minutes : Q) : Prop :=
  exists v, Numeric.coerces parse_float raw v /\ minutes = Pd.fillna 0 v.

(** All four numeric columns coerced. *)
Definition watch_loaded (raw : Watch.raw) (w : Watch.t (option Q)) : Prop :=
  duration_loaded (Watch.watch_duration_minutes raw)
                  (Watch.watch_duration_minutes w) /\
  Numeric.coerces parse_float (Watch.progress_percentage raw)
                  (Watch.progress_percentage w) /\
  same_watch_columns raw w.

(** The progress column left as read. *)
Definition watch_loaded_progress_raw (raw : Watch.raw) (w : Watch.t cell)
  : Prop :=
  duration_loaded (Watch.watch_duration_minutes raw)
                  (Watch.watch_duration_minutes w) /\
  Watch.progress_percentage w = Watch.progress_percentage raw /\
  same_watch_columns raw w.
(** The rows the assignments of [load_data] build. *)
Definition user (r : Users.raw) : Users.t :=
  Users.mk (Users.user_id r) (Users.subscription_plan r)
           (Numeric.coerced parse_float (Users.monthly_spend r))
           (Numeric.coerced parse_float (Users.age r))
           (Users.is_active r) (Users.country r) (Users.primary_device r)
           (Users.household_size r).

Definition watch_duration (r : Watch.raw) : Watch.t cell :=
  Watch.mk (Watch.user_id r) (Watch.movie_id r)
           (Pd.fillna 0 (Numeric.coerced parse_float
                                         (Watch.watch_duration_minutes r)))
           (Watch.progress_percentage r) (Watch.device_type r)
           (Watch.user_rating r).

Definition watch_progress (r : Watch.t cell) : Watch.t (option Q) :=
  Watch.mk (Watch.user_id r) (Watch.movie_id r)
           (Watch.watch_duration_minutes r)
           (Numeric.coerced parse_float (Watch.progress_percentage r))
           (Watch.device_type r) (Watch.user_rating r).

End Rows.

End Lenient.

(* ================================================================== *)
(** * The page, the file system and the result cache *)

Module Sess.
(** A row of [watch[["device_type", "watch_duration_minutes"]]]. *)
Record row : Type := mk {
  device_type : option string;
  watch_duration_minutes : Q
}.
End Sess.

Module St.

(** What a chart is drawn from. *)
Inductive figure : Type :=
| Bar (bars : list (string * option Q))
| Box (points : list Sess.row)
| Heatmap (cells : list (string * string * option Q)).

(** What a script puts on the page, in order. *)
Inductive element : Type :=
| Header (text : string)
| Markdown (text : string)
| Info (text : string)
| Kpi (label : string) (value : option Q)
| PlotlyChart (fig : figure).

Definition is_chart (e : element) : bool :=
  match e with PlotlyChart _ => true | _ => false end.

Definition is_info (e : element) : bool :=
  match e with Info _ => true | _ => false end.

(** The contents of a CSV file, by the table it holds. *)
Inductive file : Type :=
| UsersFile (rows : list Users.raw)
| WatchFile (rows : list Watch.raw)
| MoviesFile (rows : list Movies.row)
| RecsFile (rows : list Recs.raw).

(** The state a script runs in: the files by their path, the memo table of
    [@st.cache_data] holding results of type [T], and the page rendered so
    far.  An entry of the memo table is keyed by the arguments of the call
    as they were passed: a call that leaves a parameter to its default and a
    call that passes the default value have different keys. *)
Record world (T : Type) : Type := mk {
  fs : string -> option file;
  cache : list (list string * T);
  page : list element
}.
Arguments mk {T}.
Arguments fs {T}.
Arguments cache {T}.
Arguments page {T}.

(** A script step: it may raise ([None]) or return a value and the next
    state. *)
Definition M (T A : Type) : Type := world T -> option (A * world T).

Definition ret {T A : Type} (a : A) : M T A := fun w => Some (a, w).

Definition bind {T A B : Type} (c : M T A) (k : A -> M T B) : M T B :=
  fun w =>
    match c w with
    | Some (a, w') => k a w'
    | None => None
    end.

(** A library call that may raise. *)
Definition lift {T A : Type} (o : option A) : M T A :=
  fun w =>
    match o with
    | Some a => Some (a, w)
    | None => None
    end.

Definition emit {T : Type} (e : element) : M T unit :=
  fun w => Some (tt, mk (fs w) (cache w) (page w ++ [e])).

Fixpoint lookup {T : Type} (key : list string) (c : list (list string * T))
  : option T :=
  match c with
  | [] => None
  | (k, v) :: c' =>
      if list_eq_dec string_dec key k then Some v else lookup key c'
  end.

(** [@st.cache_data]: a hit returns (a copy of) the stored result without
    running the body; a miss runs the body and stores what it returns. *)
Definition cache_data {T : Type} (key : list string) (body : M T T)
  : M T T :=
  fun w =>
    match lookup key (cache w) with
    | Some v => Some (v, w)
    | None =>
        match body w with
        | Some (v, w') => Some (v, mk (fs w') ((key, v) :: cache w') (page w'))
        | None => None
        end
    end.

(** The components of a path: the texts between its slashes. *)
Fixpoint components (path : string) : list string :=
  match path with
  | EmptyString => [EmptyString]
  | String c rest =>
      if Ascii.eqb c "/"
      then EmptyString :: components rest
      else match components rest with
           | part :: parts => String c part :: parts
           | [] => [String c EmptyString]
           end
  end.

(** The root of a POSIX path: one slash, or two when the path starts with
    exactly two. *)
Definition root (path : string) : string :=
  match path with
  | String "/" (String "/" (String "/" _)) => "/"
  | String "/" (String "/" _) => "//"
  | String "/" _ => "/"
  | _ => ""
  end.

(** [Path(base) / name] for a file name [name], as [pathlib] spells it on
    POSIX: empty components and ["."] components of [base] are dropped, so
    that [Path(".") / name] and [Path("") / name] are [name] and a trailing
    slash of [base] does not count. *)
Definition path_join (base name : string) : string :=
  let kept :=
    filter (fun part => negb (String.eqb part "" || String.eqb part "."))
           (components base) in
  (root base ++ String.concat "/" (kept ++ [name]))%string.

(** [pd.read_csv(path)], one reader per table. *)
Definition read_users {T : Type} (path : string) : M T (list Users.raw) :=
  fun w =>
    match fs w path with
    | Some (UsersFile rows) => Some (rows, w)
    | _ => None
    end.

Definition read_watch {T : Type} (path : string) : M T (list Watch.raw) :=
  fun w =>
    match fs w path with
    | Some (WatchFile rows) => Some (rows, w)
    | _ => None
    end.

Definition read_movies {T : Type} (path : string)
  : M T (list Movies.row) :=
  fun w =>
    match fs w path with
    | Some (MoviesFile rows) => Some (rows, w)
    | _ => None
    end.

Definition read_recs {T : Type} (path : string) : M T (list Recs.raw) :=
  fun w =>
    match fs w path with
    | Some (RecsFile rows) => Some (rows, w)
    | _ => None
    end.

(** The step runs, puts an informational message on the page and draws no
    chart; nothing else of the state changes. *)
Definition renders_message_only {T : Type} (section : M T unit)
           (w : world T) : Prop :=
  exists els,
    section w = Some (tt, mk (fs w) (cache w) (page w ++ els)) /\
    existsb is_info els = true /\
    existsb is_chart els = false.

End St.

Notation "x <- c ;; k" := (St.bind c (fun x => k))
  (at level 61, c at next level, right associativity).
Notation "c ;;; k" := (St.bind c (fun _ => k))
  (at level 61, right associativity).

(** Assigning a column: [frame[col] = series] pairs every row with its new
    cell. *)
Module Assign.

Definition watch_duration_minutes {D D' P : Type}
           (rows : list (Watch.row D P)) (col : list D')
  : list (Watch.row D' P) :=
  map (fun rc =>
         let r := fst rc in
         Watch.mk (Watch.user_id r) (Watch.movie_id r) (snd rc)
                  (Watch.progress_percentage r) (Watch.device_type r)
                  (Watch.user_rating r))
      (combine rows col).

Definition progress_percentage {D P P' : Type}
           (rows : list (Watch.row D P)) (col : list P')
  : list (Watch.row D P') :=
  map (fun rc =>
         let r := fst rc in
         Watch.mk (Watch.user_id r) (Watch.movie_id r)
                  (Watch.watch_duration_minutes r) (snd rc)
                  (Watch.device_type r) (Watch.user_rating r))
      (combine rows col).

(** [users["monthly_spend"]] and [users["age"]] are assigned one after the
    other; the model assigns both at once. *)
Definition spend_and_age {N N' : Type}
           (rows : list (Users.row N)) (spend age : list N')
  : list (Users.row N') :=
  map (fun rc =>
         let r := fst (fst rc) in
         Users.mk (Users.user_id r) (Users.subscription_plan r)
                  (snd (fst rc)) (snd rc) (Users.is_active r)
                  (Users.country r) (Users.primary_device r)
                  (Users.household_size r))
      (combine (combine rows spend) age).

Definition was_clicked {C C' : Type}
           (rows : list (Recs.row C)) (col : list C')
  : list (Recs.row C') :=
  map (fun rc =>
         let r := fst rc in
         Recs.mk (Recs.recommendation_id r) (Recs.algorithm_version r)
                 (Recs.recommendation_type r) (snd rc))
      (combine rows col).

End Assign.

(* ================================================================== *)
(** * Helpers shared by the two scripts *)

Definition is_true (b : option bool) : bool :=
  match b with Some true => true | _ => false end.

Definition is_false (b : option bool) : bool :=
  match b with Some false => true | _ => false end.

(** [DataFrame.empty]. *)
Definition empty {A : Type} (l : list A) : bool :=
  match l with [] => true | _ :: _ => false end.

(** Rows by decreasing value: [sort_values(col, ascending=False)]. *)
Definition sort_desc (l : list (string * Q)) : list (string * Q) :=
  Pd.sort (fun a b => Qle_bool (snd b) (snd a)) l.

Definition durations {P : Type} (rows : list (Watch.t P)) : list Q :=
  map Watch.watch_duration_minutes rows.

(** [watch.groupby("user_id")["watch_duration_minutes"].sum()]. *)
Definition watch_sum_by_user {P : Type} (watch : list (Watch.t P))
  : list (string * Q) :=
  Pd.groupby_agg Watch.user_id (fun g => Pd.sum (durations g)) watch.

(** [users.merge(totals, on="user_id", how="left")] followed by
    [fillna(0)] on the merged total. *)
Definition total_key (t : string * Q) : option string := Some (fst t).

Definition merge_totals (users : list Users.t) (totals : list (string * Q))
  : list (Users.t * Q) :=
  map (fun p => (fst p, Pd.fillna 0 (option_map snd (snd p))))
      (Pd.merge_left Users.user_id total_key users totals).

(** The total the join finds for one user: that of the first matching
    row, zero when there is none. *)
Definition total_of (u : Users.t) (totals : list (string * Q)) : Q :=
  Pd.fillna 0
    (option_map snd
       (hd_error (Pd.matches Users.user_id total_key u totals))).

(** [watch.merge(movies[["movie_id", "genre_primary"]], on="movie_id",
    how="left")]. *)
Definition merge_genre {P : Type} (watch : list (Watch.t P))
           (movies : list Movies.row)
  : list (Watch.t P * option Movies.row) :=
  Pd.merge_left Watch.movie_id Movies.movie_id watch movies.

(** The [genre_primary] column of the merged frame. *)
Definition genre_of {P : Type} (wm : Watch.t P * option Movies.row)
  : option string :=
  match snd wm with
  | Some m => Movies.genre_primary m
  | None => None
  end.

(* ================================================================== *)
(** * The per-device IQR trim
      ([netflix_max_chartier_dashboard.py], lines 129-142) *)

Module Device.

Definition project {P : Type} (w : Watch.t P) : Sess.row :=
  Sess.mk (Watch.device_type w) (Watch.watch_duration_minutes w).

(** [sess = watch[[...]].dropna()]: the duration column holds no missing
    value once loaded, so only a missing device drops a row. *)
Definition sess {P : Type} (watch : list (Watch.t P)) : list Sess.row :=
  filter (fun r => Pd.notna (Sess.device_type r)) (map project watch).

Definition minutes (group : list Sess.row) : list Q :=
  map Sess.watch_duration_minutes group.

(** The lower and upper fence of a group; NaN on an empty group. *)
Definition fence (group : list Sess.row) : option (Q * Q) :=
  match Pd.quantile (1 # 4) (minutes group),
        Pd.quantile (3 # 4) (minutes group) with
  | Some q1, Some q3 =>
      let iqr := q3 - q1 in
      let lower := q1 - (3 # 2) * iqr in
      let upper := q3 + (3 # 2) * iqr in
      Some (lower, upper)
  | _, _ => None
  end.

(** [(v >= lower) & (v <= upper)]; a comparison with NaN is false. *)
Definition within (f : option (Q * Q)) (v : Q) : bool :=
  match f with
  | Some (lower, upper) => Qle_bool lower v && Qle_bool v upper
  | None => false
  end.

Definition _iqr_filter (group : list Sess.row) : list Sess.row :=
  filter (fun r => within (fence group) (Sess.watch_duration_minutes r))
         group.

(** Stated from the specification: the duration of [r] lies within the
    fence computed over the sessions of its own device. *)
Definition inside_own_fence (sess : list Sess.row) (r : Sess.row) : bool :=
  match Sess.device_type r with
  | Some d =>
      within (fence (Pd.group Sess.device_type d sess))
             (Sess.watch_duration_minutes r)
  | None => false
  end.

(** [sess_f]: the trimmed sessions when the checkbox is ticked, the raw
    ones otherwise. *)
Definition sess_f (exclude_outliers : bool) (sess : list Sess.row)
  : list Sess.row :=
  if exclude_outliers
  then Pd.groupby_apply Sess.device_type _iqr_filter sess
  else sess.

(** [sess_f.groupby("device_type")[...].median()]. *)
Definition med_f (sess_f : list Sess.row) : list (string * option Q) :=
  Pd.groupby_agg Sess.device_type (fun g => Pd.median (minutes g)) sess_f.

End Device.

(* ================================================================== *)
(** * [netflix_max_chartier_dashboard.py] *)

Module MaxChartier.

Record tables : Type := mk {
  users : list Users.t;
  watch : list (Watch.t (option Q));
  movies : list Movies.row;
  recs : list Recs.raw
}.

(** ** Ingestion (lines 26-37) *)

Section Load.
Variable parse_float : string -> option (option Q).

Definition coerce (col : list cell) : St.M tables (list (option Q)) :=
  St.lift (Numeric.to_numeric parse_float Numeric.Coerce col).

(** The parameter [base_path: str = "."]: a call may leave it out. *)
Definition base_path (arg : option string) : string :=
  match arg with Some base => base | None => "." end.

(** The arguments of a call, as passed. *)
Definition args (arg : option string) : list string :=
  match arg with Some base => [base] | None => [] end.

Definition load_body (base_path : string) : St.M tables tables :=
  users <- St.read_users (St.path_join base_path "users.csv") ;;
  watch <- St.read_watch (St.path_join base_path "watch_history.csv") ;;
  movies <- St.read_movies (St.path_join base_path "movies.csv") ;;
  recs <- St.read_recs (St.path_join base_path "recommendation_logs.csv") ;;
  duration <- coerce (map Watch.watch_duration_minutes watch) ;;
  let watch :=
    Assign.watch_duration_minutes watch (map (Pd.fillna 0) duration) in
  progress <- coerce (map Watch.progress_percentage watch) ;;
  let watch := Assign.progress_percentage watch progress in
  spend <- coerce (map Users.monthly_spend users) ;;
  age <- coerce (map Users.age users) ;;
  let users := Assign.spend_and_age users spend age in
  St.ret (mk users watch movies recs).

Definition load_data (arg : option string) : St.M tables tables :=
  St.cache_data (args arg) (load_body (base_path arg)).
End Load.

(** ** Headline figures (lines 50-53) *)

Definition total_users (users : list Users.t) : nat :=
  Pd.nunique (map Users.user_id users).

Definition total_watch_hours {P : Type} (watch : list (Watch.t P)) : Q :=
  Pd.sum (durations watch) / 60.

Definition avg_spend (users : list Users.t) : option Q :=
  Pd.mean (map Users.monthly_spend users).

Definition active_subs (users : list Users.t) : nat :=
  List.length (filter (fun u => is_true (Users.is_active u)) users).

(** ** Retention by subscription plan (lines 65-66) *)

(** The counts of [True] and of [False] in a column of flags; missing flags
    are not counted ([value_counts] drops them). *)
Definition value_counts (flags : list (option bool)) : nat * nat :=
  (List.length (filter is_true flags), List.length (filter is_false flags)).

(** [users.groupby("subscription_plan")["is_active"].value_counts()
    .unstack().fillna(0)]: one row per plan that has a counted flag, with
    its number of [True] and of [False]. *)
Definition retention (users : list Users.t) : list (string * (nat * nat)) :=
  filter (fun r => (0 <? fst (snd r) + snd (snd r))%nat)
         (Pd.groupby_agg Users.subscription_plan
                         (fun g => value_counts (map Users.is_active g))
                         users).

(** [x.get(True, 0) / (x.get(True, 0) + x.get(False, 0))] per plan. *)
Definition retention_rate (users : list Users.t)
  : list (string * option Q) :=
  map (fun r =>
         let t := Pd.of_nat (fst (snd r)) in
         let f := Pd.of_nat (snd (snd r)) in
         (fst r, Pd.div t (t + f)))
      (retention users).

(** ** Click-through rate by algorithm version (lines 95-96) *)

(** [str] of a flag cell. *)
Definition str_of_flag (b : option bool) : string :=
  match b with
  | Some true => "True"
  | Some false => "False"
  | None => "nan"
  end.

(** [recs["was_clicked"] = recs["was_clicked"].astype(str)]. *)
Definition astype_str (recs : list Recs.raw) : list (Recs.row string) :=
  Assign.was_clicked recs
    (map (fun r => str_of_flag (Recs.was_clicked r)) recs).

(** The cast on one record. *)
Definition cast_row (r : Recs.raw) : Recs.row string :=
  Recs.mk (Recs.recommendation_id r) (Recs.algorithm_version r)
          (Recs.recommendation_type r) (str_of_flag (Recs.was_clicked r)).

(** [(x == "True").sum()]. *)
Definition clicked (x : list string) : nat :=
  List.length (filter (fun s => String.eqb s "True") x).

(** [recs.groupby("algorithm_version")["was_clicked"]
      .apply(lambda x: (x == "True").sum() / len(x))]. *)
Definition ctr (recs : list (Recs.row string)) : list (string * option Q) :=
  Pd.groupby_agg Recs.algorithm_version
    (fun g =>
       let x := map Recs.was_clicked g in
       Pd.div (Pd.of_nat (clicked x)) (Pd.of_nat (List.length x)))
    recs.

(** ** Click-through rate by recommendation type (lines 228-234) *)

Record summary : Type := mk_summary {
  recommendation_type : string;
  impressions : nat;
  clicks : nat;
  type_ctr : option Q
}.

(** [impressions] counts the non-missing [recommendation_id]s of the
    group, [clicks] its ["True"] cells.  The second [astype(str)] of line
    228 leaves the strings of line 95 as they are. *)
Definition rec_summary (recs : list (Recs.row string)) : list summary :=
  map (fun g =>
         let impressions := Pd.count (map Recs.recommendation_id (snd g)) in
         let clicks := clicked (map Recs.was_clicked (snd g)) in
         mk_summary (fst g) impressions clicks
                    (Pd.div (Pd.of_nat clicks) (Pd.of_nat impressions)))
      (Pd.groupby Recs.recommendation_type recs).

(** ** Engagement by device (line 123) and by genre (lines 207-208) *)

Definition device_eng {P : Type} (watch : list (Watch.t P))
  : list (string * Q) :=
  sort_desc (Pd.groupby_agg Watch.device_type
                            (fun g => Pd.sum (durations g)) watch).

Definition watch_genre {P : Type} (watch : list (Watch.t P))
           (movies : list Movies.row) :=
  merge_genre watch movies.

Definition genre_eng {P : Type} (watch : list (Watch.t P))
           (movies : list Movies.row) : list (string * Q) :=
  sort_desc (Pd.groupby_agg genre_of
                            (fun g => Pd.sum (durations (map fst g)))
                            (watch_genre watch movies)).

(** ** Engagement by subscription plan (lines 185-187) *)

Definition watch_user {P : Type} (watch : list (Watch.t P))
  : list (string * Q) :=
  watch_sum_by_user watch.

Definition users_plan {P : Type} (users : list Users.t)
           (watch : list (Watch.t P)) : list (Users.t * Q) :=
  merge_totals users (watch_user watch).

Definition plan_of (up : Users.t * Q) : option string :=
  Users.subscription_plan (fst up).

Definition plan_eng {P : Type} (users : list Users.t)
           (watch : list (Watch.t P)) : list (string * option Q) :=
  Pd.groupby_agg plan_of (fun g => Pd.mean (map (fun up => Some (snd up)) g))
                 (users_plan users watch).

(** ** Satisfaction (lines 172-174, 196-197, 217) *)

Definition watch_rated {P : Type} (watch : list (Watch.t P))
  : list (Watch.t P) :=
  filter (fun w => Pd.notna (Watch.user_rating w)) watch.

Definition device_sat {P : Type} (watch_rated : list (Watch.t P))
  : list (string * option Q) :=
  Pd.groupby_agg Watch.device_type
                 (fun g => Pd.mean (map Watch.user_rating g)) watch_rated.

Definition plan_sat {P : Type} (users : list Users.t)
           (watch_rated : list (Watch.t P)) : list (string * option Q) :=
  Pd.groupby_agg (fun ur => Users.subscription_plan (fst ur))
                 (fun g => Pd.mean (map (fun ur => Watch.user_rating (snd ur))
                                        g))
                 (Pd.merge_inner Users.user_id Watch.user_id
                                 users watch_rated).

Definition genre_sat {P : Type}
           (watch_genre : list (Watch.t P * option Movies.row))
  : list (string * option Q) :=
  Pd.groupby_agg genre_of
                 (fun g => Pd.mean (map (fun wm => Watch.user_rating (fst wm))
                                        g))
                 (filter (fun wm => Pd.notna (Watch.user_rating (fst wm)))
                         watch_genre).

Definition some_values (l : list (string * Q)) : list (string * option Q) :=
  map (fun kv => (fst kv, Some (snd kv))) l.

(** ** Reference counts, stated from the specification *)

(** The users of a plan that are flagged active. *)
Definition active_users (g : list Users.t) : nat :=
  List.length (filter (fun u => is_true (Users.is_active u)) g).

(** The users of a plan whose active flag is present. *)
Definition flagged_users (g : list Users.t) : nat :=
  List.length (filter (fun u => Pd.notna (Users.is_active u)) g).

(** The clicked records of a group of the log as read. *)
Definition clicked_records (g : list Recs.raw) : nat :=
  List.length (filter (fun r => is_true (Recs.was_clicked r)) g).

(** The records of a group that carry an identifier. *)
Definition identified_records (g : list Recs.raw) : nat :=
  List.length (filter (fun r => Pd.notna (Recs.recommendation_id r)) g).

(** ** The sections of the page *)

Section Page.
Context {T : Type}.

Definition rule : St.M T unit := St.emit (St.Markdown "---").

Definition kpis (users : list Users.t) (watch : list (Watch.t (option Q)))
  : St.M T unit :=
  St.emit (St.Kpi "Users" (Some (Pd.of_nat (total_users users)))) ;;;
  St.emit (St.Kpi "Watch Hours" (Some (total_watch_hours watch))) ;;;
  St.emit (St.Kpi "Avg Monthly Spend" (avg_spend users)) ;;;
  St.emit (St.Kpi "Active Subscriptions"
                  (Some (Pd.of_nat (active_subs users)))) ;;;
  rule.

Definition retention_by_plan (users : list Users.t) : St.M T unit :=
  St.emit (St.Header "Retention by Subscription Plan") ;;;
  St.emit (St.PlotlyChart (St.Bar (retention_rate users))) ;;;
  rule.

Definition ctr_by_algorithm (recs : list (Recs.row string)) : St.M T unit :=
  St.emit (St.Header "Recommendation CTR by Algorithm Version") ;;;
  St.emit (St.PlotlyChart (St.Bar (ctr recs))) ;;;
  St.emit (St.Markdown "**Can't really tell much from this data as the differences are minimal between algorithm versions.**") ;;;
  rule.

(** Line 157.  When no session has a device type, [sess] is empty and the
    frame that [groupby(...).apply(_iqr_filter)] returns for it carries
    [device_type] both as a column and as the name of its index: grouping it
    by ["device_type"] raises.  The raw [sess] has no such index. *)
Definition med_f (exclude_outliers : bool) (sess : list Sess.row)
  : option (list (string * option Q)) :=
  if exclude_outliers && empty sess
  then None
  else Some (Device.med_f (Device.sess_f exclude_outliers sess)).

Definition engagement_by_device (exclude_outliers : bool)
           (watch : list (Watch.t (option Q))) : St.M T unit :=
  St.emit (St.Header "Engagement by Device Type") ;;;
  St.emit (St.PlotlyChart (St.Bar (some_values (device_eng watch)))) ;;;
  let sess := Device.sess watch in
  St.emit (St.PlotlyChart (St.Box (Device.sess_f exclude_outliers sess))) ;;;
  medians <- St.lift (med_f exclude_outliers sess) ;;
  St.emit (St.PlotlyChart (St.Bar medians)) ;;;
  rule.

Definition satisfaction_by_device
           (watch_rated : list (Watch.t (option Q))) : St.M T unit :=
  St.emit (St.Header "Satisfaction by Device Type") ;;;
  (if negb (empty watch_rated)
   then
     St.emit (St.PlotlyChart (St.Bar (device_sat watch_rated))) ;;;
     St.emit (St.Markdown "**Interpretation:** Average user satisfaction by device. Are some devices associated with higher ratings?")
   else
     St.emit (St.Info "No user ratings available for device analysis.")) ;;;
  rule.

Definition engagement_by_plan (users : list Users.t)
           (watch : list (Watch.t (option Q))) : St.M T unit :=
  St.emit (St.Header "Engagement by Subscription Plan") ;;;
  St.emit (St.PlotlyChart (St.Bar (plan_eng users watch))) ;;;
  St.emit (St.Markdown "**Interpretation:** Which plans have the most engaged users?") ;;;
  rule.

Definition satisfaction_by_plan (users : list Users.t)
           (watch_rated : list (Watch.t (option Q))) : St.M T unit :=
  St.emit (St.Header "Satisfaction by Subscription Plan") ;;;
  (if negb (empty watch_rated)
   then
     St.emit (St.PlotlyChart (St.Bar (plan_sat users watch_rated))) ;;;
     St.emit (St.Markdown "**Premium + plans seems to be correlated with higher satisfaction")
   else
     St.emit (St.Info "No user ratings available for plan analysis.")) ;;;
  rule.

Definition engagement_by_genre (watch : list (Watch.t (option Q)))
           (movies : list Movies.row) : St.M T unit :=
  St.emit (St.Header "Engagement by Genre") ;;;
  St.emit (St.PlotlyChart (St.Bar (some_values (genre_eng watch movies)))) ;;;
  St.emit (St.Markdown "**Here adventure is the most watched genre") ;;;
  rule.

Definition satisfaction_by_genre
           (watch_rated : list (Watch.t (option Q)))
           (watch_genre : list (Watch.t (option Q) * option Movies.row))
  : St.M T unit :=
  St.emit (St.Header "Satisfaction by Genre") ;;;
  (if negb (empty watch_rated)
   then
     St.emit (St.PlotlyChart (St.Bar (genre_sat watch_genre))) ;;;
     St.emit (St.Markdown "**Here we can see that adventure doesn't necessarly have the highest user rating despite being the most watched genre")
   else
     St.emit (St.Info "No user ratings available for genre analysis.")) ;;;
  rule.

Definition ctr_by_type (recs : list (Recs.row string)) : St.M T unit :=
  St.emit (St.Header "Recommendation Click-Through Rate by Type") ;;;
  (if negb (empty recs)
   then
     St.emit (St.PlotlyChart
                (St.Bar (map (fun s => (recommendation_type s, type_ctr s))
                             (rec_summary recs)))) ;;;
     St.emit (St.Markdown "**New releases is what works the best to get users to click on recommendations")
   else
     St.emit (St.Info "No recommendation logs available to analyze.")) ;;;
  rule.
End Page.

(** ** The script

    [main] loads the tables and renders the sections in page order.  The
    sections that only draw a scatter plot, a map or a time series, and the
    closing summary, put nothing on the page of this model. *)

Section Main.
Variable parse_float : string -> option (option Q).

Definition main (exclude_outliers : bool) : St.M tables unit :=
  t <- load_data parse_float None ;;
  kpis (users t) (watch t) ;;;
  retention_by_plan (users t) ;;;
  let recs := astype_str (recs t) in
  ctr_by_algorithm recs ;;;
  engagement_by_device exclude_outliers (watch t) ;;;
  let watch_rated := watch_rated (watch t) in
  satisfaction_by_device watch_rated ;;;
  engagement_by_plan (users t) (watch t) ;;;
  satisfaction_by_plan (users t) watch_rated ;;;
  engagement_by_genre (watch t) (movies t) ;;;
  satisfaction_by_genre watch_rated (watch_genre (watch t) (movies t)) ;;;
  ctr_by_type recs.
End Main.

End MaxChartier.

(* ================================================================== *)
(** * [netflix_story_dashboard.py] *)

Module Story.

Record tables : Type := mk {
  users : list Users.t;
  watch : list (Watch.t cell);
  movies : list Movies.row
}.

(** ** Ingestion (lines 147-158): the progress column is left as read. *)

Section Load.
Variable parse_float : string -> option (option Q).

Definition coerce (col : list cell) : St.M tables (list (option Q)) :=
  St.lift (Numeric.to_numeric parse_float Numeric.Coerce col).

Definition load_body : St.M tables tables :=
  users <- St.read_users (St.path_join "." "users.csv") ;;
  watch <- St.read_watch (St.path_join "." "watch_history.csv") ;;
  movies <- St.read_movies (St.path_join "." "movies.csv") ;;
  duration <- coerce (map Watch.watch_duration_minutes watch) ;;
  let watch :=
    Assign.watch_duration_minutes watch (map (Pd.fillna 0) duration) in
  spend <- coerce (map Users.monthly_spend users) ;;
  age <- coerce (map Users.age users) ;;
  let users := Assign.spend_and_age users spend age in
  St.ret (mk users watch movies).

(** The function takes no argument: the memo key is the empty one. *)
Definition load_data : St.M tables tables :=
  St.cache_data [] load_body.
End Load.

(** ** Engagement per user (lines 187-191, 223) *)

Definition avg_watch_per_user {P : Type} (watch : list (Watch.t P))
  : list (string * Q) :=
  watch_sum_by_user watch.

Definition user_engagement {P : Type} (users : list Users.t)
           (watch : list (Watch.t P)) : list (Users.t * Q) :=
  merge_totals users (avg_watch_per_user watch).

Definition user_engagement_clean (user_engagement : list (Users.t * Q))
  : list (Users.t * Q) :=
  filter (fun ue => Pd.notna (Users.monthly_spend (fst ue))) user_engagement.

(** ** The headline share (lines 197-199) *)

(** [col > threshold], false against NaN. *)
Definition gt_nan (v : Q) (threshold : option Q) : bool :=
  match threshold with
  | Some t => negb (Qle_bool v t)
  | None => false
  end.

(** [col < threshold], false when either side is NaN. *)
Definition lt_nan (v threshold : option Q) : bool :=
  match v, threshold with
  | Some x, Some t => negb (Qle_bool t x)
  | _, _ => false
  end.

Definition spends (rows : list (Users.t * Q)) : list (option Q) :=
  map (fun ue => Users.monthly_spend (fst ue)) rows.

Definition high_engagement (user_engagement : list (Users.t * Q))
  : list (Users.t * Q) :=
  filter (fun ue =>
            gt_nan (snd ue) (Pd.quantile (3 # 4) (map snd user_engagement)))
         user_engagement.

Definition high_eng_low_spend (high_engagement : list (Users.t * Q))
  : list (Users.t * Q) :=
  filter (fun ue =>
            lt_nan (Users.monthly_spend (fst ue))
                   (Pd.median (Pd.dropna (spends high_engagement))))
         high_engagement.

(** [len(a) / len(b) * 100] on Python integers: a zero divisor raises. *)
Definition pct (a b : nat) : option Q :=
  option_map (fun x => x * 100) (Pd.div (Pd.of_nat a) (Pd.of_nat b)).

(** ** Spend and engagement by plan (lines 249-254) *)

Record plan_row : Type := mk_plan {
  plan : string;
  plan_avg_spend : option Q;
  plan_avg_watch : option Q;
  plan_user_count : nat
}.

Definition plan_analysis (clean : list (Users.t * Q)) : list plan_row :=
  map (fun g =>
         mk_plan (fst g)
                 (Pd.mean (spends (snd g)))
                 (Pd.mean (map (fun ue => Some (snd ue)) (snd g)))
                 (Pd.count (map (fun ue => Users.user_id (fst ue)) (snd g))))
      (Pd.groupby (fun ue => Users.subscription_plan (fst ue)) clean).

(** ** Retention by engagement level and spend bracket (lines 388-410) *)

Definition spend_bins : list Q := [0; 5; 10; 15; 100].
Definition spend_labels : list string :=
  ["$0-5"%string; "$5-10"%string; "$10-15"%string; "$15+"%string].
Definition level_labels : list string :=
  ["Low"%string; "Medium"%string; "High"%string; "Very High"%string].

Record ret_row : Type := mk_ret {
  user : Users.t;
  total_watch_minutes : Q;
  spend_bracket : option string;
  engagement_level : option string
}.

(** [retention_df]; [None] when [qcut] raises. *)
Definition retention_df (clean : list (Users.t * Q))
  : option (list ret_row) :=
  match Pd.qcut4 level_labels (map snd clean) with
  | Some levels =>
      Some (map (fun ul =>
                   let ue := fst ul in
                   mk_ret (fst ue) (snd ue)
                          (Pd.cut spend_bins spend_labels
                                  (Users.monthly_spend (fst ue)))
                          (snd ul))
                (combine clean levels))
  | None => None
  end.

Definition flags (rows : list ret_row) : list (option bool) :=
  map (fun r => Users.is_active (user r)) rows.

(** [is_active] aggregated by ["sum"]: the number of [True] flags. *)
Definition active_count (rows : list ret_row) : nat :=
  List.length (filter is_true (flags rows)).

(** [is_active] aggregated by ["count"]: the number of flags present. *)
Definition total_count (rows : list ret_row) : nat :=
  Pd.count (flags rows).

Record matrix_row : Type := mk_matrix {
  m_level : string;
  m_bracket : string;
  m_active : nat;
  m_total : nat
}.

(** Lines 406-409.  Both keys are categorical: every pair of categories
    gets a row, with the two counts of its users. *)
Definition retention_matrix (df : list ret_row) : list matrix_row :=
  flat_map
    (fun level =>
       map (fun bracket =>
              let g :=
                filter (fun r =>
                          Pd.key_is level (engagement_level r)
                          && Pd.key_is bracket (spend_bracket r)) df in
              mk_matrix level bracket (active_count g) (total_count g))
           spend_labels)
    level_labels.

(** How [read_csv] types the [is_active] column: booleans when every flag
    is there, Python objects when some flags are missing and some are not
    (a column without any flag is a float column of NaN). *)
Definition object_flags (users : list Users.t) : bool :=
  existsb (fun u => negb (Pd.notna (Users.is_active u))) users
  && existsb (fun u => Pd.notna (Users.is_active u)) users.

(** Line 410 on one row, [active_count / total_count * 100] rounded to one
    decimal.  On numbers an empty cell gives NaN.  On an object column the
    division is that of Python integers, and [round] leaves the objects as
    they are. *)
Definition retention_rate (object : bool) (m : matrix_row) : option Q :=
  let rate :=
    option_map (fun x => x * 100)
               (Pd.div (Pd.of_nat (m_active m)) (Pd.of_nat (m_total m))) in
  if object then rate else option_map Pd.round1 rate.

(** Line 410 on the frame: on an object column a row without any flagged
    user makes Python divide by zero, which raises. *)
Definition retention_rates (object : bool) (matrix : list matrix_row)
  : option (list (matrix_row * option Q)) :=
  if object && existsb (fun m => (m_total m =? 0)%nat) matrix
  then None
  else Some (map (fun m => (m, retention_rate object m)) matrix).

(** ** The spend brackets (lines 493-499) *)

Record bracket_row : Type := mk_bracket {
  bracket : string;
  user_count : nat;
  avg_watch_minutes : option Q;
  bracket_avg_spend : option Q;
  retention : option Q
}.

(** ["mean"] of the flags: the share of [True] among the flags present. *)
Definition mean_flags (fl : list (option bool)) : option Q :=
  Pd.div (Pd.of_nat (List.length (filter is_true fl)))
         (Pd.of_nat (Pd.count fl)).

Definition spend_brackets (df : list ret_row) : list bracket_row :=
  map (fun b =>
         let g := filter (fun r => Pd.key_is b (spend_bracket r)) df in
         mk_bracket b
                    (Pd.count (map (fun r => Users.user_id (user r)) g))
                    (Pd.mean (map (fun r => Some (total_watch_minutes r)) g))
                    (Pd.mean (map (fun r => Users.monthly_spend (user r)) g))
                    (mean_flags (flags g)))
      spend_labels.

(** ** The script: the headline share, the plan chart and the heat map.
    The remaining sections draw from the same frames. *)

Section Main.
Variable parse_float : string -> option (option Q).

Definition main : St.M tables unit :=
  t <- load_data parse_float ;;
  let ue := user_engagement (users t) (watch t) in
  let high := high_engagement ue in
  share <- St.lift (pct (List.length (high_eng_low_spend high))
                        (List.length high)) ;;
  St.emit (St.Kpi "High Engagement, Low Spend" (Some share)) ;;;
  let clean := user_engagement_clean ue in
  St.emit (St.PlotlyChart
             (St.Bar (map (fun p => (plan p, plan_avg_spend p))
                          (plan_analysis clean)))) ;;;
  df <- St.lift (retention_df clean) ;;
  rates <- St.lift (retention_rates (object_flags (users t))
                                    (retention_matrix df)) ;;
  St.emit (St.PlotlyChart
             (St.Heatmap (map (fun mr => (m_level (fst mr), m_bracket (fst mr),
                                          snd mr))
                              rates))).
End Main.

End Story.

(* ================================================================== *)
(** * Further pandas primitives *)

Module PdExt.

(** [Series.map(other)] on one cell: the value [other] holds at that label,
    missing when the label is missing or absent from the index. *)
Fixpoint at_label {V : Type} (other : list (string * V)) (k : string)
  : option V :=
  match other with
  | [] => None
  | (k', v) :: other' =>
      if String.eqb k k' then Some v else at_label other' k
  end.

Definition map_series {V : Type} (other : list (string * option V))
           (key : option string) : option V :=
  match key with
  | Some k =>
      match at_label other k with
      | Some v => v
      | None => None
      end
  | None => None
  end.

(** [DataFrame.head(n)]. *)
Definition head {A : Type} (n : nat) (rows : list A) : list A :=
  firstn n rows.

(** [Series.isin(values)] on one cell; a missing cell is in a list that
    holds a missing value. *)
Definition isin (values : list (option string)) (x : option string) : bool :=
  existsb (Pd.key_eqb x) values.

(** [reset_index().dropna(subset=[value])] on a grouped aggregate. *)
Fixpoint dropna_values {K V : Type} (rows : list (K * option V))
  : list (K * V) :=
  match rows with
  | [] => []
  | (k, Some v) :: rows' => (k, v) :: dropna_values rows'
  | (_, None) :: rows' => dropna_values rows'
  end.

End PdExt.

(* ================================================================== *)
(** * Further page predicates *)

Module StExt.

(** The step runs, draws a chart and puts no informational message on the
    page; nothing else of the state changes. *)
Definition renders_chart_only {T : Type} (section : St.M T unit)
           (w : St.world T) : Prop :=
  exists els,
    section w = Some (tt, St.mk (St.fs w) (St.cache w) (St.page w ++ els)) /\
    existsb St.is_chart els = true /\
    existsb St.is_info els = false.

(** The files that [load_data] of the Max Chartier dashboard reads. *)
Definition file_names : list string :=
  ["users.csv"%string; "watch_history.csv"%string; "movies.csv"%string;
   "recommendation_logs.csv"%string].

End StExt.

(* ================================================================== *)
(** * Further sections of [netflix_max_chartier_dashboard.py] *)

Module Charts.

(** ** Monthly spend against engagement (lines 74-76) *)

(** [watch.groupby("user_id")["watch_duration_minutes"].mean()]. *)
Definition avg_watch {P : Type} (watch : list (Watch.t P))
  : list (string * option Q) :=
  Pd.groupby_agg Watch.user_id
                 (fun g => Pd.mean (map Some (durations g))) watch.

(** [engagement = users.copy()] with the column [avg_watch_duration]
    mapped from the user identifier. *)
Definition engagement {P : Type} (users : list Users.t)
           (watch : list (Watch.t P)) : list (Users.t * option Q) :=
  map (fun u => (u, PdExt.map_series (avg_watch watch) (Users.user_id u)))
      users.

(** The minutes of the sessions that carry the identifier [id]; none for
    a missing identifier. *)
Definition minutes_of {P : Type} (watch : list (Watch.t P))
           (id : option string) : Q :=
  match id with
  | Some k => Pd.sum (durations (Pd.group Watch.user_id k watch))
  | None => 0
  end.

(** ** Average spend by country (lines 104-105) *)

Definition geo_country (users : list Users.t) : list (string * Q) :=
  PdExt.dropna_values
    (Pd.groupby_agg Users.country
                    (fun g => Pd.mean (map Users.monthly_spend g)) users).

(** ** Medians and quartiles by device (lines 156-157, 164-165) *)

Definition med_all (sess : list Sess.row) : list (string * option Q) :=
  Pd.groupby_agg Sess.device_type (fun g => Pd.median (Device.minutes g))
                 sess.

Record quartiles : Type := mk_quartiles {
  q_first : option Q;
  q_median : option Q;
  q_third : option Q
}.

(** [sess_f.groupby("device_type")[...].quantile([0.25, 0.5, 0.75])
      .unstack()] with the columns named Q1, Median and Q3. *)
Definition qstats (sess_f : list Sess.row) : list (string * quartiles) :=
  Pd.groupby_agg Sess.device_type
                 (fun g =>
                    mk_quartiles (Pd.quantile (1 # 4) (Device.minutes g))
                                 (Pd.quantile (1 # 2) (Device.minutes g))
                                 (Pd.quantile (3 # 4) (Device.minutes g)))
                 sess_f.

End Charts.

(* ================================================================== *)
(** * Further sections of [netflix_story_dashboard.py] *)

Module Segment.

(** ** The rows of [retention_df] (lines 388-403) *)

(** The row built for one user when the quantile edges are [e0] to [e4]. *)
Definition leveled (e0 e1 e2 e3 e4 : Q) (ue : Users.t * Q)
  : Story.ret_row :=
  Story.mk_ret (fst ue) (snd ue)
               (Pd.cut Story.spend_bins Story.spend_labels
                       (Users.monthly_spend (fst ue)))
               (match Pd.bin_index true [e0; e1; e2; e3; e4] (snd ue) with
                | Some i => nth_error Story.level_labels i
                | None => None
                end).

(** Does the row count in some cell of the heat map?  Its flag is present
    and it has a level and a bracket among the labels. *)
Definition in_some_cell (r : Story.ret_row) : bool :=
  Pd.notna (Users.is_active (Story.user r))
  && Pd.has_key_in Story.engagement_level Story.level_labels r
  && Pd.has_key_in Story.spend_bracket Story.spend_labels r.

(** ** The target segment (lines 290-293) *)

Definition target_segment (clean : list (Users.t * Q))
  : list (Users.t * Q) :=
  filter (fun ue =>
            Story.gt_nan (snd ue) (Pd.quantile (3 # 4) (map snd clean))
            && Story.lt_nan (Users.monthly_spend (fst ue))
                            (Pd.median (Pd.dropna (Story.spends clean))))
         clean.

(** ** What the segment watches (lines 330-335) *)

Definition target_user_ids (target_segment : list (Users.t * Q))
  : list (option string) :=
  map (fun ue => Users.user_id (fst ue)) target_segment.

Definition target_watch {P : Type} (watch : list (Watch.t P))
           (ids : list (option string)) (movies : list Movies.row)
  : list (Watch.t P * option Movies.row) :=
  merge_genre (filter (fun w => PdExt.isin ids (Watch.user_id w)) watch)
              movies.

(** The ten genres with the most minutes, by decreasing minutes. *)
Definition genre_engagement {P : Type}
           (target_watch : list (Watch.t P * option Movies.row))
  : list (string * Q) :=
  PdExt.head 10
    (sort_desc (Pd.groupby_agg genre_of
                               (fun g => Pd.sum (durations (map fst g)))
                               target_watch)).

End Segment.

(* ================================================================== *)
(** * The grouped sums in binary64
      ([netflix_max_chartier_dashboard.py], lines 51, 123, 185 and
      207-208; [netflix_story_dashboard.py], line 187) *)

Module Rounded.

(** [watch["watch_duration_minutes"].sum()] (line 51). *)
Definition total {P : Type} (rows : list (Watch.t P)) : Q :=
  Float64.sum (durations rows).

Definition device_eng {P : Type} (watch : list (Watch.t P))
  : list (string * Q) :=
  sort_desc (Pd.groupby_agg Watch.device_type
                            (fun g => Float64.sum (durations g)) watch).

Definition genre_eng {P : Type} (watch : list (Watch.t P))
           (movies : list Movies.row) : list (string * Q) :=
  sort_desc (Pd.groupby_agg genre_of
                            (fun g => Float64.sum (durations (map fst g)))
                            (MaxChartier.watch_genre watch movies)).

(** [watch.groupby("user_id")["watch_duration_minutes"].sum()]. *)
Definition watch_sum_by_user {P : Type} (watch : list (Watch.t P))
  : list (string * Q) :=
  Pd.groupby_agg Watch.user_id (fun g => Float64.sum (durations g)) watch.

End Rounded.

(* ================================================================== *)
(** * Sample tables *)

Module Sample.

(** A session without a device type, and a session whose movie is not in
    the catalogue. *)
Definition watch_without_device : list (Watch.t (option Q)) :=
  [Watch.mk (Some "u1"%string) (Some "m1"%string) 5 None None None].

Definition watch_unknown_movie : list (Watch.t (option Q)) :=
  [Watch.mk (Some "u1"%string) (Some "m1"%string) 5 None
            (Some "tv"%string) None].

(** Three sessions on two devices whose cells read 0.3, 0.2 and 0.1: each
    the float64 nearest to the decimal. *)
Definition watch_fractions : list (Watch.t (option Q)) :=
  [Watch.mk (Some "u1"%string) (Some "m1"%string) (Float64.round (3 # 10))
            None (Some "tv"%string) None;
   Watch.mk (Some "u1"%string) (Some "m1"%string) (Float64.round (2 # 10))
            None (Some "mobile"%string) None;
   Watch.mk (Some "u1"%string) (Some "m1"%string) (Float64.round (1 # 10))
            None (Some "tv"%string) None].

(** A negative duration, as a CSV cell [-30] loads. *)
Definition watch_negative : list (Watch.t (option Q)) :=
  [Watch.mk (Some "u1"%string) (Some "m1"%string) (-30) None
            (Some "tv"%string) None].

(** A small well-formed data set. *)
Definition a_movie : Movies.row :=
  Movies.mk (Some "m1"%string) (Some "Drama"%string) (Some "Movie"%string).

Definition session (user device : string) (minutes : Q)
           (rating : option Q) : Watch.t (option Q) :=
  Watch.mk (Some user) (Some "m1"%string) minutes None (Some device) rating.

Definition watch : list (Watch.t (option Q)) :=
  [session "u1" "tv" 10 (Some 4); session "u1" "tv" 20 None;
   session "u2" "tv" 30 (Some 5); session "u2" "tv" 40 None;
   session "u2" "tv" 1000 None; session "u2" "mobile" 15 None].

Definition movies : list Movies.row := [a_movie].

Definition user (id plan : string) (spend : option Q) (active : option bool)
  : Users.t :=
  Users.mk (Some id) (Some plan) spend None active
           (Some "USA"%string) (Some "tv"%string) None.

Definition users : list Users.t :=
  [user "u1" "Basic" (Some 8) (Some true);
   user "u2" "Basic" (Some 9) (Some false);
   user "u3" "Premium" (Some 20) (Some true)].

(** The sample users with their watch total, spend bracket and
    engagement level, as [retention_df] has them. *)
Definition retention_rows : list Story.ret_row :=
  [Story.mk_ret (user "u1" "Basic" (Some 8) (Some true)) 30
                (Some "$5-10"%string) (Some "Medium"%string);
   Story.mk_ret (user "u2" "Basic" (Some 9) (Some false)) 1085
                (Some "$5-10"%string) (Some "Very High"%string);
   Story.mk_ret (user "u3" "Premium" (Some 20) (Some true)) 0
                (Some "$15+"%string) (Some "Low"%string)].

(** Two Basic users, one of them without an active flag. *)
Definition users_flag_missing : list Users.t :=
  [user "u1" "Basic" (Some 8) (Some true);
   user "u2" "Basic" (Some 9) None].

Definition rec (id : option string) (algorithm type : string)
           (clicked : option bool) : Recs.raw :=
  Recs.mk id (Some algorithm) (Some type) clicked.

Definition recs : list Recs.raw :=
  [rec (Some "r1"%string) "v1" "trending" (Some true);
   rec (Some "r2"%string) "v1" "trending" (Some false);
   rec (Some "r3"%string) "v2" "similar" None;
   rec (Some "r4"%string) "v2" "trending" (Some true)].

(** Three trending recommendations, the two clicked ones without an
    identifier. *)
Definition recs_id_missing : list Recs.raw :=
  [rec (Some "r1"%string) "v1" "trending" (Some false);
   rec None "v1" "trending" (Some true);
   rec None "v1" "trending" (Some true)].

(** A parser that knows two spellings; any other text is not a number. *)
Definition parse_float (s : string) : option (option Q) :=
  if String.eqb s "12.5" then Some (Some (25 # 2))
  else if String.eqb s "nan" then Some None
  else None.

Definition raw_users : list Users.raw :=
  [Users.mk (Some "u1"%string) (Some "Basic"%string) (CNum 8) (CStr "n/a")
            (Some true) (Some "USA"%string) (Some "tv"%string) None].

Definition raw_watch : list Watch.raw :=
  [Watch.mk (Some "u1"%string) (Some "m1"%string) (CStr "12.5") (CStr "abc")
            (Some "tv"%string) None;
   Watch.mk (Some "u1"%string) (Some "m1"%string) (CStr "soon") CNaN
            (Some "tv"%string) (Some 4)].

(** A working directory with the four files. *)
Definition files (path : string) : option St.file :=
  if String.eqb path "users.csv" then Some (St.UsersFile raw_users)
  else if String.eqb path "watch_history.csv"
       then Some (St.WatchFile raw_watch)
  else if String.eqb path "movies.csv" then Some (St.MoviesFile movies)
  else if String.eqb path "recommendation_logs.csv"
       then Some (St.RecsFile recs)
  else None.

(** A fresh run: nothing cached, nothing on the page. *)
Definition fresh {T : Type} : St.world T := St.mk files [] [].

End Sample.

(* ================================================================== *)
(** * Facts about the pandas primitives *)

Module PdFacts.

Lemma insert_perm {A : Type} (leb : A -> A -> bool) (x : A) (l : list A) :
  Permutation (Pd.insert leb x l) (x :: l).
Proof.
  induction l as [|y l IH]; simpl.
  - apply Permutation_refl.
  - destruct (leb x y).
    + apply Permutation_refl.
    + eapply perm_trans; [apply perm_skip, IH | apply perm_swap].
Qed.

Lemma sort_perm {A : Type} (leb : A -> A -> bool) (l : list A) :
  Permutation (Pd.sort leb l) l.
Proof.
  induction l as [|x l IH]; simpl.
  - apply perm_nil.
  - eapply perm_trans; [apply insert_perm | apply perm_skip, IH].
Qed.

Lemma sort_in {A : Type} (leb : A -> A -> bool) (l : list A) (x : A) :
  In x (Pd.sort leb l) <-> In x l.
Proof.
  split; apply Permutation_in;
    [apply sort_perm | apply Permutation_sym, sort_perm].
Qed.

Lemma sort_length {A : Type} (leb : A -> A -> bool) (l : list A) :
  List.length (Pd.sort leb l) = List.length l.
Proof. apply Permutation_length, sort_perm. Qed.

Lemma dropna_in {A : Type} (xs : list (option A)) (x : A) :
  In x (Pd.dropna xs) <-> In (Some x) xs.
Proof.
  induction xs as [|[y|] xs IH]; simpl.
  - tauto.
  - rewrite IH. split; intros [H|H]; auto; left; congruence.
  - rewrite IH. split; [auto | intros [H|H]; [discriminate | assumption]].
Qed.

Lemma key_is_true (k : string) (o : option string) :
  Pd.key_is k o = true <-> o = Some k.
Proof.
  destruct o as [k'|]; simpl.
  - rewrite String.eqb_eq. split; congruence.
  - split; discriminate.
Qed.

Lemma group_keys_in (ks : list (option string)) (k : string) :
  In k (Pd.group_keys ks) <-> In (Some k) ks.
Proof.
  unfold Pd.group_keys.
  rewrite sort_in, nodup_In. apply dropna_in.
Qed.

Lemma group_keys_nodup (ks : list (option string)) :
  NoDup (Pd.group_keys ks).
Proof.
  unfold Pd.group_keys.
  eapply Permutation_NoDup; [apply Permutation_sym, sort_perm |].
  apply NoDup_nodup.
Qed.

Lemma group_in {R : Type} (key : R -> option string) (k : string)
      (rows : list R) (r : R) :
  In r (Pd.group key k rows) <-> In r rows /\ key r = Some k.
Proof.
  unfold Pd.group. rewrite filter_In, key_is_true. tauto.
Qed.

Lemma groupby_in {R : Type} (key : R -> option string) (rows : list R)
      (k : string) (g : list R) :
  In (k, g) (Pd.groupby key rows) <->
  In (Some k) (map key rows) /\ g = Pd.group key k rows.
Proof.
  unfold Pd.groupby. rewrite in_map_iff. split.
  - intros [k' [E H]]. inversion E; subst.
    rewrite group_keys_in in H. auto.
  - intros [H ->]. exists k. rewrite group_keys_in. auto.
Qed.

Lemma groupby_keys {R : Type} (key : R -> option string) (rows : list R) :
  map fst (Pd.groupby key rows) = Pd.group_keys (map key rows).
Proof.
  unfold Pd.groupby. rewrite map_map. simpl. apply map_id.
Qed.

Lemma groupby_agg_in {R B : Type} (key : R -> option string)
      (f : list R -> B) (rows : list R) (k : string) (v : B) :
  In (k, v) (Pd.groupby_agg key f rows) <->
  In (Some k) (map key rows) /\ v = f (Pd.group key k rows).
Proof.
  unfold Pd.groupby_agg. rewrite in_map_iff. split.
  - intros [[k' g] [E H]]. simpl in E. inversion E; subst.
    apply groupby_in in H. destruct H as [H ->]. auto.
  - intros [H ->]. exists (k, Pd.group key k rows). split; [reflexivity|].
    apply groupby_in. auto.
Qed.

Lemma groupby_apply_in {R : Type} (key : R -> option string)
      (f : list R -> list R) (rows : list R) (r : R) :
  In r (Pd.groupby_apply key f rows) <->
  exists k, In (Some k) (map key rows) /\ In r (f (Pd.group key k rows)).
Proof.
  unfold Pd.groupby_apply. rewrite in_flat_map. split.
  - intros [[k g] [H Hr]]. apply groupby_in in H. destruct H as [H ->].
    exists k. auto.
  - intros [k [H Hr]]. exists (k, Pd.group key k rows). split; [|exact Hr].
    apply groupby_in. auto.
Qed.

Lemma filter_false {A : Type} (p : A -> bool) (l : list A) :
  (forall x, In x l -> p x = false) -> filter p l = [].
Proof.
  induction l as [|x l IH]; simpl; intros H; [reflexivity|].
  rewrite (H x) by auto. apply IH. auto.
Qed.

Lemma filter_filter {A : Type} (p q : A -> bool) (l : list A) :
  filter p (filter q l) = filter (fun x => q x && p x) l.
Proof.
  induction l as [|x l IH]; simpl; [reflexivity|].
  destruct (q x); simpl; [destruct (p x)|]; rewrite IH; reflexivity.
Qed.

(** Two tests that never hold together split a filter in two. *)
Lemma filter_or_perm {A : Type} (p q : A -> bool) (l : list A) :
  (forall x, In x l -> p x = true -> q x = true -> False) ->
  Permutation (filter (fun x => p x || q x) l) (filter p l ++ filter q l).
Proof.
  induction l as [|x l IH]; simpl; intros H; [apply perm_nil|].
  assert (IH' := IH (fun y Hy => H y (or_intror Hy))).
  destruct (p x) eqn:Ep, (q x) eqn:Eq; simpl.
  - exfalso. apply (H x); auto.
  - apply perm_skip, IH'.
  - eapply perm_trans; [apply perm_skip, IH' | apply Permutation_middle].
  - exact IH'.
Qed.

Lemma has_key_in_true {R : Type} (key : R -> option string)
      (ks : list string) (r : R) :
  Pd.has_key_in key ks r = true <-> exists k, In k ks /\ key r = Some k.
Proof.
  unfold Pd.has_key_in. rewrite existsb_exists.
  split; intros [k [H1 H2]]; exists k; split; auto;
    apply key_is_true; assumption.
Qed.

(** The groups of distinct labels partition the rows that carry one of the
    labels. *)
Lemma groups_partition {R : Type} (key : R -> option string)
      (rows : list R) (ks : list string) :
  NoDup ks ->
  Permutation (flat_map (fun k => Pd.group key k rows) ks)
              (filter (Pd.has_key_in key ks) rows).
Proof.
  induction 1 as [|k ks Hk Hnd IH]; simpl.
  - rewrite filter_false; [apply perm_nil | reflexivity].
  - eapply perm_trans; [apply Permutation_app_head, IH |].
    apply Permutation_sym.
    apply (filter_or_perm (fun r => Pd.key_is k (key r))
                          (Pd.has_key_in key ks)).
    intros r _ H1 H2. apply key_is_true in H1.
    apply has_key_in_true in H2. destruct H2 as [k' [Hin E]].
    assert (k' = k) by congruence. subst. contradiction.
Qed.

Lemma has_group_key {R : Type} (key : R -> option string) (rows : list R)
      (r : R) :
  In r rows ->
  Pd.has_key_in key (Pd.group_keys (map key rows)) r = Pd.notna (key r).
Proof.
  intros Hin. destruct (key r) as [k|] eqn:E; simpl.
  - apply has_key_in_true. exists k. split; [|exact E].
    apply group_keys_in. rewrite <- E. apply in_map. exact Hin.
  - destruct (Pd.has_key_in key _ r) eqn:H; [|reflexivity].
    apply has_key_in_true in H. destruct H as [k [_ H]]. congruence.
Qed.

Lemma flat_map_map {A B C : Type} (f : B -> list C) (g : A -> B)
      (l : list A) :
  flat_map f (map g l) = flat_map (fun x => f (g x)) l.
Proof.
  induction l as [|x l IH]; simpl; [reflexivity|]. rewrite IH. reflexivity.
Qed.

(** The groups of [groupby] hold exactly the rows whose key is present. *)
Lemma groupby_partition {R : Type} (key : R -> option string)
      (rows : list R) :
  Permutation (flat_map snd (Pd.groupby key rows))
              (filter (fun r => Pd.notna (key r)) rows).
Proof.
  unfold Pd.groupby. rewrite flat_map_map. simpl.
  eapply perm_trans; [apply groups_partition, group_keys_nodup |].
  rewrite (filter_ext_in _ _ _ (has_group_key key rows)).
  apply Permutation_refl.
Qed.

(** A filter applied inside every group, whose test may depend on the
    group's label, is one filter on the frame. *)
Lemma groupby_apply_filter {R : Type} (key : R -> option string)
      (test : string -> R -> bool) (rows : list R) :
  Permutation
    (flat_map (fun g => filter (test (fst g)) (snd g)) (Pd.groupby key rows))
    (filter (fun r => match key r with
                      | Some k => test k r
                      | None => false
                      end) rows).
Proof.
  set (own := fun r => match key r with
                       | Some k => test k r
                       | None => false
                       end).
  unfold Pd.groupby. rewrite flat_map_map. simpl.
  assert (E : forall k, filter (test k) (Pd.group key k rows)
                        = Pd.group key k (filter own rows)).
  { intros k. unfold Pd.group. rewrite !filter_filter.
    apply filter_ext. intros r. unfold own.
    destruct (key r) as [k'|] eqn:Ek; simpl; [|reflexivity].
    destruct (String.eqb_spec k k') as [->|]; simpl.
    - rewrite andb_true_r. reflexivity.
    - rewrite andb_false_r. reflexivity. }
  rewrite (flat_map_ext _ _ E).
  eapply perm_trans; [apply groups_partition, group_keys_nodup |].
  rewrite filter_filter.
  rewrite (filter_ext_in _ own); [apply Permutation_refl|].
  intros r Hin. rewrite (has_group_key key rows r Hin).
  unfold own. destruct (key r); simpl; [apply andb_true_r | reflexivity].
Qed.

End PdFacts.

(* ================================================================== *)
(** * The per-device IQR trim keeps exactly the values inside the fence *)

Module DeviceFacts.

Lemma sort_values_nonempty (xs : list Q) :
  xs <> [] -> Pd.sort_values xs <> [].
Proof.
  intros H E. apply H.
  apply length_zero_iff_nil.
  unfold Pd.sort_values in E.
  rewrite <- (PdFacts.sort_length Qle_bool xs), E. reflexivity.
Qed.

Lemma quantile_defined (q : Q) (xs : list Q) :
  xs <> [] -> exists v, Pd.quantile q xs = Some v.
Proof.
  intros H. apply sort_values_nonempty in H.
  unfold Pd.quantile. destruct (Pd.sort_values xs); [congruence|].
  eexists; reflexivity.
Qed.

Lemma within_spec (lower upper v : Q) :
  Device.within (Some (lower, upper)) v = true <-> lower <= v /\ v <= upper.
Proof.
  simpl. rewrite andb_true_iff, !Qle_bool_iff. tauto.
Qed.

(** The trimmed frame holds the rows inside the fence of their own device,
    each as often as the session frame does. *)
Lemma sess_f_perm (sess : list Sess.row) :
  Permutation (Device.sess_f true sess)
              (filter (Device.inside_own_fence sess) sess).
Proof.
  unfold Device.sess_f, Pd.groupby_apply.
  eapply perm_trans;
    [| apply (PdFacts.groupby_apply_filter
                Sess.device_type
                (fun k r =>
                   Device.within (Device.fence (Pd.group Sess.device_type k sess))
                                 (Sess.watch_duration_minutes r)) sess)].
  unfold Pd.groupby. rewrite !PdFacts.flat_map_map. simpl.
  apply Permutation_refl.
Qed.

End DeviceFacts.


(* ================================================================== *)
(** * Sums *)

Module SumFacts.

Lemma sum_app (l1 l2 : list Q) :
  Pd.sum (l1 ++ l2) == Pd.sum l1 + Pd.sum l2.
Proof.
  induction l1 as [|x l1 IH]; simpl.
  - ring.
  - rewrite IH. ring.
Qed.

Lemma sum_perm (l1 l2 : list Q) :
  Permutation l1 l2 -> Pd.sum l1 == Pd.sum l2.
Proof.
  induction 1 as [|x l1 l2 _ IH|x y l|l1 l2 l3 _ IH1 _ IH2]; simpl.
  - reflexivity.
  - rewrite IH. reflexivity.
  - ring.
  - rewrite IH1. exact IH2.
Qed.

Lemma sum_nonneg (l : list Q) :
  (forall x, In x l -> 0 <= x) -> 0 <= Pd.sum l.
Proof.
  induction l as [|x l IH]; simpl; intros H.
  - apply Qle_refl.
  - assert (0 <= x) by auto. assert (0 <= Pd.sum l) by auto. lra.
Qed.

(** The sum of the sums of the pieces is the sum of their concatenation. *)
Lemma sum_pieces {K R : Type} (val : R -> Q) (pieces : list (K * list R)) :
  Pd.sum (map (fun g => Pd.sum (map val (snd g))) pieces)
  == Pd.sum (map val (flat_map snd pieces)).
Proof.
  induction pieces as [|g pieces IH]; simpl.
  - reflexivity.
  - rewrite map_app, sum_app, IH. reflexivity.
Qed.

(** Grouped sums add up to the sum over the rows that have a key. *)
Lemma grouped_sums {R : Type} (key : R -> option string) (val : R -> Q)
      (rows : list R) :
  Pd.sum (map snd (Pd.groupby_agg key (fun g => Pd.sum (map val g)) rows))
  == Pd.sum (map val (filter (fun r => Pd.notna (key r)) rows)).
Proof.
  unfold Pd.groupby_agg. rewrite map_map. simpl.
  rewrite sum_pieces.
  apply sum_perm, Permutation_map, PdFacts.groupby_partition.
Qed.

Lemma sum_sort_desc (l : list (string * Q)) :
  Pd.sum (map snd (sort_desc l)) == Pd.sum (map snd l).
Proof.
  apply sum_perm, Permutation_map, PdFacts.sort_perm.
Qed.

Lemma filter_all {A : Type} (p : A -> bool) (l : list A) :
  (forall x, In x l -> p x = true) -> filter p l = l.
Proof.
  induction l as [|x l IH]; simpl; intros H; [reflexivity|].
  rewrite (H x) by auto. f_equal. apply IH. auto.
Qed.

(** When every watch row meets exactly one movie, the merged frame is the
    watch history with that movie beside each row. *)
Lemma merge_genre_one {P : Type} (watch : list (Watch.t P))
      (movies : list Movies.row) :
  (forall w, In w watch ->
             exists m, Pd.matches Watch.movie_id Movies.movie_id w movies
                       = [m]) ->
  map fst (merge_genre watch movies) = watch.
Proof.
  unfold merge_genre, Pd.merge_left.
  induction watch as [|w watch IH]; simpl; intros H; [reflexivity|].
  destruct (H w (or_introl eq_refl)) as [m ->]. simpl.
  f_equal. apply IH. auto.
Qed.

Lemma merge_genre_in {P : Type} (watch : list (Watch.t P))
      (movies : list Movies.row) (wm : Watch.t P * option Movies.row) :
  In wm (merge_genre watch movies) ->
  In (fst wm) watch /\
  match snd wm with
  | Some m => In m (Pd.matches Watch.movie_id Movies.movie_id (fst wm) movies)
  | None => Pd.matches Watch.movie_id Movies.movie_id (fst wm) movies = []
  end.
Proof.
  unfold merge_genre, Pd.merge_left. rewrite in_flat_map.
  intros [w [Hw Hin]].
  destruct (Pd.matches Watch.movie_id Movies.movie_id w movies)
    as [|m ms] eqn:E.
  - destruct Hin as [<-|[]]. simpl. auto.
  - change (In wm (map (fun r => (w, Some r)) (m :: ms))) in Hin.
    apply in_map_iff in Hin. destruct Hin as [m' [<- Hm']]. simpl.
    rewrite E. auto.
Qed.

End SumFacts.

(* ================================================================== *)
(** * Sums in binary64 *)

Module Float64Facts.

Lemma round_half_even_Z (x : Q) (k : Z) :
  x == inject_Z k -> Pd.round_half_even x = k.
Proof.
  intros E. unfold Pd.round_half_even.
  assert (Hf : Qfloor x = k) by (rewrite E; apply Qfloor_Z).
  rewrite Hf.
  assert (Hc : Qcompare (x - inject_Z k) (1 # 2) = Lt).
  { apply Qlt_alt.
    setoid_replace (x - inject_Z k) with 0 by (rewrite E; ring).
    reflexivity. }
  rewrite Hc. reflexivity.
Qed.

Lemma Qred_Z (z : Z) : Qred (inject_Z z) = inject_Z z.
Proof. apply Qred_iff. simpl. apply Z.gcd_1_r. Qed.

Lemma pow2_pos (p : positive) : 0 < inject_Z (2 ^ Zpos p).
Proof.
  change 0 with (inject_Z 0). rewrite <- Zlt_Qlt.
  apply Z.pow_pos_nonneg; lia.
Qed.

(** [scale e 1] against a fraction of positive integers. *)
Lemma scale_le (e : Z) (p : Z) (q : positive) :
  Float64.scale e 1 <= p # q <->
  (if (0 <=? e)%Z then (2 ^ e * Zpos q <= p)%Z
   else (Zpos q <= p * 2 ^ (- e))%Z).
Proof.
  destruct e as [|n|n]; cbn [Float64.scale Z.leb Z.compare Z.opp].
  - unfold Qle. cbn [Qnum Qden]. rewrite Z.pow_0_r. lia.
  - unfold Qle, Qmult, inject_Z. cbn [Qnum Qden].
    rewrite Z.mul_1_l, Z.mul_1_r. reflexivity.
  - unfold Qdiv. rewrite Qmult_1_l.
    assert (Hp : (0 < 2 ^ Z.pos n)%Z) by (apply Z.pow_pos_nonneg; lia).
    destruct (2 ^ Z.pos n)%Z as [|m|m] eqn:E; try lia.
    unfold Qle, Qinv, inject_Z. cbn [Qnum Qden]. lia.
Qed.

(** [ilog2 x] is the integer part of the binary logarithm of [x]. *)
Lemma ilog2_spec (x : Q) :
  0 < x ->
  Float64.scale (Float64.ilog2 x) 1 <= x /\
  ~ Float64.scale (Float64.ilog2 x + 1) 1 <= x.
Proof.
  destruct x as [p q]. intros Hx.
  assert (Hp : (0 < p)%Z).
  { unfold Qlt in Hx. cbn [Qnum Qden] in Hx. lia. }
  unfold Float64.ilog2. cbn [Qnum Qden].
  set (a := Z.log2 p). set (b := Z.log2 (Zpos q)).
  destruct (Z.log2_spec p Hp) as [Ha1 Ha2]. fold a in Ha1, Ha2.
  destruct (Z.log2_spec (Zpos q)) as [Hb1 Hb2]; [lia|]. fold b in Hb1, Hb2.
  assert (Ha0 : (0 <= a)%Z) by apply Z.log2_nonneg.
  assert (Hb0 : (0 <= b)%Z) by apply Z.log2_nonneg.
  assert (Hpow : forall n, (0 <= n)%Z -> (0 < 2 ^ n)%Z)
    by (intros; apply Z.pow_pos_nonneg; lia).
  assert (Hsucc : forall n, (0 <= n)%Z -> (2 ^ Z.succ n = 2 * 2 ^ n)%Z)
    by (intros; apply Z.pow_succ_r; assumption).
  assert (Hadd : forall n m, (0 <= n)%Z -> (0 <= m)%Z ->
                             (2 ^ (n + m) = 2 ^ n * 2 ^ m)%Z)
    by (intros; apply Z.pow_add_r; assumption).
  destruct (Qle_bool (Float64.scale (a - b) 1) (p # q)) eqn:E.
  - apply Qle_bool_iff in E. split; [exact E|].
    rewrite scale_le. destruct (0 <=? a - b + 1)%Z eqn:E1.
    + apply Z.leb_le in E1.
      assert (H : (2 ^ (a - b + 1) * 2 ^ b = 2 ^ Z.succ a)%Z).
      { rewrite <- Hadd by lia. f_equal. lia. }
      assert (H0 := Hpow (a - b + 1)%Z E1). nia.
    + apply Z.leb_gt in E1.
      assert (H : (2 ^ Z.succ a * 2 ^ (- (a - b + 1)) = 2 ^ b)%Z).
      { rewrite <- Hadd by lia. f_equal. lia. }
      assert (H0 := Hpow (- (a - b + 1))%Z ltac:(lia)). nia.
  - assert (E' : ~ Float64.scale (a - b) 1 <= p # q).
    { intros H. apply Qle_bool_iff in H. congruence. }
    replace (a - b - 1 + 1)%Z with (a - b)%Z by lia.
    split; [|exact E'].
    rewrite scale_le. destruct (0 <=? a - b - 1)%Z eqn:E1.
    + apply Z.leb_le in E1.
      assert (H : (2 ^ (a - b - 1) * 2 ^ Z.succ b = 2 ^ a)%Z).
      { rewrite <- Hadd by lia. f_equal. lia. }
      assert (H0 := Hpow (a - b - 1)%Z E1). nia.
    + apply Z.leb_gt in E1.
      assert (H : (2 ^ a * 2 ^ (- (a - b - 1)) = 2 ^ Z.succ b)%Z).
      { rewrite <- Hadd by lia. f_equal. lia. }
      assert (H0 := Hpow (- (a - b - 1))%Z ltac:(lia)). nia.
Qed.

(** Rounding to an integer moves a number by at most one half. *)
Lemma round_half_even_near (y : Q) :
  Qabs (inject_Z (Pd.round_half_even y) - y) <= 1 # 2.
Proof.
  unfold Pd.round_half_even.
  assert (H1 := Qfloor_le y). assert (H2 := Qlt_floor y).
  rewrite inject_Z_plus in H2. change (inject_Z 1) with 1 in H2.
  apply Qabs_Qle_condition.
  destruct (Qcompare (y - inject_Z (Qfloor y)) (1 # 2)) eqn:E.
  - apply Qeq_alt in E. destruct (Z.even (Qfloor y)).
    + split; lra.
    + rewrite inject_Z_plus. change (inject_Z 1) with 1. split; lra.
  - apply Qlt_alt in E. split; lra.
  - apply Qgt_alt in E. rewrite inject_Z_plus. change (inject_Z 1) with 1.
    split; lra.
Qed.

Lemma scale_mult (e : Z) (x : Q) :
  Float64.scale e x == x * Float64.scale e 1.
Proof.
  destruct e as [|p|p]; cbn [Float64.scale].
  - ring.
  - ring.
  - field. assert (H := pow2_pos p). lra.
Qed.

Lemma scale_pos (e : Z) : 0 < Float64.scale e 1.
Proof.
  destruct e as [|p|p]; cbn [Float64.scale].
  - reflexivity.
  - assert (H := pow2_pos p). lra.
  - assert (H := pow2_pos p). apply Qlt_shift_div_l; lra.
Qed.

Lemma scale_opp (e : Z) :
  Float64.scale e 1 * Float64.scale (- e) 1 == 1.
Proof.
  destruct e as [|p|p]; cbn [Float64.scale Z.opp].
  - ring.
  - field. assert (H := pow2_pos p). lra.
  - field. assert (H := pow2_pos p). lra.
Qed.

(** The rounded value is a whole multiple of [2^e], at most half of
    [2^e] away from [x], where [2^e * 2^52 <= |x| < 2^e * 2^53]. *)
Lemma round_nearest (x : Q) :
  ~ x == 0 ->
  let e := (Float64.ilog2 (Qabs (Qred x)) - 52)%Z in
  (exists m, Float64.round x == inject_Z m * Float64.scale e 1) /\
  Qabs (Float64.round x - x) <= (1 # 2) * Float64.scale e 1.
Proof.
  intros Hx e. unfold Float64.round.
  destruct (Qeq_bool (Qred x) 0) eqn:E0.
  { exfalso. apply Hx. apply Qeq_bool_iff in E0.
    rewrite <- (Qred_correct x). exact E0. }
  change (Float64.ilog2 (Qabs (Qred x)) - (Float64.prec - 1))%Z with e.
  set (m := Pd.round_half_even (Float64.scale (- e) (Qred x))).
  split.
  - exists m. rewrite Qred_correct. apply scale_mult.
  - rewrite (Qred_correct (Float64.scale e (inject_Z m))).
    assert (Hn := round_half_even_near (Float64.scale (- e) (Qred x))).
    fold m in Hn.
    assert (Hs := scale_pos e). assert (Ho := scale_opp e).
    rewrite (scale_mult e (inject_Z m)).
    rewrite (scale_mult (- e) (Qred x)), Qred_correct in Hn.
    setoid_replace (inject_Z m * Float64.scale e 1 - x)
      with ((inject_Z m - x * Float64.scale (- e) 1) * Float64.scale e 1)
      by (transitivity (inject_Z m * Float64.scale e 1
                        - x * (Float64.scale e 1 * Float64.scale (- e) 1));
          [rewrite Ho; ring | ring]).
    rewrite Qabs_Qmult, (Qabs_pos (Float64.scale e 1)) by lra.
    apply Qmult_le_compat_r; [exact Hn | lra].
Qed.

(** The cells 0.1, 0.2 and 0.3 as float64, and their sum in table order
    and with the first and the last added first. *)
Lemma decimal_cells :
  let c1 := Float64.round (1 # 10) in
  let c2 := Float64.round (2 # 10) in
  let c3 := Float64.round (3 # 10) in
  c1 = 3602879701896397 # 36028797018963968 /\
  c2 = 3602879701896397 # 18014398509481984 /\
  c3 = 5404319552844595 # 18014398509481984 /\
  Float64.sum [c3; c2; c1] = 5404319552844595 # 9007199254740992 /\
  Float64.sum [Float64.sum [c3; c1]; c2]
  = 1351079888211149 # 2251799813685248.
Proof. repeat split; vm_compute; reflexivity. Qed.

(** The binary logarithm of a positive integer below [2^53]. *)
Lemma ilog2_Z (z : Z) :
  (0 < z < 2 ^ 53)%Z -> (0 <= Float64.ilog2 (inject_Z z) <= 52)%Z.
Proof.
  intros Hz. unfold Float64.ilog2. cbn [Qnum Qden inject_Z].
  change (Z.log2 1) with 0%Z. rewrite Z.sub_0_r.
  assert (Hl : (0 <= Z.log2 z < 53)%Z).
  { split; [apply Z.log2_nonneg|]. apply Z.log2_lt_pow2; lia. }
  assert (Hs : Qle_bool (Float64.scale (Z.log2 z) 1) (inject_Z z) = true).
  { apply Qle_bool_iff.
    destruct (Z.log2_spec z) as [H2 _]; [lia|].
    destruct (Z.log2 z) as [|p|p] eqn:E; cbn [Float64.scale].
    - change 1 with (inject_Z 1). rewrite <- Zle_Qle. lia.
    - rewrite Qmult_1_l. rewrite <- Zle_Qle. exact H2.
    - lia. }
  rewrite Hs. lia.
Qed.

(** With an exponent that is not positive, an integer is its own
    significand scaled back. *)
Lemma scale_Z (e : Z) (z : Z) :
  (e <= 0)%Z ->
  Float64.scale
    e (inject_Z (Pd.round_half_even (Float64.scale (- e) (inject_Z z))))
  == inject_Z z.
Proof.
  intros He. destruct e as [|p|p]; cbn [Float64.scale Z.opp]; [| lia |].
  - rewrite (round_half_even_Z _ z); reflexivity.
  - rewrite (round_half_even_Z _ (z * 2 ^ Zpos p)).
    + rewrite inject_Z_mult. field.
      assert (H := pow2_pos p). lra.
    + rewrite inject_Z_mult. reflexivity.
Qed.

(** Rounding leaves an integer below [2^53] as it is. *)
Lemma round_Z (x : Q) (z : Z) :
  x == inject_Z z -> (Z.abs z < 2 ^ 53)%Z -> Float64.round x == inject_Z z.
Proof.
  intros E Hz. unfold Float64.round.
  rewrite (Qred_complete _ _ E), Qred_Z.
  destruct (Qeq_bool (inject_Z z) 0) eqn:E0.
  - apply Qeq_bool_iff in E0. rewrite E0. reflexivity.
  - apply Qeq_bool_neq in E0.
    assert (Hnz : z <> 0%Z) by (intros ->; apply E0; reflexivity).
    rewrite Qred_correct.
    apply scale_Z.
    assert (Habs : Qabs (inject_Z z) = inject_Z (Z.abs z)) by reflexivity.
    rewrite Habs.
    assert (H := ilog2_Z (Z.abs z)). unfold Float64.prec. lia.
Qed.

Lemma integral_Z (x : Q) :
  Float64.integral x = true -> x == inject_Z (Qfloor x).
Proof. apply Qeq_bool_iff. Qed.

Lemma Z_integral (x : Q) (z : Z) :
  x == inject_Z z -> Float64.integral x = true.
Proof.
  intros E. apply Qeq_bool_iff. rewrite E at 2. rewrite Qfloor_Z. exact E.
Qed.

Lemma abs_Z_lt (x : Q) (z : Z) (b : Z) :
  x == inject_Z z -> Qabs x < inject_Z b -> (Z.abs z < b)%Z.
Proof.
  intros E H. rewrite E in H.
  change (Qabs (inject_Z z)) with (inject_Z (Z.abs z)) in H.
  rewrite <- Zlt_Qlt in H. exact H.
Qed.

Lemma abs_sum_nonneg (xs : list Q) : 0 <= Pd.sum (map Qabs xs).
Proof.
  induction xs as [|y ys IH]; simpl; [lra|].
  assert (H := Qabs_nonneg y). lra.
Qed.

Lemma sum_acc (xs : list Q) (acc : Q) :
  Float64.integral acc = true ->
  forallb Float64.integral xs = true ->
  Qabs acc + Pd.sum (map Qabs xs) < inject_Z (2 ^ 53) ->
  fold_left Float64.add xs acc == acc + Pd.sum xs.
Proof.
  revert acc. induction xs as [|x xs IH]; intros acc Ha Hx Hb.
  - simpl. ring.
  - cbn [forallb] in Hx. apply andb_prop in Hx. destruct Hx as [Hx Hxs].
    cbn [map Pd.sum fold_right] in Hb.
    fold (Pd.sum (map Qabs xs)) in Hb.
    cbn [fold_left Pd.sum fold_right]. fold (Pd.sum xs).
    assert (Hs : acc + x == inject_Z (Qfloor acc + Qfloor x)).
    { rewrite inject_Z_plus.
      rewrite <- (integral_Z _ Ha), <- (integral_Z _ Hx). reflexivity. }
    assert (Hsum0 := abs_sum_nonneg xs).
    assert (Htri := Qabs_triangle acc x).
    assert (Hr : Float64.add acc x == acc + x).
    { unfold Float64.add. rewrite Hs at 2. apply round_Z; [exact Hs|].
      apply (abs_Z_lt (acc + x)); [exact Hs | lra]. }
    rewrite IH.
    + rewrite Hr. ring.
    + apply (Z_integral _ (Qfloor acc + Qfloor x)). rewrite Hr. exact Hs.
    + exact Hxs.
    + rewrite Hr. lra.
Qed.

Lemma whole_elim (xs : list Q) :
  Float64.whole xs = true ->
  forallb Float64.integral xs = true /\
  Pd.sum (map Qabs xs) < inject_Z (2 ^ 53).
Proof.
  unfold Float64.whole. intros H. apply andb_prop in H.
  destruct H as [Hi Hb]. split; [exact Hi|].
  apply Qnot_le_lt. intros Hle. apply Qle_bool_iff in Hle.
  unfold Float64.prec in Hb. rewrite Hle in Hb. discriminate Hb.
Qed.

Lemma whole_intro (xs : list Q) :
  (forall x, In x xs -> exists z, x == inject_Z z) ->
  Pd.sum (map Qabs xs) < inject_Z (2 ^ 53) ->
  Float64.whole xs = true.
Proof.
  intros Hi Hb. unfold Float64.whole. apply andb_true_intro. split.
  - apply forallb_forall. intros x Hx.
    destruct (Hi x Hx) as [z Hz]. exact (Z_integral x z Hz).
  - apply negb_true_iff. destruct (Qle_bool _ _) eqn:E; [|reflexivity].
    apply Qle_bool_iff in E. unfold Float64.prec in E. lra.
Qed.

(** On a whole column the binary64 sum is the exact sum. *)
Lemma sum_exact (xs : list Q) :
  Float64.whole xs = true -> Float64.sum xs == Pd.sum xs.
Proof.
  intros H. apply whole_elim in H. destruct H as [Hi Hb].
  unfold Float64.sum. rewrite sum_acc.
  - ring.
  - reflexivity.
  - exact Hi.
  - change (Qabs 0) with 0. lra.
Qed.

Lemma abs_sum (xs : list Q) : Qabs (Pd.sum xs) <= Pd.sum (map Qabs xs).
Proof.
  induction xs as [|x xs IH].
  - apply Qle_refl.
  - cbn [map Pd.sum fold_right].
    fold (Pd.sum xs). fold (Pd.sum (map Qabs xs)).
    assert (H := Qabs_triangle x (Pd.sum xs)). lra.
Qed.

Lemma sum_integral (xs : list Q) :
  (forall x, In x xs -> exists z, x == inject_Z z) ->
  exists z, Pd.sum xs == inject_Z z.
Proof.
  induction xs as [|x xs IH]; intros H.
  - exists 0%Z. reflexivity.
  - destruct (H x (or_introl eq_refl)) as [zx Hx].
    destruct IH as [zs Hs]; [intros y Hy; apply H; right; exact Hy|].
    exists (zx + zs)%Z. cbn [Pd.sum fold_right]. fold (Pd.sum xs).
    rewrite inject_Z_plus, Hx, Hs. reflexivity.
Qed.

Lemma sum_le_map {A : Type} (f g : A -> Q) (l : list A) :
  (forall a, In a l -> f a <= g a) ->
  Pd.sum (map f l) <= Pd.sum (map g l).
Proof.
  induction l as [|a l IH]; intros H.
  - apply Qle_refl.
  - cbn [map Pd.sum fold_right].
    fold (Pd.sum (map f l)). fold (Pd.sum (map g l)).
    assert (f a <= g a) by (apply H; left; reflexivity).
    assert (Pd.sum (map f l) <= Pd.sum (map g l))
      by (apply IH; intros b Hb; apply H; right; exact Hb).
    lra.
Qed.

Lemma sum_eq_map {A : Type} (f g : A -> Q) (l : list A) :
  (forall a, In a l -> f a == g a) ->
  Pd.sum (map f l) == Pd.sum (map g l).
Proof.
  intros H. apply Qle_antisym; apply sum_le_map; intros a Ha;
    rewrite (H a Ha); apply Qle_refl.
Qed.

(** The absolute values of the rows kept by a filter add up to no more
    than those of all the rows. *)
Lemma abs_filter {R : Type} (val : R -> Q) (p : R -> bool) (rows : list R) :
  Pd.sum (map Qabs (map val (filter p rows)))
  <= Pd.sum (map Qabs (map val rows)).
Proof.
  induction rows as [|r rows IH]; [apply Qle_refl|].
  cbn [filter]. destruct (p r); cbn [map Pd.sum fold_right];
    fold (Pd.sum (map Qabs (map val rows)));
    fold (Pd.sum (map Qabs (map val (filter p rows)))).
  - lra.
  - assert (H := Qabs_nonneg (val r)). lra.
Qed.

(** A part of a whole column is whole. *)
Lemma whole_filter {R : Type} (val : R -> Q) (p : R -> bool)
      (rows : list R) :
  Float64.whole (map val rows) = true ->
  Float64.whole (map val (filter p rows)) = true.
Proof.
  intros H. apply whole_elim in H. destruct H as [Hi Hb].
  apply whole_intro.
  - intros x Hx. apply in_map_iff in Hx. destruct Hx as [r [<- Hr]].
    apply filter_In in Hr. destruct Hr as [Hr _].
    exists (Qfloor (val r)). apply integral_Z.
    rewrite forallb_forall in Hi. apply Hi, in_map, Hr.
  - assert (H := abs_filter val p rows). lra.
Qed.

(** On a whole column, the binary64 sums of the groups, added again in
    whatever order, give the binary64 sum of the rows that have a key. *)
Lemma regrouped {R : Type} (key : R -> option string) (val : R -> Q)
      (rows : list R) (totals : list (string * Q)) :
  Float64.whole (map val rows) = true ->
  Permutation totals
              (Pd.groupby_agg key (fun g => Float64.sum (map val g)) rows) ->
  Float64.sum (map snd totals)
  == Float64.sum (map val (filter (fun r => Pd.notna (key r)) rows)).
Proof.
  intros Hw Hperm.
  set (keyed := filter (fun r => Pd.notna (key r)) rows).
  set (groups := Pd.groupby key rows).
  assert (Hgroup : forall g, In g groups ->
                             Float64.sum (map val (snd g))
                             == Pd.sum (map val (snd g))).
  { intros [k g] Hg. apply PdFacts.groupby_in in Hg.
    destruct Hg as [_ ->]. cbn [snd]. apply sum_exact.
    unfold Pd.group. apply whole_filter, Hw. }
  assert (Hvals : map snd (Pd.groupby_agg
                             key (fun g => Float64.sum (map val g)) rows)
                  = map (fun g => Float64.sum (map val (snd g))) groups).
  { unfold Pd.groupby_agg. rewrite map_map. reflexivity. }
  assert (Hp : Permutation
                 (map snd totals)
                 (map (fun g => Float64.sum (map val (snd g))) groups)).
  { rewrite <- Hvals. apply Permutation_map, Hperm. }
  assert (Hi := proj1 (whole_elim _ Hw)).
  rewrite forallb_forall in Hi.
  assert (Hb := proj2 (whole_elim _ Hw)).
  assert (Hwhole : Float64.whole (map snd totals) = true).
  { apply whole_intro.
    - intros x Hx. apply (Permutation_in _ Hp) in Hx.
      apply in_map_iff in Hx. destruct Hx as [g [<- Hg]].
      destruct (sum_integral (map val (snd g))) as [z Hz].
      + intros y Hy. exists (Qfloor y). apply integral_Z, Hi.
        apply in_map_iff in Hy. destruct Hy as [r [<- Hr]].
        apply in_map. destruct g as [k g].
        apply PdFacts.groupby_in in Hg. destruct Hg as [_ ->].
        apply PdFacts.group_in in Hr. tauto.
      + exists z. rewrite (Hgroup g Hg). exact Hz.
    - rewrite (SumFacts.sum_perm _ _ (Permutation_map Qabs Hp)).
      rewrite map_map.
      assert (H1 : Pd.sum (map (fun g => Qabs (Float64.sum
                                                 (map val (snd g)))) groups)
                   <= Pd.sum (map (fun g => Pd.sum
                                              (map (fun r => Qabs (val r))
                                                   (snd g))) groups)).
      { apply sum_le_map. intros g Hg. rewrite (Hgroup g Hg).
        rewrite <- (map_map val Qabs). apply abs_sum. }
      assert (H2 : Pd.sum (map (fun g => Pd.sum
                                           (map (fun r => Qabs (val r))
                                                (snd g))) groups)
                   == Pd.sum (map (fun r => Qabs (val r)) keyed)).
      { rewrite (SumFacts.sum_pieces (fun r => Qabs (val r)) groups).
        apply SumFacts.sum_perm, Permutation_map, PdFacts.groupby_partition. }
      assert (H3 := abs_filter val (fun r => Pd.notna (key r)) rows).
      fold keyed in H3. rewrite (map_map val Qabs) in H3.
      eapply Qle_lt_trans; [exact H1|]. rewrite H2.
      eapply Qle_lt_trans; [exact H3 | exact Hb]. }
  rewrite (sum_exact _ Hwhole).
  rewrite (SumFacts.sum_perm _ _ Hp).
  rewrite (sum_eq_map _ (fun g => Pd.sum (map val (snd g))) groups Hgroup).
  rewrite (SumFacts.sum_pieces val groups).
  rewrite (sum_exact (map val keyed)) by (apply whole_filter, Hw).
  apply SumFacts.sum_perm, Permutation_map, PdFacts.groupby_partition.
Qed.

End Float64Facts.

(** C6, as stated, fails in two ways.  A session without a device type
    belongs to no device group, and a session of an unknown movie to no
    genre group: the grouped sums are 0 where the table holds 5 minutes.
    And with every session on a device, the cells 0.3, 0.2 and 0.1 add up
    to another float64 in table order than by device: the two sums differ
    in their last bit. *)
Lemma grouped_sums_miss_the_total :
  ~ (Float64.sum (map snd (Rounded.device_eng Sample.watch_without_device))
     == Rounded.total Sample.watch_without_device) /\
  ~ (Float64.sum (map snd (Rounded.genre_eng Sample.watch_unknown_movie []))
     == Rounded.total Sample.watch_unknown_movie) /\
  (forall w, In w Sample.watch_fractions -> Watch.device_type w <> None) /\
  ~ (Float64.sum (map snd (Rounded.device_eng Sample.watch_fractions))
     == Rounded.total Sample.watch_fractions).
Proof.
  split; [vm_compute; discriminate|].
  split; [vm_compute; discriminate|].
  split; [|vm_compute; discriminate].
  intros w [<-|[<-|[<-|[]]]]; discriminate.
Qed.

(** C6, amended.  Every session with a device type lies in exactly one
    device group and every merged row with a genre in exactly one genre
    group; the others lie in none.  When the durations are whole numbers of
    minutes whose absolute values add up to less than [2^53], the float64
    additions are exact: the per-device sums add up to the minutes of the
    sessions that have a device type, and the per-genre sums to the minutes
    of the merged rows that have a genre.  They then add up to the minutes
    of the whole watch history when every session has a device type,
    respectively when every session meets exactly one movie of the
    catalogue and that movie has a primary genre. *)
Theorem grouped_sums_recover_total :
  forall (P : Type) (watch : list (Watch.t P)) (movies : list Movies.row),
    let merged := MaxChartier.watch_genre watch movies in
    Permutation (flat_map snd (Pd.groupby Watch.device_type watch))
                (filter (fun w => Pd.notna (Watch.device_type w)) watch) /\
    Permutation (flat_map snd (Pd.groupby genre_of merged))
                (filter (fun wm => Pd.notna (genre_of wm)) merged) /\
    (Float64.whole (durations watch) = true ->
     Float64.sum (map snd (Rounded.device_eng watch))
     == Rounded.total
          (filter (fun w => Pd.notna (Watch.device_type w)) watch) /\
     ((forall w, In w watch -> Watch.device_type w <> None) ->
      Float64.sum (map snd (Rounded.device_eng watch))
      == Rounded.total watch)) /\
    (Float64.whole (durations (map fst merged)) = true ->
     Float64.sum (map snd (Rounded.genre_eng watch movies))
     == Rounded.total
          (map fst (filter (fun wm => Pd.notna (genre_of wm)) merged)) /\
     ((forall w, In w watch ->
                 exists m g,
                   Pd.matches Watch.movie_id Movies.movie_id w movies = [m] /\
                   Movies.genre_primary m = Some g) ->
      Float64.sum (map snd (Rounded.genre_eng watch movies))
      == Rounded.total watch)).
Proof.
  intros P watch movies merged.
  split; [apply PdFacts.groupby_partition|].
  split; [apply PdFacts.groupby_partition|].
  split.
  - intros Hw.
    assert (Hd : Float64.sum (map snd (Rounded.device_eng watch))
                 == Rounded.total
                      (filter (fun w => Pd.notna (Watch.device_type w))
                              watch)).
    { apply (Float64Facts.regrouped Watch.device_type
                                    Watch.watch_duration_minutes);
        [exact Hw|].
      unfold Rounded.device_eng, sort_desc. apply PdFacts.sort_perm. }
    split; [exact Hd|].
    intros Hall. rewrite Hd. rewrite SumFacts.filter_all; [reflexivity|].
    intros w Hin. specialize (Hall w Hin).
    destruct (Watch.device_type w); [reflexivity | congruence].
  - intros Hw.
    assert (Hg : Float64.sum (map snd (Rounded.genre_eng watch movies))
                 == Rounded.total
                      (map fst (filter (fun wm => Pd.notna (genre_of wm))
                                       merged))).
    { unfold Rounded.total, durations. rewrite map_map.
      apply (Float64Facts.regrouped
               genre_of
               (fun wm : Watch.t P * option Movies.row =>
                  Watch.watch_duration_minutes (fst wm))).
      - unfold durations in Hw. rewrite map_map in Hw. exact Hw.
      - unfold Rounded.genre_eng, sort_desc.
        etransitivity; [apply PdFacts.sort_perm|].
        apply Permutation_refl'. unfold Pd.groupby_agg.
        apply map_ext. intros g. unfold durations. rewrite map_map.
        reflexivity. }
    split; [exact Hg|].
    intros Hall. rewrite Hg. unfold merged, MaxChartier.watch_genre.
    rewrite SumFacts.filter_all.
    + rewrite SumFacts.merge_genre_one; [reflexivity|].
      intros w Hin. destruct (Hall w Hin) as [m [g [E _]]]. eauto.
    + intros wm Hwm. apply SumFacts.merge_genre_in in Hwm.
      destruct Hwm as [Hin Hm].
      destruct (Hall _ Hin) as [m [g [E Eg]]].
      unfold genre_of. destruct (snd wm) as [m'|].
      * rewrite E in Hm. destruct Hm as [<-|[]]. rewrite Eg. reflexivity.
      * rewrite E in Hm. discriminate.
Qed.

(* ================================================================== *)
(** * Signs of the aggregates *)

Module SignFacts.

Lemma of_nat_nonneg (n : nat) : 0 <= Pd.of_nat n.
Proof.
  unfold Pd.of_nat. change 0 with (inject_Z 0).
  rewrite <- Zle_Qle. lia.
Qed.

Lemma durations_nonneg {P : Type} (watch g : list (Watch.t P)) :
  (forall w, In w watch -> 0 <= Watch.watch_duration_minutes w) ->
  (forall w, In w g -> In w watch) ->
  0 <= Pd.sum (durations g).
Proof.
  intros Hpos Hsub. apply SumFacts.sum_nonneg.
  intros x Hx. unfold durations in Hx. apply in_map_iff in Hx.
  destruct Hx as [w [<- Hw]]. auto.
Qed.

End SignFacts.



(* ================================================================== *)
(** * Rates *)

Module RateFacts.

Lemma of_nat_plus (a b : nat) :
  Pd.of_nat a + Pd.of_nat b == Pd.of_nat (a + b).
Proof.
  unfold Pd.of_nat. rewrite Nat2Z.inj_add, inject_Z_plus. reflexivity.
Qed.

Lemma of_nat_le (a b : nat) : (a <= b)%nat -> Pd.of_nat a <= Pd.of_nat b.
Proof.
  intros H. unfold Pd.of_nat. rewrite <- Zle_Qle. lia.
Qed.

Lemma of_nat_pos (a : nat) : (0 < a)%nat -> 0 < Pd.of_nat a.
Proof.
  intros H. unfold Pd.of_nat. change 0 with (inject_Z 0).
  rewrite <- Zlt_Qlt. lia.
Qed.

Lemma of_nat_zero (a : nat) : Pd.of_nat a == 0 -> a = 0%nat.
Proof.
  unfold Pd.of_nat. change 0 with (inject_Z 0).
  rewrite inject_Z_injective. lia.
Qed.

(** A quotient is computed exactly when the divisor is not zero. *)
Lemma div_some (a b : Q) : ~ b == 0 -> Pd.div a b = Some (a / b).
Proof.
  intros H. unfold Pd.div. destruct (Qeq_bool b 0) eqn:E; [|reflexivity].
  apply Qeq_bool_iff in E. contradiction.
Qed.

Lemma div_inv (a b r : Q) :
  Pd.div a b = Some r -> ~ b == 0 /\ r = a / b.
Proof.
  unfold Pd.div. destruct (Qeq_bool b 0) eqn:E; [discriminate|].
  intros [= <-]. split; [|reflexivity].
  intros H. apply Qeq_bool_iff in H. congruence.
Qed.

Lemma div_nat_pos (a b : nat) :
  (0 < b)%nat -> Pd.div (Pd.of_nat a) (Pd.of_nat b)
                 = Some (Pd.of_nat a / Pd.of_nat b).
Proof.
  intros H. apply div_some. intros E. apply of_nat_zero in E. lia.
Qed.

(** A part over the whole lies between 0 and 1. *)
Lemma ratio_bounds (a b : Q) :
  0 <= a -> a <= b -> 0 < b -> 0 <= a / b /\ a / b <= 1.
Proof.
  intros Ha Hab Hb. split.
  - apply Qle_shift_div_l; [exact Hb | lra].
  - apply Qle_shift_div_r; [exact Hb | lra].
Qed.

Lemma div_nat_bounds (a b : nat) (r : Q) :
  (a <= b)%nat -> Pd.div (Pd.of_nat a) (Pd.of_nat b) = Some r ->
  0 <= r /\ r <= 1.
Proof.
  intros Hab H. apply div_inv in H. destruct H as [Hb ->].
  apply ratio_bounds.
  - apply SignFacts.of_nat_nonneg.
  - apply of_nat_le, Hab.
  - destruct b as [|b]; [exfalso; apply Hb; reflexivity|].
    apply of_nat_pos. lia.
Qed.

Lemma filter_length_le {A : Type} (p : A -> bool) (l : list A) :
  (List.length (filter p l) <= List.length l)%nat.
Proof.
  induction l as [|x l IH]; simpl; [lia|].
  destruct (p x); simpl; lia.
Qed.

Lemma filter_length_imp {A : Type} (p q : A -> bool) (l : list A) :
  (forall x, p x = true -> q x = true) ->
  (List.length (filter p l) <= List.length (filter q l))%nat.
Proof.
  intros H. induction l as [|x l IH]; simpl; [lia|].
  destruct (p x) eqn:Ep.
  - rewrite (H x Ep). simpl. lia.
  - destruct (q x); simpl; lia.
Qed.

Lemma filter_map_comm {A B : Type} (p : B -> bool) (f : A -> B)
      (l : list A) :
  filter p (map f l) = map f (filter (fun x => p (f x)) l).
Proof.
  induction l as [|x l IH]; simpl; [reflexivity|].
  destruct (p (f x)); simpl; rewrite IH; reflexivity.
Qed.

Lemma count_notna {A : Type} (xs : list (option A)) :
  Pd.count xs = List.length (filter Pd.notna xs).
Proof.
  unfold Pd.count. induction xs as [|[x|] xs IH]; simpl; congruence.
Qed.

Lemma count_map_notna {A B : Type} (f : A -> option B) (l : list A) :
  Pd.count (map f l) = List.length (filter (fun x => Pd.notna (f x)) l).
Proof.
  rewrite count_notna, filter_map_comm, length_map. reflexivity.
Qed.

Lemma true_flags (g : list Users.t) :
  List.length (filter is_true (map Users.is_active g))
  = MaxChartier.active_users g.
Proof.
  rewrite filter_map_comm, length_map. reflexivity.
Qed.

(** The flags present are the [True] ones and the [False] ones. *)
Lemma true_false_flags (fl : list (option bool)) :
  (List.length (filter is_true fl) + List.length (filter is_false fl))%nat
  = List.length (filter Pd.notna fl).
Proof.
  induction fl as [|[[|]|] fl IH]; simpl; lia.
Qed.

Lemma value_counts_total (g : list Users.t) :
  let vc := MaxChartier.value_counts (map Users.is_active g) in
  fst vc = MaxChartier.active_users g /\
  (fst vc + snd vc)%nat = MaxChartier.flagged_users g.
Proof.
  simpl. split; [apply true_flags|].
  rewrite true_false_flags, filter_map_comm, length_map. reflexivity.
Qed.

(** The rows of the retention frame: the plans with a flag present. *)
Lemma retention_in (users : list Users.t) (p : string) (t f : nat) :
  In (p, (t, f)) (MaxChartier.retention users) <->
  In (Some p) (map Users.subscription_plan users) /\
  (0 < t + f)%nat /\
  (t, f) = MaxChartier.value_counts
             (map Users.is_active
                  (Pd.group Users.subscription_plan p users)).
Proof.
  unfold MaxChartier.retention. rewrite filter_In. simpl.
  rewrite PdFacts.groupby_agg_in, Nat.ltb_lt. tauto.
Qed.

Lemma retention_rate_in (users : list Users.t) (p : string)
      (v : option Q) :
  In (p, v) (MaxChartier.retention_rate users) <->
  let g := Pd.group Users.subscription_plan p users in
  In (Some p) (map Users.subscription_plan users) /\
  (0 < MaxChartier.flagged_users g)%nat /\
  v = Pd.div (Pd.of_nat (MaxChartier.active_users g))
             (Pd.of_nat (MaxChartier.active_users g)
              + Pd.of_nat (List.length
                             (filter is_false (map Users.is_active g)))).
Proof.
  unfold MaxChartier.retention_rate. rewrite in_map_iff. simpl. split.
  - intros [[p' [t f]] [E H]]. simpl in E. inversion E; subst; clear E.
    apply retention_in in H. destruct H as [Hp [Hpos Hvc]].
    destruct (value_counts_total (Pd.group Users.subscription_plan p users))
      as [H1 H2].
    rewrite <- Hvc in H1, H2. simpl in H1, H2.
    split; [exact Hp|]. split; [lia|].
    inversion Hvc. rewrite true_flags. reflexivity.
  - intros [Hp [Hpos ->]].
    set (g := Pd.group Users.subscription_plan p users) in *.
    exists (p, MaxChartier.value_counts (map Users.is_active g)).
    split.
    + simpl. rewrite true_flags. reflexivity.
    + unfold MaxChartier.value_counts. apply retention_in.
      split; [exact Hp|]. split; [|reflexivity].
      destruct (value_counts_total g) as [_ H2]. simpl in H2. lia.
Qed.

End RateFacts.

(** C3, as stated, fails when an active flag is missing: of two Basic
    users, one flagged active and one without a flag, the reported rate
    is 1, not the 1/2 of active users over all users of the plan. *)
Lemma retention_rate_skips_missing_flags :
  let g := Pd.group Users.subscription_plan "Basic"
                    Sample.users_flag_missing in
  exists r,
    In ("Basic"%string, Some r)
       (MaxChartier.retention_rate Sample.users_flag_missing) /\
    ~ r == Pd.of_nat (MaxChartier.active_users g)
           / Pd.of_nat (List.length g).
Proof.
  exists 1. split.
  - vm_compute. left. reflexivity.
  - vm_compute. discriminate.
Qed.

(** C3, amended.  For every plan [p], with [g] the users of the plan: a
    rate reported for [p] is the number of users of [g] flagged active
    divided by the number of users of [g] whose flag is present; such a rate
    is reported as soon as one flag of [g] is present, and none is reported
    otherwise; and when no user of [g] lacks the flag, the divisor is the
    number of users of the plan. *)
Theorem retention_rate_is_active_over_flagged :
  forall (users : list Users.t) (p : string),
    let g := Pd.group Users.subscription_plan p users in
    let active := MaxChartier.active_users g in
    let flagged := MaxChartier.flagged_users g in
    (forall v, In (p, v) (MaxChartier.retention_rate users) ->
               exists r, v = Some r /\
                         r == Pd.of_nat active / Pd.of_nat flagged) /\
    ((0 < flagged)%nat ->
     exists r, In (p, Some r) (MaxChartier.retention_rate users) /\
               r == Pd.of_nat active / Pd.of_nat flagged) /\
    (flagged = 0%nat ->
     forall v, ~ In (p, v) (MaxChartier.retention_rate users)) /\
    ((forall u, In u g -> Users.is_active u <> None) ->
     flagged = List.length g).
Proof.
  intros users p g active flagged.
  set (falses := List.length (filter is_false (map Users.is_active g))).
  assert (Hsum : Pd.of_nat active + Pd.of_nat falses == Pd.of_nat flagged).
  { rewrite RateFacts.of_nat_plus.
    destruct (RateFacts.value_counts_total g) as [H1 H2].
    simpl in H1, H2. fold falses in H2. unfold flagged, active.
    rewrite <- H2, H1. reflexivity. }
  assert (Hrate : (0 < flagged)%nat ->
                  exists r, Pd.div (Pd.of_nat active)
                                   (Pd.of_nat active + Pd.of_nat falses)
                            = Some r /\
                            r == Pd.of_nat active / Pd.of_nat flagged).
  { intros Hpos. eexists. split.
    - apply RateFacts.div_some. rewrite Hsum. intros E.
      apply RateFacts.of_nat_zero in E. lia.
    - rewrite Hsum. reflexivity. }
  split; [|split; [|split]].
  - intros v Hin. apply RateFacts.retention_rate_in in Hin.
    destruct Hin as [_ [Hpos ->]]. apply Hrate, Hpos.
  - intros Hpos. destruct (Hrate Hpos) as [r [E Hr]].
    exists r. split; [|exact Hr].
    apply RateFacts.retention_rate_in. split; [|split; [exact Hpos|]].
    + destruct (filter (fun u => Pd.notna (Users.is_active u)) g)
        as [|u l] eqn:Ef.
      * unfold flagged, MaxChartier.flagged_users in Hpos.
        rewrite Ef in Hpos. simpl in Hpos. lia.
      * assert (Hu : In u g).
        { assert (H : In u (u :: l)) by (left; reflexivity).
          rewrite <- Ef in H. apply filter_In in H. tauto. }
        apply PdFacts.group_in in Hu. destruct Hu as [Hu Hk].
        rewrite <- Hk. apply in_map. exact Hu.
    + symmetry. exact E.
  - intros Hz v Hin. apply RateFacts.retention_rate_in in Hin.
    destruct Hin as [_ [Hpos _]]. fold g in Hpos. fold flagged in Hpos. lia.
  - intros Hall. unfold flagged, MaxChartier.flagged_users.
    rewrite SumFacts.filter_all; [reflexivity|].
    intros u Hu. specialize (Hall u Hu).
    destruct (Users.is_active u); [reflexivity | congruence].
Qed.

(* ================================================================== *)
(** * Click-through rates *)

Module CtrFacts.

Lemma combine_map_r {A B : Type} (f : A -> B) (l : list A) :
  combine l (map f l) = map (fun x => (x, f x)) l.
Proof.
  induction l as [|x l IH]; simpl; [reflexivity|]. rewrite IH. reflexivity.
Qed.

(** The cast rewrites the flag of every record and nothing else. *)
Lemma astype_str_map (recs : list Recs.raw) :
  MaxChartier.astype_str recs = map MaxChartier.cast_row recs.
Proof.
  unfold MaxChartier.astype_str, Assign.was_clicked.
  rewrite combine_map_r, map_map. reflexivity.
Qed.

Lemma true_string (b : option bool) :
  String.eqb (MaxChartier.str_of_flag b) "True" = is_true b.
Proof. destruct b as [[|]|]; reflexivity. Qed.

(** The ["True"] cells of a cast group are its clicked records. *)
Lemma clicked_conv (g : list Recs.raw) :
  MaxChartier.clicked (map Recs.was_clicked (map MaxChartier.cast_row g))
  = MaxChartier.clicked_records g.
Proof.
  unfold MaxChartier.clicked, MaxChartier.clicked_records.
  rewrite map_map, RateFacts.filter_map_comm, length_map.
  f_equal. apply filter_ext. intros r. simpl. apply true_string.
Qed.

Lemma group_conv (key : forall C : Type, Recs.row C -> option string)
      (Hkey : forall r, key string (MaxChartier.cast_row r) = key (option bool) r)
      (k : string) (recs : list Recs.raw) :
  Pd.group (key string) k (map MaxChartier.cast_row recs)
  = map MaxChartier.cast_row (Pd.group (key (option bool)) k recs).
Proof.
  unfold Pd.group. rewrite RateFacts.filter_map_comm.
  f_equal. apply filter_ext. intros r. rewrite Hkey. reflexivity.
Qed.

Lemma keys_conv (key : forall C : Type, Recs.row C -> option string)
      (Hkey : forall r, key string (MaxChartier.cast_row r) = key (option bool) r)
      (recs : list Recs.raw) :
  map (key string) (map MaxChartier.cast_row recs) = map (key (option bool)) recs.
Proof.
  rewrite map_map. apply map_ext. exact Hkey.
Qed.

Lemma group_nonempty {R : Type} (key : R -> option string) (k : string)
      (rows : list R) :
  In (Some k) (map key rows) ->
  (0 < List.length (Pd.group key k rows))%nat.
Proof.
  intros H. apply in_map_iff in H. destruct H as [r [E Hr]].
  assert (Hg : In r (Pd.group key k rows)) by (apply PdFacts.group_in; auto).
  destruct (Pd.group key k rows); [destruct Hg | simpl; lia].
Qed.

(** The rate reported for an algorithm version, over the log as read. *)
Lemma ctr_in (recs : list Recs.raw) (a : string) (v : option Q) :
  In (a, v) (MaxChartier.ctr (MaxChartier.astype_str recs)) <->
  let g := Pd.group Recs.algorithm_version a recs in
  In (Some a) (map Recs.algorithm_version recs) /\
  v = Pd.div (Pd.of_nat (MaxChartier.clicked_records g))
             (Pd.of_nat (List.length g)).
Proof.
  unfold MaxChartier.ctr.
  rewrite PdFacts.groupby_agg_in, astype_str_map.
  rewrite (keys_conv (@Recs.algorithm_version) (fun _ => eq_refl)).
  rewrite (group_conv (@Recs.algorithm_version) (fun _ => eq_refl)).
  rewrite clicked_conv, !length_map. reflexivity.
Qed.

(** The summary row of a recommendation type, over the log as read. *)
Lemma rec_summary_in (recs : list Recs.raw) (s : MaxChartier.summary) :
  In s (MaxChartier.rec_summary (MaxChartier.astype_str recs)) <->
  let g := Pd.group Recs.recommendation_type
                    (MaxChartier.recommendation_type s) recs in
  In (Some (MaxChartier.recommendation_type s))
     (map Recs.recommendation_type recs) /\
  s = MaxChartier.mk_summary
        (MaxChartier.recommendation_type s)
        (MaxChartier.identified_records g)
        (MaxChartier.clicked_records g)
        (Pd.div (Pd.of_nat (MaxChartier.clicked_records g))
                (Pd.of_nat (MaxChartier.identified_records g))).
Proof.
  assert (Hrow : forall t (g : list Recs.raw),
             MaxChartier.mk_summary
               t (Pd.count (map Recs.recommendation_id (map MaxChartier.cast_row g)))
               (MaxChartier.clicked (map Recs.was_clicked (map MaxChartier.cast_row g)))
               (Pd.div
                  (Pd.of_nat (MaxChartier.clicked
                                (map Recs.was_clicked (map MaxChartier.cast_row g))))
                  (Pd.of_nat (Pd.count (map Recs.recommendation_id
                                            (map MaxChartier.cast_row g)))))
             = MaxChartier.mk_summary
                 t (MaxChartier.identified_records g)
                 (MaxChartier.clicked_records g)
                 (Pd.div (Pd.of_nat (MaxChartier.clicked_records g))
                         (Pd.of_nat (MaxChartier.identified_records g)))).
  { intros t g. rewrite clicked_conv.
    replace (Pd.count (map Recs.recommendation_id (map MaxChartier.cast_row g)))
      with (MaxChartier.identified_records g); [reflexivity|].
    rewrite map_map. simpl. symmetry.
    apply (RateFacts.count_map_notna Recs.recommendation_id). }
  unfold MaxChartier.rec_summary. rewrite in_map_iff, astype_str_map.
  split.
  - intros [[t g] [E H]]. apply PdFacts.groupby_in in H.
    destruct H as [Hin ->]. simpl in E.
    rewrite (keys_conv (@Recs.recommendation_type) (fun _ => eq_refl))
      in Hin.
    rewrite (group_conv (@Recs.recommendation_type) (fun _ => eq_refl))
      in E.
    rewrite Hrow in E. subst s. simpl. auto.
  - simpl. intros [Hin E].
    exists (MaxChartier.recommendation_type s,
            Pd.group Recs.recommendation_type
                     (MaxChartier.recommendation_type s) (map MaxChartier.cast_row recs)).
    split.
    + simpl.
      rewrite (group_conv (@Recs.recommendation_type) (fun _ => eq_refl)).
      rewrite Hrow. symmetry. exact E.
    + apply PdFacts.groupby_in.
      rewrite (keys_conv (@Recs.recommendation_type) (fun _ => eq_refl)).
      auto.
Qed.

End CtrFacts.

(* ================================================================== *)
(** * Rounding *)

Module RoundFacts.

Lemma round_half_even_bounds (y : Q) (n : Z) :
  0 <= y -> y <= inject_Z n ->
  (0 <= Pd.round_half_even y <= n)%Z.
Proof.
  intros H0 Hn. unfold Pd.round_half_even.
  assert (Hf0 : (0 <= Qfloor y)%Z).
  { change 0%Z with (Qfloor 0). apply Qfloor_resp_le, H0. }
  assert (Hfn : (Qfloor y <= n)%Z).
  { rewrite <- (Qfloor_Z n). apply Qfloor_resp_le, Hn. }
  assert (Hstep : 0 < y - inject_Z (Qfloor y) -> (Qfloor y + 1 <= n)%Z).
  { intros Hgt.
    assert (Hlt : inject_Z (Qfloor y) < inject_Z n) by lra.
    rewrite <- Zlt_Qlt in Hlt. lia. }
  destruct (Qcompare (y - inject_Z (Qfloor y)) (1 # 2)) eqn:E.
  - apply Qeq_alt in E.
    destruct (Z.even (Qfloor y)); [lia|].
    assert ((Qfloor y + 1 <= n)%Z) by (apply Hstep; lra). lia.
  - lia.
  - apply Qgt_alt in E.
    assert ((Qfloor y + 1 <= n)%Z) by (apply Hstep; lra). lia.
Qed.

(** Rounding a percentage to one decimal keeps it a percentage. *)
Lemma round1_bounds (x : Q) :
  0 <= x -> x <= 100 -> 0 <= Pd.round1 x /\ Pd.round1 x <= 100.
Proof.
  intros H0 H100.
  destruct (round_half_even_bounds (x * 10) 1000) as [Hlo Hhi].
  - lra.
  - change (inject_Z 1000) with 1000. lra.
  - unfold Pd.round1.
    rewrite Zle_Qle in Hlo, Hhi.
    change (inject_Z 0) with 0 in Hlo.
    change (inject_Z 1000) with 1000 in Hhi.
    split.
    + apply Qle_shift_div_l; [reflexivity | lra].
    + apply Qle_shift_div_r; [reflexivity | lra].
Qed.

End RoundFacts.

(** C4.  The code departs from the claim in the rate by recommendation
    type, whose divisor counts the identifiers of the group (line 230) and
    not its records.  Of three trending records of one algorithm version,
    two clicked, only one has an identifier: the rate reported for the type
    is 2, not the 2/3 of clicked records over records, which is what the
    same log gets by algorithm version (line 96). *)
Lemma ctr_by_type_counts_identifiers :
  let recs := Sample.recs_id_missing in
  let g := Pd.group Recs.recommendation_type "trending" recs in
  (exists s r,
      In s (MaxChartier.rec_summary (MaxChartier.astype_str recs)) /\
      MaxChartier.recommendation_type s = "trending"%string /\
      MaxChartier.type_ctr s = Some r /\
      r == 2 /\
      ~ r == Pd.of_nat (MaxChartier.clicked_records g)
             / Pd.of_nat (List.length g)) /\
  (exists r,
      In ("v1"%string, Some r)
         (MaxChartier.ctr (MaxChartier.astype_str recs)) /\
      r == 2 # 3).
Proof.
  split.
  - exists (MaxChartier.mk_summary "trending" 1 2 (Some 2)), 2.
    split; [|split; [|split; [|split]]].
    + vm_compute. left. reflexivity.
    + reflexivity.
    + reflexivity.
    + reflexivity.
    + vm_compute. discriminate.
  - exists (2 # 3). split; [|reflexivity].
    vm_compute. left. reflexivity.
Qed.

(** X21.  By algorithm version, the rate reported for a version is the
    number of clicked records of the version divided by the number of its
    records, and every version with a record has such a rate.  By
    recommendation type, every type with a record has a summary row, and
    when every record of the type carries an identifier its rate is the
    clicked records divided by the records of the type. *)
Theorem ctr_is_clicks_over_records :
  forall (recs : list Recs.raw),
    (forall a v,
        In (a, v) (MaxChartier.ctr (MaxChartier.astype_str recs)) ->
        let g := Pd.group Recs.algorithm_version a recs in
        exists r, v = Some r /\
                  r == Pd.of_nat (MaxChartier.clicked_records g)
                       / Pd.of_nat (List.length g)) /\
    (forall a,
        In (Some a) (map Recs.algorithm_version recs) ->
        exists r,
          In (a, Some r) (MaxChartier.ctr (MaxChartier.astype_str recs))) /\
    (forall t,
        In (Some t) (map Recs.recommendation_type recs) ->
        exists s,
          In s (MaxChartier.rec_summary (MaxChartier.astype_str recs)) /\
          MaxChartier.recommendation_type s = t) /\
    (forall s,
        In s (MaxChartier.rec_summary (MaxChartier.astype_str recs)) ->
        let g := Pd.group Recs.recommendation_type
                          (MaxChartier.recommendation_type s) recs in
        (forall x, In x g -> Recs.recommendation_id x <> None) ->
        exists r, MaxChartier.type_ctr s = Some r /\
                  r == Pd.of_nat (MaxChartier.clicked_records g)
                       / Pd.of_nat (List.length g)).
Proof.
  intros recs. split; [|split; [|split]].
  - intros a v Hin g. apply CtrFacts.ctr_in in Hin.
    destruct Hin as [Hin ->]. fold g.
    eexists. split; [|reflexivity].
    apply RateFacts.div_nat_pos, CtrFacts.group_nonempty, Hin.
  - intros a Hin. eexists. apply CtrFacts.ctr_in. split; [exact Hin|].
    symmetry. apply RateFacts.div_nat_pos, CtrFacts.group_nonempty, Hin.
  - intros t Hin.
    set (g := Pd.group Recs.recommendation_type t recs).
    exists (MaxChartier.mk_summary
              t (MaxChartier.identified_records g)
              (MaxChartier.clicked_records g)
              (Pd.div (Pd.of_nat (MaxChartier.clicked_records g))
                      (Pd.of_nat (MaxChartier.identified_records g)))).
    split; [|reflexivity].
    apply CtrFacts.rec_summary_in. simpl. auto.
  - intros s Hin g. apply CtrFacts.rec_summary_in in Hin.
    destruct Hin as [Hin E]. fold g in E.
    intros Hall.
    assert (Hid : MaxChartier.identified_records g = List.length g).
    { unfold MaxChartier.identified_records.
      rewrite SumFacts.filter_all; [reflexivity|].
      intros x Hx. specialize (Hall x Hx).
      destruct (Recs.recommendation_id x); [reflexivity | congruence]. }
    rewrite E. simpl. rewrite Hid.
    eexists. split; [|reflexivity].
    apply RateFacts.div_nat_pos, CtrFacts.group_nonempty, Hin.
Qed.

(* ================================================================== *)
(** * Rates stay between 0 and 1 *)

Module BoundFacts.

Lemma clicked_le (x : list string) :
  (MaxChartier.clicked x <= List.length x)%nat.
Proof. apply RateFacts.filter_length_le. Qed.

Lemma active_le_total (g : list Story.ret_row) :
  (Story.active_count g <= Story.total_count g)%nat.
Proof.
  unfold Story.active_count, Story.total_count.
  rewrite RateFacts.count_notna.
  apply RateFacts.filter_length_imp.
  intros [[|]|]; simpl; congruence.
Qed.

Lemma percent_raw_bounds (a n : nat) (r : Q) :
  (a <= n)%nat ->
  option_map (fun x => x * 100) (Pd.div (Pd.of_nat a) (Pd.of_nat n))
  = Some r ->
  0 <= r /\ r <= 100.
Proof.
  intros Han H.
  destruct (Pd.div (Pd.of_nat a) (Pd.of_nat n)) as [q|] eqn:E;
    [|discriminate].
  simpl in H. injection H as <-.
  destruct (RateFacts.div_nat_bounds a n q Han E) as [H0 H1].
  lra.
Qed.

Lemma percent_bounds (a n : nat) (r : Q) :
  (a <= n)%nat ->
  option_map Pd.round1
             (option_map (fun x => x * 100)
                         (Pd.div (Pd.of_nat a) (Pd.of_nat n))) = Some r ->
  0 <= r /\ r <= 100.
Proof.
  intros Han H.
  destruct (option_map (fun x => x * 100)
                       (Pd.div (Pd.of_nat a) (Pd.of_nat n))) as [q|] eqn:E;
    [|discriminate].
  simpl in H. injection H as <-.
  destruct (percent_raw_bounds a n q Han E) as [H0 H1].
  apply RoundFacts.round1_bounds; lra.
Qed.

Lemma mean_flags_bounds (fl : list (option bool)) (r : Q) :
  Story.mean_flags fl = Some r -> 0 <= r /\ r <= 1.
Proof.
  unfold Story.mean_flags. apply RateFacts.div_nat_bounds.
  rewrite RateFacts.count_notna.
  apply RateFacts.filter_length_imp.
  intros [[|]|]; simpl; congruence.
Qed.

End BoundFacts.

(** C2.  The code departs from the claim in the rate by recommendation
    type, whose divisor counts the identifiers of the group (line 230) and
    not its records, as the rate by algorithm version does (line 96).  With
    three trending records, two of them clicked and only the unclicked one
    identified, the reported rate is 2. *)
Lemma ctr_by_type_can_exceed_one :
  exists s r,
    In s (MaxChartier.rec_summary
            (MaxChartier.astype_str Sample.recs_id_missing)) /\
    MaxChartier.type_ctr s = Some r /\
    ~ r <= 1.
Proof.
  exists (MaxChartier.mk_summary "trending" 1 2 (Some 2)), 2.
  split; [|split].
  - vm_compute. left. reflexivity.
  - reflexivity.
  - vm_compute. intros H. apply H. reflexivity.
Qed.

(** X20.  Whenever it is computed, the retention rate of a plan lies in
    [[0, 1]], the retention percentage of an engagement level and spend
    bracket in [[0, 100]] (on a boolean and on an object column of flags),
    the retention of a spend bracket in [[0, 1]], and the click-through
    rate of an algorithm version in [[0, 1]].  The click-through rate of a
    recommendation type lies in [[0, 1]] when every record of the type
    carries an identifier. *)
Theorem rates_within_unit_interval :
  forall (users : list Users.t) (df : list Story.ret_row)
         (recs : list (Recs.row string)),
    (forall p r, In (p, Some r) (MaxChartier.retention_rate users) ->
                 0 <= r /\ r <= 1) /\
    (forall object m r, In m (Story.retention_matrix df) ->
                        Story.retention_rate object m = Some r ->
                        0 <= r /\ r <= 100) /\
    (forall b r, In b (Story.spend_brackets df) ->
                 Story.retention b = Some r ->
                 0 <= r /\ r <= 1) /\
    (forall a r, In (a, Some r) (MaxChartier.ctr recs) ->
                 0 <= r /\ r <= 1) /\
    (forall s r, In s (MaxChartier.rec_summary recs) ->
                 (forall x,
                     In x (Pd.group Recs.recommendation_type
                                    (MaxChartier.recommendation_type s)
                                    recs) ->
                     Recs.recommendation_id x <> None) ->
                 MaxChartier.type_ctr s = Some r ->
                 0 <= r /\ r <= 1).
Proof.
  intros users df recs. split; [|split; [|split; [|split]]].
  - intros p r Hin. apply RateFacts.retention_rate_in in Hin.
    destruct Hin as [_ [_ E]]. symmetry in E.
    apply RateFacts.div_inv in E. destruct E as [Hb ->].
    set (t := MaxChartier.active_users _) in *.
    set (f := List.length _) in *.
    assert (Ht : 0 <= Pd.of_nat t) by apply SignFacts.of_nat_nonneg.
    assert (Hf : 0 <= Pd.of_nat f) by apply SignFacts.of_nat_nonneg.
    apply RateFacts.ratio_bounds; [exact Ht | lra |].
    apply Qle_lteq in Ht. apply Qle_lteq in Hf.
    destruct Ht as [Ht|Ht]; [lra|]. destruct Hf as [Hf|Hf]; [lra|].
    exfalso. apply Hb. rewrite <- Ht, <- Hf. reflexivity.
  - intros object m r Hin E. unfold Story.retention_matrix in Hin.
    apply in_flat_map in Hin. destruct Hin as [level [_ Hin]].
    apply in_map_iff in Hin. destruct Hin as [bracket [<- _]].
    unfold Story.retention_rate in E. cbn [Story.m_active Story.m_total] in E.
    destruct object.
    + eapply BoundFacts.percent_raw_bounds; [|exact E].
      apply BoundFacts.active_le_total.
    + eapply BoundFacts.percent_bounds; [|exact E].
      apply BoundFacts.active_le_total.
  - intros b r Hin E. unfold Story.spend_brackets in Hin.
    apply in_map_iff in Hin. destruct Hin as [label [<- _]].
    simpl in E. eapply BoundFacts.mean_flags_bounds, E.
  - intros a r Hin. unfold MaxChartier.ctr in Hin.
    apply PdFacts.groupby_agg_in in Hin. destruct Hin as [_ E].
    symmetry in E. eapply RateFacts.div_nat_bounds; [|exact E].
    apply BoundFacts.clicked_le.
  - intros s r Hin Hall E. unfold MaxChartier.rec_summary in Hin.
    apply in_map_iff in Hin. destruct Hin as [[t g] [<- Hg]].
    apply PdFacts.groupby_in in Hg. destruct Hg as [_ ->].
    simpl in E, Hall.
    eapply RateFacts.div_nat_bounds; [|exact E].
    rewrite (RateFacts.count_map_notna Recs.recommendation_id).
    rewrite SumFacts.filter_all.
    + rewrite <- (length_map Recs.was_clicked).
      apply BoundFacts.clicked_le.
    + intros x Hx. specialize (Hall x Hx).
      destruct (Recs.recommendation_id x); [reflexivity | congruence].
Qed.

(* ================================================================== *)
(** * The left join of the users with their watch totals *)

Module JoinFacts.

Lemma matches_at_most_one (o : option string) (totals : list (string * Q)) :
  NoDup (map fst totals) ->
  (List.length (filter (fun t => Pd.key_eqb o (total_key t)) totals)
   <= 1)%nat.
Proof.
  unfold total_key.
  induction totals as [|a tl IH]; simpl; intros Hnd; [lia|].
  inversion Hnd as [|? ? Ha Htl]; subst.
  destruct (Pd.key_eqb o (Some (fst a))) eqn:E; [|auto].
  simpl. rewrite PdFacts.filter_false; [simpl; lia|].
  intros t Ht. destruct o as [k|]; simpl in *; [|reflexivity].
  apply String.eqb_eq in E. subst k.
  apply String.eqb_neq. intros Eq. apply Ha. rewrite Eq.
  apply in_map. exact Ht.
Qed.

(** With at most one match per left row, a left join yields one row per
    left row, in order. *)
Lemma merge_left_single {L R : Type} (lk : L -> option string)
      (rk : R -> option string) (left : list L) (right : list R) :
  (forall l, (List.length (Pd.matches lk rk l right) <= 1)%nat) ->
  Pd.merge_left lk rk left right
  = map (fun l => (l, hd_error (Pd.matches lk rk l right))) left.
Proof.
  intros H. unfold Pd.merge_left.
  induction left as [|l left IH]; [reflexivity|].
  cbn [flat_map]. rewrite IH, map_cons. specialize (H l).
  destruct (Pd.matches lk rk l right) as [|m [|m' ms]]; simpl in *;
    [reflexivity | reflexivity | lia].
Qed.

Lemma totals_nodup {P : Type} (watch : list (Watch.t P)) :
  NoDup (map fst (watch_sum_by_user watch)).
Proof.
  unfold watch_sum_by_user, Pd.groupby_agg.
  rewrite map_map. simpl.
  rewrite PdFacts.groupby_keys. apply PdFacts.group_keys_nodup.
Qed.

(** The engagement frame: every user beside the total found for it. *)
Lemma merge_totals_map {P : Type} (users : list Users.t)
      (watch : list (Watch.t P)) :
  merge_totals users (watch_sum_by_user watch)
  = map (fun u => (u, total_of u (watch_sum_by_user watch))) users.
Proof.
  unfold merge_totals. rewrite merge_left_single.
  - rewrite map_map. reflexivity.
  - intros u. apply matches_at_most_one, totals_nodup.
Qed.

Lemma total_of_absent {P : Type} (u : Users.t) (watch : list (Watch.t P)) :
  (forall k, Users.user_id u = Some k ->
             forall w, In w watch -> Watch.user_id w <> Some k) ->
  total_of u (watch_sum_by_user watch) = 0.
Proof.
  intros H. unfold total_of.
  destruct (Pd.matches Users.user_id total_key u (watch_sum_by_user watch))
    as [|t ms] eqn:E; [reflexivity|].
  exfalso.
  assert (Ht : In t (t :: ms)) by (left; reflexivity).
  rewrite <- E in Ht. unfold Pd.matches in Ht. apply filter_In in Ht.
  destruct Ht as [Hin Hk]. destruct t as [k s].
  destruct (Users.user_id u) as [k'|] eqn:Eu; simpl in Hk; [|discriminate].
  apply String.eqb_eq in Hk. subst k'.
  apply PdFacts.groupby_agg_in in Hin. destruct Hin as [Hin _].
  apply in_map_iff in Hin. destruct Hin as [w [Ew Hw]].
  exact (H k eq_refl w Hw Ew).
Qed.

Lemma total_of_present {P : Type} (u : Users.t) (watch : list (Watch.t P))
      (k : string) :
  Users.user_id u = Some k ->
  In (Some k) (map Watch.user_id watch) ->
  total_of u (watch_sum_by_user watch)
  = Pd.sum (durations (Pd.group Watch.user_id k watch)).
Proof.
  intros Eu Hin. unfold total_of.
  set (s := Pd.sum (durations (Pd.group Watch.user_id k watch))).
  assert (Hm : In (k, s)
                  (Pd.matches Users.user_id total_key
                              u (watch_sum_by_user watch))).
  { unfold Pd.matches. apply filter_In. split.
    - apply PdFacts.groupby_agg_in. auto.
    - rewrite Eu. simpl. apply String.eqb_refl. }
  assert (Hlen := matches_at_most_one (Users.user_id u)
                    (watch_sum_by_user watch) (totals_nodup watch)).
  fold (Pd.matches Users.user_id total_key
                   u (watch_sum_by_user watch)) in Hlen.
  destruct (Pd.matches Users.user_id total_key u (watch_sum_by_user watch))
    as [|t [|t' ms]]; simpl in *.
  - destruct Hm.
  - destruct Hm as [->|[]]. reflexivity.
  - lia.
Qed.

Lemma mean_all_present (l : list Q) :
  Pd.mean (map Some l) = Pd.div (Pd.sum l) (Pd.of_nat (List.length l)).
Proof.
  unfold Pd.mean, Pd.sum_skipna, Pd.count.
  assert (E : Pd.dropna (map Some l) = l).
  { induction l as [|x l IH]; simpl; congruence. }
  rewrite E. reflexivity.
Qed.

End JoinFacts.

(** C10.  The engagement frame, which both scripts build by a left join of
    the users with the per-user watch totals followed by a fill with zero,
    lists the rows of the users table once each and in order.  A user whose
    identifier no watch row carries has a total of exactly zero, and a user
    with watch rows has the sum of their durations.  The average per plan
    is taken over all the users of the plan, those at zero included: its
    divisor is the number of users of the plan. *)
Theorem engagement_keeps_every_user :
  forall (P : Type) (users : list Users.t) (watch : list (Watch.t P)),
    let eng := merge_totals users (watch_sum_by_user watch) in
    MaxChartier.users_plan users watch = eng /\
    Story.user_engagement users watch = eng /\
    map fst eng = users /\
    (forall u t,
        In (u, t) eng ->
        (forall k, Users.user_id u = Some k ->
                   forall w, In w watch -> Watch.user_id w <> Some k) ->
        t = 0) /\
    (forall u t k,
        In (u, t) eng ->
        Users.user_id u = Some k ->
        In (Some k) (map Watch.user_id watch) ->
        t = Pd.sum (durations (Pd.group Watch.user_id k watch))) /\
    (forall p v,
        In (p, v) (MaxChartier.plan_eng users watch) ->
        let g := Pd.group MaxChartier.plan_of p eng in
        map fst g = Pd.group Users.subscription_plan p users /\
        v = Pd.div (Pd.sum (map snd g))
                   (Pd.of_nat (List.length
                                 (Pd.group Users.subscription_plan p
                                           users)))).
Proof.
  intros P users watch eng.
  assert (Hmap : map fst eng = users).
  { unfold eng. rewrite JoinFacts.merge_totals_map, map_map. simpl.
    apply map_id. }
  split; [reflexivity|]. split; [reflexivity|]. split; [exact Hmap|].
  split; [|split].
  - intros u t Hin Habs. unfold eng in Hin.
    rewrite JoinFacts.merge_totals_map in Hin.
    apply in_map_iff in Hin. destruct Hin as [u' [E _]].
    injection E as <- <-. apply JoinFacts.total_of_absent, Habs.
  - intros u t k Hin Eu Hk. unfold eng in Hin.
    rewrite JoinFacts.merge_totals_map in Hin.
    apply in_map_iff in Hin. destruct Hin as [u' [E _]].
    injection E as <- <-. apply JoinFacts.total_of_present; assumption.
  - intros p v Hin g. unfold MaxChartier.plan_eng in Hin.
    apply PdFacts.groupby_agg_in in Hin. destruct Hin as [_ ->].
    unfold MaxChartier.users_plan, MaxChartier.watch_user. fold eng. fold g.
    assert (Hg : map fst g = Pd.group Users.subscription_plan p users).
    { unfold g, Pd.group. rewrite <- Hmap.
      rewrite RateFacts.filter_map_comm. reflexivity. }
    split; [exact Hg|].
    rewrite <- Hg, length_map.
    rewrite <- (length_map snd g), <- JoinFacts.mean_all_present.
    rewrite map_map. reflexivity.
Qed.

(* ================================================================== *)
(** * Sections guarded against an empty result *)

Module GuardFacts.

Lemma no_rating_no_rated {P : Type} (watch : list (Watch.t P)) :
  (forall r, In r watch -> Watch.user_rating r = None) ->
  MaxChartier.watch_rated watch = [].
Proof.
  intros H. unfold MaxChartier.watch_rated. apply PdFacts.filter_false.
  intros r Hr. rewrite (H r Hr). reflexivity.
Qed.

(** A header, a message and the rule, appended to the page. *)
Lemma message_only {T : Type} (w : St.world T) (section : St.M T unit)
      (title text : string) :
  section w
  = Some (tt, St.mk (St.fs w) (St.cache w)
                    (((St.page w ++ [St.Header title])
                        ++ [St.Info text])
                       ++ [St.Markdown "---"])) ->
  St.renders_message_only section w.
Proof.
  intros E. exists [St.Header title; St.Info text; St.Markdown "---"].
  split; [|split; reflexivity].
  rewrite E, <- !app_assoc. reflexivity.
Qed.

End GuardFacts.

(** C8.  When every [user_rating] of the watch history is missing, the
    sections on satisfaction by device, by plan and by genre each put their
    informational message on the page and draw no chart; so does the section
    on the click-through rate by type when the recommendation log has no
    row. *)
Theorem empty_sections_render_message :
  forall (T : Type) (w : St.world T) (users : list Users.t)
         (watch : list (Watch.t (option Q))) (movies : list Movies.row),
    (forall r, In r watch -> Watch.user_rating r = None) ->
    let watch_rated := MaxChartier.watch_rated watch in
    St.renders_message_only
      (MaxChartier.satisfaction_by_device watch_rated) w /\
    St.renders_message_only
      (MaxChartier.satisfaction_by_plan users watch_rated) w /\
    St.renders_message_only
      (MaxChartier.satisfaction_by_genre
         watch_rated (MaxChartier.watch_genre watch movies)) w /\
    St.renders_message_only
      (MaxChartier.ctr_by_type (MaxChartier.astype_str [])) w.
Proof.
  intros T w users watch movies Hnone watch_rated.
  assert (E : watch_rated = []) by (apply GuardFacts.no_rating_no_rated, Hnone).
  rewrite E.
  repeat split; eapply GuardFacts.message_only; reflexivity.
Qed.

(* ================================================================== *)
(** * Ingestion *)

Module LoadFacts.

Section Coerce.
Variable parse_float : string -> option (option Q).

(** With [errors="coerce"] the conversion always succeeds, cell by cell. *)
Lemma to_numeric_coerce (col : list cell) :
  Numeric.to_numeric parse_float Numeric.Coerce col
  = Some (map (Numeric.coerced parse_float) col).
Proof.
  induction col as [|c col IH]; simpl; [reflexivity|].
  unfold Numeric.coerced at 1.
  destruct (Numeric.convert parse_float c) as [v|];
    rewrite IH; reflexivity.
Qed.

Lemma coerced_coerces (c : cell) :
  Numeric.coerces parse_float c (Numeric.coerced parse_float c).
Proof.
  destruct c as [q|s|]; unfold Numeric.coerced; simpl.
  - constructor.
  - destruct (parse_float s) as [v|] eqn:E.
    + apply Numeric.text_read, E.
    + apply Numeric.text_dropped, E.
  - constructor.
Qed.

Lemma assign_users (rows : list Users.raw) :
  Assign.spend_and_age
    rows
    (map (Numeric.coerced parse_float) (map Users.monthly_spend rows))
    (map (Numeric.coerced parse_float) (map Users.age rows))
  = map (Lenient.user parse_float) rows.
Proof.
  unfold Assign.spend_and_age.
  induction rows as [|r rows IH]; simpl; [reflexivity|].
  rewrite IH. reflexivity.
Qed.

Lemma assign_duration (rows : list Watch.raw) :
  Assign.watch_duration_minutes
    rows
    (map (Pd.fillna 0)
         (map (Numeric.coerced parse_float)
              (map Watch.watch_duration_minutes rows)))
  = map (Lenient.watch_duration parse_float) rows.
Proof.
  unfold Assign.watch_duration_minutes.
  induction rows as [|r rows IH]; simpl; [reflexivity|].
  rewrite IH. reflexivity.
Qed.

Lemma assign_progress (rows : list (Watch.t cell)) :
  Assign.progress_percentage
    rows
    (map (Numeric.coerced parse_float) (map Watch.progress_percentage rows))
  = map (Lenient.watch_progress parse_float) rows.
Proof.
  unfold Assign.progress_percentage.
  induction rows as [|r rows IH]; simpl; [reflexivity|].
  rewrite IH. reflexivity.
Qed.

Lemma Forall2_map {A B : Type} (R : A -> B -> Prop) (f : A -> B)
      (l : list A) :
  (forall x, R x (f x)) -> Forall2 R l (map f l).
Proof.
  intros H. induction l as [|x l IH]; simpl; constructor; auto.
Qed.

Lemma users_loaded (rows : list Users.raw) :
  Forall2 (Lenient.user_loaded parse_float) rows
          (map (Lenient.user parse_float) rows).
Proof.
  apply Forall2_map. intros r.
  repeat split; simpl; apply coerced_coerces.
Qed.

Lemma watch_loaded (rows : list Watch.raw) :
  Forall2 (Lenient.watch_loaded parse_float) rows
          (map (Lenient.watch_progress parse_float)
               (map (Lenient.watch_duration parse_float) rows)).
Proof.
  rewrite map_map. apply Forall2_map. intros r.
  split; [|split; [|repeat split]].
  - eexists. split; [apply coerced_coerces | reflexivity].
  - simpl. apply coerced_coerces.
Qed.

Lemma watch_loaded_story (rows : list Watch.raw) :
  Forall2 (Lenient.watch_loaded_progress_raw parse_float) rows
          (map (Lenient.watch_duration parse_float) rows).
Proof.
  apply Forall2_map. intros r.
  split; [|repeat split].
  eexists. split; [apply coerced_coerces | reflexivity].
Qed.

(** What a load returns when the four files are there. *)
Lemma max_chartier_body (base : string) (w : St.world MaxChartier.tables)
      (u : list Users.raw) (wa : list Watch.raw) (m : list Movies.row)
      (r : list Recs.raw) :
  St.fs w (St.path_join base "users.csv") = Some (St.UsersFile u) ->
  St.fs w (St.path_join base "watch_history.csv") = Some (St.WatchFile wa) ->
  St.fs w (St.path_join base "movies.csv") = Some (St.MoviesFile m) ->
  St.fs w (St.path_join base "recommendation_logs.csv")
  = Some (St.RecsFile r) ->
  MaxChartier.load_body parse_float base w
  = Some (MaxChartier.mk
            (map (Lenient.user parse_float) u)
            (map (Lenient.watch_progress parse_float)
                 (map (Lenient.watch_duration parse_float) wa)) m r,
          w).
Proof.
  intros Hu Hw Hm Hr.
  unfold MaxChartier.load_body, St.bind, St.read_users, St.read_watch,
    St.read_movies, St.read_recs, MaxChartier.coerce, St.lift, St.ret.
  rewrite Hu, Hw, Hm, Hr.
  rewrite to_numeric_coerce, assign_duration.
  rewrite to_numeric_coerce, assign_progress.
  rewrite !to_numeric_coerce, assign_users.
  reflexivity.
Qed.

Lemma story_body (w : St.world Story.tables)
      (u : list Users.raw) (wa : list Watch.raw) (m : list Movies.row) :
  St.fs w "users.csv" = Some (St.UsersFile u) ->
  St.fs w "watch_history.csv" = Some (St.WatchFile wa) ->
  St.fs w "movies.csv" = Some (St.MoviesFile m) ->
  Story.load_body parse_float w
  = Some (Story.mk (map (Lenient.user parse_float) u)
                   (map (Lenient.watch_duration parse_float) wa) m, w).
Proof.
  intros Hu Hw Hm.
  unfold Story.load_body, St.bind, St.read_users, St.read_watch,
    St.read_movies, Story.coerce, St.lift, St.ret.
  change (St.path_join "." "users.csv") with "users.csv"%string.
  change (St.path_join "." "watch_history.csv")
    with "watch_history.csv"%string.
  change (St.path_join "." "movies.csv") with "movies.csv"%string.
  rewrite Hu, Hw, Hm.
  rewrite to_numeric_coerce, assign_duration.
  rewrite !to_numeric_coerce, assign_users.
  reflexivity.
Qed.

End Coerce.

(** A memoised step succeeds whenever its body does. *)
Lemma cache_data_runs {T : Type} (key : list string) (body : St.M T T)
      (w : St.world T) (t : T) (w' : St.world T) :
  body w = Some (t, w') ->
  exists t1 w1, St.cache_data key body w = Some (t1, w1).
Proof.
  intros E. unfold St.cache_data.
  destruct (St.lookup key (St.cache w)) as [v|].
  - eauto.
  - rewrite E. eauto.
Qed.

End LoadFacts.

(** C5, as stated, fails for the story dashboard, whose [load_data] does
    not coerce [progress_percentage]: the text [abc], which does not parse,
    is still there after the load instead of a missing value. *)
Lemma story_load_leaves_progress_as_read :
  Sample.parse_float "abc" = None /\
  exists t w',
    Story.load_data Sample.parse_float Sample.fresh = Some (t, w') /\
    map Watch.progress_percentage (Story.watch t) = [CStr "abc"; CNaN].
Proof.
  split; [reflexivity|].
  eexists. eexists. split; [vm_compute; reflexivity | reflexivity].
Qed.

(** C5, amended.  Whatever the cells hold, [load_data] returns as soon as
    the files it reads are there.  In the Max Chartier dashboard a load
    coerces [watch_duration_minutes], [progress_percentage],
    [monthly_spend] and [age]: a text that does not parse and a missing
    value both become missing, and a missing duration is then replaced by
    zero while a missing spend or age stays missing.  In the story
    dashboard a load does the same for [watch_duration_minutes],
    [monthly_spend] and [age], and leaves [progress_percentage] as read.
    The other columns are untouched. *)
Theorem load_data_coerces_numeric_cells :
  forall (parse_float : string -> option (option Q))
         (u : list Users.raw) (wa : list Watch.raw) (m : list Movies.row)
         (r : list Recs.raw),
    (forall (arg : option string) (w : St.world MaxChartier.tables),
        let base := MaxChartier.base_path arg in
        St.fs w (St.path_join base "users.csv") = Some (St.UsersFile u) ->
        St.fs w (St.path_join base "watch_history.csv")
        = Some (St.WatchFile wa) ->
        St.fs w (St.path_join base "movies.csv") = Some (St.MoviesFile m) ->
        St.fs w (St.path_join base "recommendation_logs.csv")
        = Some (St.RecsFile r) ->
        (exists t w', MaxChartier.load_data parse_float arg w
                      = Some (t, w')) /\
        (exists t,
            MaxChartier.load_body parse_float base w = Some (t, w) /\
            Forall2 (Lenient.user_loaded parse_float) u
                    (MaxChartier.users t) /\
            Forall2 (Lenient.watch_loaded parse_float) wa
                    (MaxChartier.watch t) /\
            MaxChartier.movies t = m /\
            MaxChartier.recs t = r)) /\
    (forall (w : St.world Story.tables),
        St.fs w "users.csv" = Some (St.UsersFile u) ->
        St.fs w "watch_history.csv" = Some (St.WatchFile wa) ->
        St.fs w "movies.csv" = Some (St.MoviesFile m) ->
        (exists t w', Story.load_data parse_float w = Some (t, w')) /\
        (exists t,
            Story.load_body parse_float w = Some (t, w) /\
            Forall2 (Lenient.user_loaded parse_float) u (Story.users t) /\
            Forall2 (Lenient.watch_loaded_progress_raw parse_float) wa
                    (Story.watch t) /\
            Story.movies t = m)).
Proof.
  intros parse_float u wa m r. split.
  - intros arg w base Hu Hw Hm Hr.
    assert (E := LoadFacts.max_chartier_body parse_float base w u wa m r
                   Hu Hw Hm Hr).
    split.
    + eapply LoadFacts.cache_data_runs, E.
    + eexists. split; [exact E|]. simpl.
      split; [apply LoadFacts.users_loaded|].
      split; [apply LoadFacts.watch_loaded|]. auto.
  - intros w Hu Hw Hm.
    assert (E := LoadFacts.story_body parse_float w u wa m Hu Hw Hm).
    split.
    + eapply LoadFacts.cache_data_runs, E.
    + eexists. split; [exact E|]. simpl.
      split; [apply LoadFacts.users_loaded|].
      split; [apply LoadFacts.watch_loaded_story|]. reflexivity.
Qed.

(* ================================================================== *)
(** * The theorems at work on the sample tables *)


(** The retention of the sample Basic plan: one active user of two. *)
Lemma retention_rate_on_sample :
  let g := Pd.group Users.subscription_plan "Basic" Sample.users in
  (0 < MaxChartier.flagged_users g)%nat /\
  exists r,
    In ("Basic"%string, Some r) (MaxChartier.retention_rate Sample.users) /\
    r == Pd.of_nat (MaxChartier.active_users g)
         / Pd.of_nat (MaxChartier.flagged_users g).
Proof.
  intros g.
  assert (Hpos : (0 < MaxChartier.flagged_users g)%nat).
  { vm_compute. apply le_S, le_n. }
  split; [exact Hpos|].
  exact (proj1 (proj2 (retention_rate_is_active_over_flagged
                         Sample.users "Basic")) Hpos).
Defined.

(** A load of the sample directory by either script. *)
Lemma load_on_sample :
  (exists t w',
      MaxChartier.load_data Sample.parse_float None Sample.fresh
      = Some (t, w')) /\
  (exists t w',
      Story.load_data Sample.parse_float Sample.fresh = Some (t, w')).
Proof.
  destruct (load_data_coerces_numeric_cells
              Sample.parse_float Sample.raw_users Sample.raw_watch
              Sample.movies Sample.recs) as [Hmax Hstory].
  split.
  - apply (Hmax None Sample.fresh); reflexivity.
  - apply (Hstory Sample.fresh); reflexivity.
Defined.

(** The sample watch history, whose durations are whole minutes, where
    every session has a device and meets the one movie of the catalogue. *)
Lemma grouped_sums_on_sample :
  Float64.whole (durations Sample.watch) = true /\
  Float64.whole
    (durations (map fst (MaxChartier.watch_genre Sample.watch Sample.movies)))
  = true /\
  (forall w, In w Sample.watch -> Watch.device_type w <> None) /\
  (forall w, In w Sample.watch ->
             exists m g,
               Pd.matches Watch.movie_id Movies.movie_id w Sample.movies
               = [m] /\
               Movies.genre_primary m = Some g) /\
  Float64.sum (map snd (Rounded.device_eng Sample.watch))
  == Rounded.total Sample.watch /\
  Float64.sum (map snd (Rounded.genre_eng Sample.watch Sample.movies))
  == Rounded.total Sample.watch.
Proof.
  assert (Hw : Float64.whole (durations Sample.watch) = true)
    by (vm_compute; reflexivity).
  assert (Hm : Float64.whole
                 (durations
                    (map fst (MaxChartier.watch_genre Sample.watch
                                                      Sample.movies)))
               = true) by (vm_compute; reflexivity).
  assert (Hd : forall w, In w Sample.watch -> Watch.device_type w <> None).
  { intros w Hin. simpl in Hin.
    destruct Hin as [<-|[<-|[<-|[<-|[<-|[<-|[]]]]]]]; discriminate. }
  assert (Hg : forall w, In w Sample.watch ->
                         exists m g,
                           Pd.matches Watch.movie_id Movies.movie_id
                                      w Sample.movies = [m] /\
                           Movies.genre_primary m = Some g).
  { intros w Hin. exists Sample.a_movie, "Drama"%string. simpl in Hin.
    destruct Hin as [<-|[<-|[<-|[<-|[<-|[<-|[]]]]]]];
      split; reflexivity. }
  destruct (grouped_sums_recover_total (option Q) Sample.watch Sample.movies)
    as [_ [_ [Hdev Hgen]]].
  split; [exact Hw|]. split; [exact Hm|].
  split; [exact Hd|]. split; [exact Hg|].
  split; [exact (proj2 (Hdev Hw) Hd) | exact (proj2 (Hgen Hm) Hg)].
Defined.


(** A watch history without any rating, on a fresh page. *)
Lemma empty_sections_on_sample :
  (forall r, In r Sample.watch_without_device ->
             Watch.user_rating r = None) /\
  St.renders_message_only
    (MaxChartier.satisfaction_by_device
       (MaxChartier.watch_rated Sample.watch_without_device))
    (@Sample.fresh unit).
Proof.
  assert (H : forall r, In r Sample.watch_without_device ->
                        Watch.user_rating r = None).
  { intros r [<-|[]]. reflexivity. }
  split; [exact H|].
  exact (proj1 (empty_sections_render_message
                  unit Sample.fresh Sample.users
                  Sample.watch_without_device Sample.movies H)).
Defined.

(** The sample user [u3] has no session: its total is zero. *)
Lemma engagement_on_sample :
  let u := Sample.user "u3" "Premium" (Some 20) (Some true) in
  exists t,
    In (u, t) (merge_totals Sample.users (watch_sum_by_user Sample.watch)) /\
    (forall k, Users.user_id u = Some k ->
               forall w, In w Sample.watch -> Watch.user_id w <> Some k) /\
    t = 0.
Proof.
  intros u. exists 0.
  assert (Hin : In (u, 0) (merge_totals Sample.users
                                        (watch_sum_by_user Sample.watch))).
  { vm_compute. do 2 right. left. reflexivity. }
  assert (Habs : forall k, Users.user_id u = Some k ->
                           forall w, In w Sample.watch ->
                                     Watch.user_id w <> Some k).
  { intros k [= <-] w Hw. simpl in Hw.
    destruct Hw as [<-|[<-|[<-|[<-|[<-|[<-|[]]]]]]]; discriminate. }
  split; [exact Hin|]. split; [exact Habs|].
  destruct (engagement_keeps_every_user (option Q) Sample.users Sample.watch)
    as [_ [_ [_ [Hzero _]]]].
  exact (Hzero u 0 Hin Habs).
Defined.

(* ================================================================== *)
(** * Sorted columns *)

Module SortFacts.

Lemma in_firstn {A : Type} (n : nat) (l : list A) (x : A) :
  In x (firstn n l) -> In x l.
Proof.
  intros H. rewrite <- (firstn_skipn n l). apply in_or_app. auto.
Qed.

Lemma in_skipn {A : Type} (n : nat) (l : list A) (x : A) :
  In x (skipn n l) -> In x l.
Proof.
  intros H. rewrite <- (firstn_skipn n l). apply in_or_app. auto.
Qed.

Section Order.
Context {A : Type} (leb : A -> A -> bool).
Hypothesis leb_total : forall a b, leb a b = true \/ leb b a = true.
Hypothesis leb_trans :
  forall a b c, leb a b = true -> leb b c = true -> leb a c = true.

Let R (a b : A) : Prop := leb a b = true.

Lemma insert_sorted (x : A) (l : list A) :
  StronglySorted R l -> StronglySorted R (Pd.insert leb x l).
Proof.
  induction 1 as [|y l Hs IH Hy]; simpl.
  - constructor; constructor.
  - destruct (leb x y) eqn:E.
    + constructor; [constructor; assumption|].
      constructor; [exact E|].
      eapply Forall_impl; [|exact Hy].
      intros z Hz. exact (leb_trans x y z E Hz).
    + constructor; [exact IH|].
      assert (Hyx : R y x).
      { destruct (leb_total x y) as [H|H]; [congruence | exact H]. }
      eapply Permutation_Forall;
        [apply Permutation_sym, PdFacts.insert_perm|].
      constructor; assumption.
Qed.

Lemma sort_sorted (l : list A) : StronglySorted R (Pd.sort leb l).
Proof.
  induction l as [|x l IH]; simpl; [constructor|].
  apply insert_sorted, IH.
Qed.

Lemma sorted_nth (d : A) (l : list A) :
  (forall a, R a a) ->
  StronglySorted R l ->
  forall i j, (i <= j)%nat -> (j < List.length l)%nat ->
              R (nth i l d) (nth j l d).
Proof.
  intros Hrefl. induction 1 as [|a l Hs IH Ha]; intros i j Hij Hj.
  - simpl in Hj. lia.
  - destruct i as [|i], j as [|j]; simpl in *; try lia.
    + apply Hrefl.
    + rewrite Forall_forall in Ha. apply Ha, nth_In. lia.
    + apply IH; lia.
Qed.

(** Past the first [n] rows of a sorted frame, nothing comes before any
    of those rows. *)
Lemma sorted_firstn_skipn (n : nat) (l : list A) :
  StronglySorted R l ->
  forall x y, In x (firstn n l) -> In y (skipn n l) -> R x y.
Proof.
  intros Hs. revert n.
  induction Hs as [|a l Hs IH Ha]; intros n x y Hx Hy.
  - rewrite firstn_nil in Hx. destruct Hx.
  - destruct n as [|n]; simpl in *; [destruct Hx|].
    destruct Hx as [<-|Hx].
    + rewrite Forall_forall in Ha. apply Ha.
      eapply in_skipn, Hy.
    + eapply IH; eassumption.
Qed.

Lemma firstn_sorted (n : nat) (l : list A) :
  StronglySorted R l -> StronglySorted R (firstn n l).
Proof.
  intros Hs. revert n.
  induction Hs as [|a l Hs IH Ha]; intros [|n]; simpl; try constructor.
  - apply IH.
  - rewrite Forall_forall in *. intros x Hx. apply Ha.
    eapply in_firstn, Hx.
Qed.
End Order.

Lemma Qle_bool_total (a b : Q) : Qle_bool a b = true \/ Qle_bool b a = true.
Proof.
  rewrite !Qle_bool_iff. destruct (Qlt_le_dec a b) as [H|H]; [left|right].
  - apply Qlt_le_weak, H.
  - exact H.
Qed.

Lemma Qle_bool_trans (a b c : Q) :
  Qle_bool a b = true -> Qle_bool b c = true -> Qle_bool a c = true.
Proof. rewrite !Qle_bool_iff. apply Qle_trans. Qed.

(** [sort_values] returns its column in non-decreasing order. *)
Lemma sort_values_sorted (xs : list Q) :
  StronglySorted Qle (Pd.sort_values xs).
Proof.
  assert (H := sort_sorted Qle_bool Qle_bool_total Qle_bool_trans xs).
  unfold Pd.sort_values.
  induction H as [|a l Hs IH Ha]; constructor; [exact IH|].
  eapply Forall_impl; [|exact Ha]. intros z Hz.
  apply Qle_bool_iff, Hz.
Qed.

Lemma sort_values_nth (xs : list Q) (i j : nat) :
  (i <= j)%nat -> (j < List.length (Pd.sort_values xs))%nat ->
  nth i (Pd.sort_values xs) 0 <= nth j (Pd.sort_values xs) 0.
Proof.
  intros Hij Hj. apply Qle_bool_iff.
  apply (sorted_nth Qle_bool 0 (Pd.sort_values xs)); try assumption.
  - intros a. apply Qle_bool_iff, Qle_refl.
  - apply sort_sorted; [apply Qle_bool_total | apply Qle_bool_trans].
Qed.

Lemma sort_desc_sorted (l : list (string * Q)) :
  StronglySorted (fun a b => snd b <= snd a) (sort_desc l).
Proof.
  assert (H := sort_sorted
                 (fun a b : string * Q => Qle_bool (snd b) (snd a))
                 (fun a b => Qle_bool_total (snd b) (snd a))
                 (fun a b c H1 H2 =>
                    Qle_bool_trans (snd c) (snd b) (snd a) H2 H1) l).
  unfold sort_desc.
  induction H as [|a l' Hs IH Ha]; constructor; [exact IH|].
  eapply Forall_impl; [|exact Ha]. intros z Hz.
  apply Qle_bool_iff, Hz.
Qed.

End SortFacts.

(* ================================================================== *)
(** * Quantiles *)

Module QuantileFacts.

(** The virtual index of a quantile and its two parts. *)
Lemma position (q : Q) (m : nat) :
  0 <= q -> q <= 1 ->
  let pos := q * Pd.of_nat m in
  (0 <= Qfloor pos)%Z /\
  (Z.to_nat (Qfloor pos) <= m)%nat /\
  0 <= pos - inject_Z (Qfloor pos) /\
  pos - inject_Z (Qfloor pos) < 1.
Proof.
  intros H0 H1 pos.
  assert (Hm : 0 <= Pd.of_nat m) by apply SignFacts.of_nat_nonneg.
  assert (Hpos0 : 0 <= pos) by (unfold pos; nra).
  assert (Hposm : pos <= Pd.of_nat m) by (unfold pos; nra).
  assert (Hf0 : (0 <= Qfloor pos)%Z).
  { change 0%Z with (Qfloor 0). apply Qfloor_resp_le, Hpos0. }
  assert (Hfm : (Qfloor pos <= Z.of_nat m)%Z).
  { rewrite <- (Qfloor_Z (Z.of_nat m)). apply Qfloor_resp_le, Hposm. }
  split; [exact Hf0|]. split; [lia|].
  assert (Hle := Qfloor_le pos).
  assert (Hlt := Qlt_floor pos).
  rewrite inject_Z_plus in Hlt. change (inject_Z 1) with 1 in Hlt.
  split; lra.
Qed.

Lemma floor_index (x : Q) :
  (0 <= Qfloor x)%Z -> Pd.of_nat (Z.to_nat (Qfloor x)) = inject_Z (Qfloor x).
Proof. intros H. unfold Pd.of_nat. rewrite Z2Nat.id by exact H. reflexivity. Qed.

(** A point between two ordered values, at a share [g] of the way. *)
Lemma lerp_bounds (a b g : Q) :
  a <= b -> 0 <= g -> g <= 1 ->
  a <= a + (b - a) * g /\ a + (b - a) * g <= b.
Proof. intros Hab H0 H1. split; nra. Qed.

(** The value [quantile] computes on a column that is not empty. *)
Lemma quantile_eq (q : Q) (xs : list Q) :
  xs <> [] ->
  let s := Pd.sort_values xs in
  let pos := q * Pd.of_nat (List.length s - 1) in
  let i := Z.to_nat (Qfloor pos) in
  Pd.quantile q xs
  = Some (nth i s 0
          + (nth (Nat.min (i + 1) (List.length s - 1)) s 0 - nth i s 0)
            * (pos - inject_Z (Qfloor pos))).
Proof.
  intros Hne. apply DeviceFacts.sort_values_nonempty in Hne.
  unfold Pd.quantile. destruct (Pd.sort_values xs); [congruence|].
  reflexivity.
Qed.

Lemma sorted_length (xs : list Q) :
  List.length (Pd.sort_values xs) = List.length xs.
Proof. apply PdFacts.sort_length. Qed.

Lemma length_pos {A : Type} (xs : list A) :
  xs <> [] -> (0 < List.length xs)%nat.
Proof. destruct xs; [congruence | simpl; lia]. Qed.

(** A quantile lies between the sorted values around its virtual index. *)
Lemma quantile_between (q : Q) (xs : list Q) :
  xs <> [] -> 0 <= q -> q <= 1 ->
  let s := Pd.sort_values xs in
  let n := List.length s in
  let i := Z.to_nat (Qfloor (q * Pd.of_nat (n - 1))) in
  exists v,
    Pd.quantile q xs = Some v /\
    (i <= n - 1)%nat /\
    nth i s 0 <= v /\
    v <= nth (Nat.min (i + 1) (n - 1)) s 0.
Proof.
  intros Hne H0 H1 s n i.
  assert (Hn : (0 < n)%nat).
  { unfold n, s. rewrite sorted_length. apply length_pos, Hne. }
  destruct (position q (n - 1) H0 H1) as [Hf0 [Hi [Hg0 Hg1]]].
  fold i in Hi.
  eexists. split; [apply quantile_eq, Hne|]. split; [exact Hi|].
  apply lerp_bounds.
  - apply SortFacts.sort_values_nth; fold s; fold n; lia.
  - exact Hg0.
  - apply Qlt_le_weak, Hg1.
Qed.

(** Every value of the column lies between the ends of the sorted one. *)
Lemma sorted_ends (xs : list Q) (x : Q) :
  In x xs ->
  let s := Pd.sort_values xs in
  nth 0 s 0 <= x /\ x <= nth (List.length s - 1) s 0.
Proof.
  intros Hin s.
  assert (Hs : In x s) by (apply PdFacts.sort_in, Hin).
  destruct (In_nth s x 0 Hs) as [k [Hk <-]].
  split; apply SortFacts.sort_values_nth; fold s; lia.
Qed.

(** A quantile lies between the smallest and the largest value. *)
Lemma quantile_in_range (q : Q) (xs : list Q) (v lo hi : Q) :
  0 <= q -> q <= 1 ->
  (forall x, In x xs -> lo <= x /\ x <= hi) ->
  Pd.quantile q xs = Some v ->
  lo <= v /\ v <= hi.
Proof.
  intros H0 H1 Hrange E.
  assert (Hne : xs <> []).
  { intros ->. discriminate E. }
  destruct (quantile_between q xs Hne H0 H1) as [v' [E' [Hi [Hlo Hhi]]]].
  rewrite E in E'. injection E' as <-.
  set (s := Pd.sort_values xs) in *.
  set (n := List.length s) in *.
  assert (Hn : (0 < n)%nat).
  { unfold n, s. rewrite sorted_length. apply length_pos, Hne. }
  assert (Hin : forall k, (k < n)%nat -> In (nth k s 0) xs).
  { intros k Hk. apply (PdFacts.sort_in Qle_bool). apply nth_In, Hk. }
  split.
  - eapply Qle_trans; [|exact Hlo]. apply Hrange, Hin. lia.
  - eapply Qle_trans; [exact Hhi|]. apply Hrange, Hin. lia.
Qed.

(** Quantiles grow with their level. *)
Lemma quantile_mono (q q' : Q) (xs : list Q) (v v' : Q) :
  0 <= q -> q <= q' -> q' <= 1 ->
  Pd.quantile q xs = Some v ->
  Pd.quantile q' xs = Some v' ->
  v <= v'.
Proof.
  intros H0 Hqq H1 E E'.
  assert (Hne : xs <> []).
  { intros ->. discriminate E. }
  assert (Hq1 : q <= 1) by lra.
  assert (Hq0 : 0 <= q') by lra.
  assert (Ev := quantile_eq q xs Hne).
  assert (Ev' := quantile_eq q' xs Hne).
  cbv zeta in Ev, Ev'. rewrite E in Ev. rewrite E' in Ev'.
  set (s := Pd.sort_values xs) in *.
  set (n := List.length s) in *.
  assert (Hn : (0 < n)%nat).
  { unfold n, s. rewrite sorted_length. apply length_pos, Hne. }
  destruct (position q (n - 1) H0 Hq1) as [Hf0 [Hi [Hg0 Hg1]]].
  destruct (position q' (n - 1) Hq0 H1) as [Hf0' [Hi' [Hg0' Hg1']]].
  set (pos := q * Pd.of_nat (n - 1)) in *.
  set (pos' := q' * Pd.of_nat (n - 1)) in *.
  assert (Hpp : pos <= pos').
  { unfold pos, pos'.
    assert (0 <= Pd.of_nat (n - 1)) by apply SignFacts.of_nat_nonneg. nra. }
  assert (Hff : (Qfloor pos <= Qfloor pos')%Z)
    by (apply Qfloor_resp_le, Hpp).
  set (i := Z.to_nat (Qfloor pos)) in *.
  set (i' := Z.to_nat (Qfloor pos')) in *.
  assert (Hii : (i <= i')%nat) by (unfold i, i'; lia).
  assert (Hab : nth i s 0 <= nth (Nat.min (i + 1) (n - 1)) s 0)
    by (apply SortFacts.sort_values_nth; fold s; fold n; lia).
  assert (Hab' : nth i' s 0 <= nth (Nat.min (i' + 1) (n - 1)) s 0)
    by (apply SortFacts.sort_values_nth; fold s; fold n; lia).
  assert (Hv : v = nth i s 0
                   + (nth (Nat.min (i + 1) (n - 1)) s 0 - nth i s 0)
                     * (pos - inject_Z (Qfloor pos))) by congruence.
  assert (Hv' : v' = nth i' s 0
                     + (nth (Nat.min (i' + 1) (n - 1)) s 0 - nth i' s 0)
                       * (pos' - inject_Z (Qfloor pos'))) by congruence.
  rewrite Hv, Hv'. clear Ev Ev' Hv Hv' E E'.
  destruct (Nat.eq_dec i i') as [Heq|Hneq].
  - assert (Hfeq : Qfloor pos = Qfloor pos') by (unfold i, i' in Heq; lia).
    rewrite <- Heq, <- Hfeq.
    set (a := nth i s 0) in *.
    set (b := nth (Nat.min (i + 1) (n - 1)) s 0) in *.
    assert (Hg : pos - inject_Z (Qfloor pos)
                 <= pos' - inject_Z (Qfloor pos)) by lra.
    nra.
  - destruct (lerp_bounds _ _ _ Hab Hg0 (Qlt_le_weak _ _ Hg1)) as [_ Hv].
    destruct (lerp_bounds _ _ _ Hab' Hg0' (Qlt_le_weak _ _ Hg1'))
      as [Hv' _].
    eapply Qle_trans; [exact Hv|]. eapply Qle_trans; [|exact Hv'].
    apply SortFacts.sort_values_nth; fold s; fold n; lia.
Qed.

End QuantileFacts.

(* ================================================================== *)
(** * What the fence always keeps *)

Module FenceFacts.

(** Some value of a non-empty column lies within its own fence: the sorted
    value at the floor of the virtual index of the third quartile. *)
Lemma kept_value (xs : list Q) :
  xs <> [] ->
  exists x q1 q3,
    In x xs /\
    Pd.quantile (1 # 4) xs = Some q1 /\
    Pd.quantile (3 # 4) xs = Some q3 /\
    q1 - (3 # 2) * (q3 - q1) <= x /\
    x <= q3 + (3 # 2) * (q3 - q1).
Proof.
  intros Hne.
  assert (E1 := QuantileFacts.quantile_eq (1 # 4) xs Hne).
  assert (E3 := QuantileFacts.quantile_eq (3 # 4) xs Hne).
  cbv zeta in E1, E3.
  set (s := Pd.sort_values xs) in *.
  set (n := List.length s) in *.
  assert (Hn : (0 < n)%nat).
  { unfold n, s. rewrite QuantileFacts.sorted_length.
    apply QuantileFacts.length_pos, Hne. }
  destruct (QuantileFacts.position (1 # 4) (n - 1))
    as [Hf1 [Hi1 [Hg1 Hg1']]]; [lra | lra |].
  destruct (QuantileFacts.position (3 # 4) (n - 1))
    as [Hf3 [Hi3 [Hg3 Hg3']]]; [lra | lra |].
  set (pos1 := (1 # 4) * Pd.of_nat (n - 1)) in *.
  set (pos3 := (3 # 4) * Pd.of_nat (n - 1)) in *.
  assert (Hp0 : 0 <= pos1).
  { unfold pos1.
    assert (0 <= Pd.of_nat (n - 1)) by apply SignFacts.of_nat_nonneg. lra. }
  assert (Hp3 : pos3 == 3 * pos1) by (unfold pos1, pos3; ring).
  assert (Hff : (Qfloor pos1 <= Qfloor pos3)%Z)
    by (apply Qfloor_resp_le; lra).
  set (i1 := Z.to_nat (Qfloor pos1)) in *.
  set (i3 := Z.to_nat (Qfloor pos3)) in *.
  assert (Ha1 : nth i1 s 0 <= nth (Nat.min (i1 + 1) (n - 1)) s 0)
    by (apply SortFacts.sort_values_nth; fold s; fold n; lia).
  assert (Ha3 : nth i3 s 0 <= nth (Nat.min (i3 + 1) (n - 1)) s 0)
    by (apply SortFacts.sort_values_nth; fold s; fold n; lia).
  set (g1 := pos1 - inject_Z (Qfloor pos1)) in *.
  set (g3 := pos3 - inject_Z (Qfloor pos3)) in *.
  destruct (QuantileFacts.lerp_bounds _ _ _ Ha1 Hg1 (Qlt_le_weak _ _ Hg1'))
    as [Hv1lo Hv1hi].
  destruct (QuantileFacts.lerp_bounds _ _ _ Ha3 Hg3 (Qlt_le_weak _ _ Hg3'))
    as [Hv3lo Hv3hi].
  eexists (nth i3 s 0), _, _.
  split.
  { apply (PdFacts.sort_in Qle_bool). change (In (nth i3 s 0) s).
    apply nth_In. fold n. lia. }
  split; [exact E1|]. split; [exact E3|].
  set (a1 := nth i1 s 0) in *.
  set (b1 := nth (Nat.min (i1 + 1) (n - 1)) s 0) in *.
  set (a3 := nth i3 s 0) in *.
  set (b3 := nth (Nat.min (i3 + 1) (n - 1)) s 0) in *.
  assert (Hii : (i1 <= i3)%nat) by (unfold i1, i3; lia).
  destruct (Nat.eq_dec i1 i3) as [Heq|Hneq].
  - (* both quartiles sit between the first two sorted values *)
    assert (Hfeq : Qfloor pos1 = Qfloor pos3)
      by (unfold i1, i3 in Heq; lia).
    assert (Hle1 := Qfloor_le pos1).
    assert (Hlt3 := Qlt_floor pos3).
    rewrite inject_Z_plus in Hlt3. change (inject_Z 1) with 1 in Hlt3.
    rewrite <- Hfeq in Hlt3.
    assert (Hz : Qfloor pos1 = 0%Z).
    { assert (H : inject_Z (Qfloor pos1) < inject_Z 1)
        by (change (inject_Z 1) with 1; lra).
      rewrite <- Zlt_Qlt in H. lia. }
    assert (Eg1 : g1 == pos1).
    { unfold g1. rewrite Hz. change (inject_Z 0) with 0. ring. }
    assert (Eg3 : g3 == 3 * pos1).
    { unfold g3. rewrite <- Hfeq, Hz. change (inject_Z 0) with 0.
      rewrite Hp3. ring. }
    assert (Eab : a3 = a1 /\ b3 = b1).
    { unfold a1, a3, b1, b3. rewrite Heq. auto. }
    destruct Eab as [-> ->].
    assert (Hd : 0 <= (b1 - a1) * pos1) by nra.
    rewrite Eg1, Eg3. split; nra.
  - (* the first quartile is below the value the third starts from *)
    assert (Hb1 : b1 <= a3).
    { unfold b1, a3.
      apply SortFacts.sort_values_nth; fold s; fold n; lia. }
    split; lra.
Qed.

(** The trim of a group that is not empty is not empty. *)
Lemma iqr_filter_nonempty (group : list Sess.row) :
  group <> [] -> Device._iqr_filter group <> [].
Proof.
  intros Hne.
  assert (Hm : Device.minutes group <> []).
  { intros E. apply map_eq_nil in E. contradiction. }
  destruct (kept_value _ Hm) as [x [q1 [q3 [Hin [E1 [E3 [Hlo Hhi]]]]]]].
  apply in_map_iff in Hin. destruct Hin as [r [Hr Hin]].
  assert (Hk : In r (Device._iqr_filter group)).
  { unfold Device._iqr_filter. apply filter_In. split; [exact Hin|].
    unfold Device.fence. rewrite E1, E3, Hr.
    apply DeviceFacts.within_spec. auto. }
  intros E. rewrite E in Hk. exact Hk.
Qed.

End FenceFacts.

(** X1.  For a group of sessions that is not empty, the two quartiles
    exist, the first is at most the third, and the fence computed by
    [_iqr_filter] encloses both: lower fence, first quartile, third
    quartile and upper fence come in this order.  Both quartiles lie
    between any two bounds of the durations of the group. *)
Theorem fence_encloses_quartiles :
  forall (group : list Sess.row),
    group <> [] ->
    exists q1 q3,
      Pd.quantile (1 # 4) (Device.minutes group) = Some q1 /\
      Pd.quantile (3 # 4) (Device.minutes group) = Some q3 /\
      Device.fence group
      = Some (q1 - (3 # 2) * (q3 - q1), q3 + (3 # 2) * (q3 - q1)) /\
      q1 - (3 # 2) * (q3 - q1) <= q1 /\
      q1 <= q3 /\
      q3 <= q3 + (3 # 2) * (q3 - q1) /\
      (forall lo hi,
          (forall r, In r group ->
                     lo <= Sess.watch_duration_minutes r /\
                     Sess.watch_duration_minutes r <= hi) ->
          lo <= q1 /\ q3 <= hi).
Proof.
  intros group Hne.
  assert (Hm : Device.minutes group <> []).
  { intros E. apply map_eq_nil in E. contradiction. }
  destruct (DeviceFacts.quantile_defined (1 # 4) _ Hm) as [q1 E1].
  destruct (DeviceFacts.quantile_defined (3 # 4) _ Hm) as [q3 E3].
  assert (Hq : q1 <= q3).
  { apply (QuantileFacts.quantile_mono (1 # 4) (3 # 4)
                                       (Device.minutes group));
      try assumption; lra. }
  exists q1, q3. split; [exact E1|]. split; [exact E3|].
  split; [unfold Device.fence; rewrite E1, E3; reflexivity|].
  split; [lra|]. split; [exact Hq|]. split; [lra|].
  intros lo hi Hrange.
  assert (Hr : forall x, In x (Device.minutes group) -> lo <= x /\ x <= hi).
  { intros x Hx. apply in_map_iff in Hx. destruct Hx as [r [<- Hr]].
    apply Hrange, Hr. }
  split.
  - apply (QuantileFacts.quantile_in_range
             (1 # 4) (Device.minutes group) q1 lo hi); try assumption; lra.
  - apply (QuantileFacts.quantile_in_range
             (3 # 4) (Device.minutes group) q3 lo hi); try assumption; lra.
Qed.


(** X3.  Every row of the quartile table has its three quantiles, in the
    order Q1, Median, Q3, and all three lie between any two bounds of the
    durations of the device. *)
Theorem qstats_rows_are_ordered :
  forall (sess_f : list Sess.row) (d : string) (qs : Charts.quartiles),
    In (d, qs) (Charts.qstats sess_f) ->
    exists q1 q2 q3,
      Charts.q_first qs = Some q1 /\
      Charts.q_median qs = Some q2 /\
      Charts.q_third qs = Some q3 /\
      q1 <= q2 /\ q2 <= q3 /\
      (forall lo hi,
          (forall r, In r sess_f -> Sess.device_type r = Some d ->
                     lo <= Sess.watch_duration_minutes r /\
                     Sess.watch_duration_minutes r <= hi) ->
          lo <= q1 /\ q3 <= hi).
Proof.
  intros sess_f d qs Hin. unfold Charts.qstats in Hin.
  apply PdFacts.groupby_agg_in in Hin. destruct Hin as [Hd ->].
  set (g := Pd.group Sess.device_type d sess_f).
  assert (Hne : Device.minutes g <> []).
  { apply CtrFacts.group_nonempty in Hd. fold g in Hd. intros E.
    apply map_eq_nil in E. rewrite E in Hd. simpl in Hd. lia. }
  destruct (DeviceFacts.quantile_defined (1 # 4) _ Hne) as [q1 E1].
  destruct (DeviceFacts.quantile_defined (1 # 2) _ Hne) as [q2 E2].
  destruct (DeviceFacts.quantile_defined (3 # 4) _ Hne) as [q3 E3].
  exists q1, q2, q3. simpl.
  split; [exact E1|]. split; [exact E2|]. split; [exact E3|].
  split; [|split].
  - apply (QuantileFacts.quantile_mono (1 # 4) (1 # 2) (Device.minutes g));
      try assumption; lra.
  - apply (QuantileFacts.quantile_mono (1 # 2) (3 # 4) (Device.minutes g));
      try assumption; lra.
  - intros lo hi Hrange.
    assert (Hr : forall x, In x (Device.minutes g) -> lo <= x /\ x <= hi).
    { intros x Hx. apply in_map_iff in Hx. destruct Hx as [r [<- Hr]].
      apply PdFacts.group_in in Hr. destruct Hr as [Hr Hk].
      apply Hrange; assumption. }
    split.
    + apply (QuantileFacts.quantile_in_range
               (1 # 4) (Device.minutes g) q1 lo hi); try assumption; lra.
    + apply (QuantileFacts.quantile_in_range
               (3 # 4) (Device.minutes g) q3 lo hi); try assumption; lra.
Qed.

(* ================================================================== *)
(** * The order of the bars *)

Module OrderFacts.

Lemma sort_desc_labels (l : list (string * Q)) :
  Permutation (map fst (sort_desc l)) (map fst l).
Proof. apply Permutation_map, PdFacts.sort_perm. Qed.

Lemma agg_labels {R B : Type} (key : R -> option string)
      (f : list R -> B) (rows : list R) :
  map fst (Pd.groupby_agg key f rows) = Pd.group_keys (map key rows).
Proof.
  unfold Pd.groupby_agg. rewrite map_map. simpl.
  apply PdFacts.groupby_keys.
Qed.

(** A grouped sum sorted by decreasing value: one bar per label, the
    labels being the keys present, the values in non-increasing order. *)
Lemma sorted_bars {R : Type} (key : R -> option string)
      (f : list R -> Q) (rows : list R) :
  let bars := sort_desc (Pd.groupby_agg key f rows) in
  StronglySorted (fun a b => snd b <= snd a) bars /\
  NoDup (map fst bars) /\
  (forall k, In k (map fst bars) <-> In (Some k) (map key rows)).
Proof.
  intros bars. split; [apply SortFacts.sort_desc_sorted|]. split.
  - eapply Permutation_NoDup;
      [apply Permutation_sym, sort_desc_labels|].
    rewrite agg_labels. apply PdFacts.group_keys_nodup.
  - intros k. unfold bars. split; intros H.
    + apply (Permutation_in _ (sort_desc_labels _)) in H.
      rewrite agg_labels in H. apply PdFacts.group_keys_in, H.
    + apply (Permutation_in _ (Permutation_sym (sort_desc_labels _))).
      rewrite agg_labels. apply PdFacts.group_keys_in, H.
Qed.

End OrderFacts.

(** X4.  The engagement charts by device and by genre show one bar per
    device type (per primary genre) present, none twice, by non-increasing
    total of minutes. *)
Theorem engagement_bars_are_ranked :
  forall (P : Type) (watch : list (Watch.t P)) (movies : list Movies.row),
    (StronglySorted (fun a b => snd b <= snd a)
                    (MaxChartier.device_eng watch) /\
     NoDup (map fst (MaxChartier.device_eng watch)) /\
     (forall d, In d (map fst (MaxChartier.device_eng watch)) <->
                In (Some d) (map Watch.device_type watch))) /\
    (StronglySorted (fun a b => snd b <= snd a)
                    (MaxChartier.genre_eng watch movies) /\
     NoDup (map fst (MaxChartier.genre_eng watch movies)) /\
     (forall g, In g (map fst (MaxChartier.genre_eng watch movies)) <->
                In (Some g)
                   (map genre_of (MaxChartier.watch_genre watch movies)))).
Proof.
  intros P watch movies. split.
  - apply (OrderFacts.sorted_bars Watch.device_type).
  - apply (OrderFacts.sorted_bars genre_of).
Qed.

(* ================================================================== *)
(** * Averages *)

Module MeanFacts.

Lemma mean_inv (xs : list (option Q)) (m : Q) :
  Pd.mean xs = Some m ->
  (0 < Pd.count xs)%nat /\
  m = Pd.sum (Pd.dropna xs) / Pd.of_nat (Pd.count xs).
Proof.
  unfold Pd.mean. intros E. apply RateFacts.div_inv in E.
  destruct E as [Hnz ->]. split; [|reflexivity].
  destruct (Pd.count xs); [exfalso; apply Hnz; reflexivity | lia].
Qed.

Lemma mean_defined (xs : list (option Q)) :
  (0 < Pd.count xs)%nat ->
  Pd.mean xs = Some (Pd.sum (Pd.dropna xs) / Pd.of_nat (Pd.count xs)).
Proof.
  intros H. unfold Pd.mean. apply RateFacts.div_some.
  intros E. apply RateFacts.of_nat_zero in E. lia.
Qed.

Lemma count_pos {A : Type} (xs : list (option A)) (x : A) :
  In (Some x) xs -> (0 < Pd.count xs)%nat.
Proof.
  intros H. apply PdFacts.dropna_in in H. unfold Pd.count.
  destruct (Pd.dropna xs); [destruct H | simpl; lia].
Qed.

(** A grouped average over rows that all carry a value: every group has
    its average. *)
Lemma grouped_mean_some {R : Type} (key : R -> option string)
      (val : R -> option Q) (rows : list R) :
  (forall r, In r rows -> exists x, val r = Some x) ->
  forall k v,
    In (k, v) (Pd.groupby_agg key (fun g => Pd.mean (map val g)) rows) ->
    exists m, v = Some m.
Proof.
  intros Hval k v Hin. apply PdFacts.groupby_agg_in in Hin.
  destruct Hin as [Hk ->].
  set (g := Pd.group key k rows).
  assert (Hg : forall r, In r g -> In r rows).
  { intros r Hr. apply PdFacts.group_in in Hr. tauto. }
  assert (Hpos : (0 < Pd.count (map val g))%nat).
  { apply CtrFacts.group_nonempty in Hk. fold g in Hk.
    destruct g as [|r g'] eqn:Eg; [simpl in Hk; lia|].
    destruct (Hval r (Hg r (or_introl eq_refl))) as [x Ex].
    apply (count_pos _ x). simpl. left. exact Ex. }
  eexists. apply mean_defined, Hpos.
Qed.

Lemma merge_inner_in {L R : Type} (lk : L -> option string)
      (rk : R -> option string) (left : list L) (right : list R)
      (l : L) (r : R) :
  In (l, r) (Pd.merge_inner lk rk left right) <->
  In l left /\ In r right /\ Pd.key_eqb (lk l) (rk r) = true.
Proof.
  unfold Pd.merge_inner, Pd.matches. rewrite in_flat_map. split.
  - intros [l' [Hl Hin]]. apply in_map_iff in Hin.
    destruct Hin as [r' [E Hr]]. injection E as <- <-.
    apply filter_In in Hr. tauto.
  - intros [Hl [Hr Hk]]. exists l. split; [exact Hl|].
    apply in_map_iff. exists r. split; [reflexivity|].
    apply filter_In. auto.
Qed.

End MeanFacts.

(** X5.  Every bar of the three satisfaction charts (by device, by plan,
    by genre) is a number, never a missing value; and a label has a bar
    exactly when a rated session carries it: a device of a rated session, a
    plan of a user joined to a rated session, a genre of a rated row of the
    merged frame. *)
Theorem satisfaction_bars_are_numbers :
  forall (P : Type) (users : list Users.t) (watch : list (Watch.t P))
         (movies : list Movies.row),
    let rated := MaxChartier.watch_rated watch in
    let merged := MaxChartier.watch_genre watch movies in
    ((forall d v, In (d, v) (MaxChartier.device_sat rated) ->
                  exists m, v = Some m) /\
     (forall d, In d (map fst (MaxChartier.device_sat rated)) <->
                exists w, In w watch /\ Watch.user_rating w <> None /\
                          Watch.device_type w = Some d)) /\
    ((forall p v, In (p, v) (MaxChartier.plan_sat users rated) ->
                  exists m, v = Some m) /\
     (forall p, In p (map fst (MaxChartier.plan_sat users rated)) <->
                exists u w, In u users /\ In w watch /\
                            Watch.user_rating w <> None /\
                            Pd.key_eqb (Users.user_id u) (Watch.user_id w)
                            = true /\
                            Users.subscription_plan u = Some p)) /\
    ((forall g v, In (g, v) (MaxChartier.genre_sat merged) ->
                  exists m, v = Some m) /\
     (forall g, In g (map fst (MaxChartier.genre_sat merged)) <->
                exists wm, In wm merged /\
                           Watch.user_rating (fst wm) <> None /\
                           genre_of wm = Some g)).
Proof.
  intros P users watch movies rated merged.
  assert (Hrated : forall w, In w rated <->
                             In w watch /\ Watch.user_rating w <> None).
  { intros w. unfold rated, MaxChartier.watch_rated. rewrite filter_In.
    destruct (Watch.user_rating w); simpl; split; intros [H1 H2];
      split; congruence. }
  assert (Hsome : forall w, In w rated ->
                            exists x, Watch.user_rating w = Some x).
  { intros w Hw. apply Hrated in Hw. destruct Hw as [_ Hn].
    destruct (Watch.user_rating w) as [x|]; [eauto | congruence]. }
  split; [|split]; split.
  - apply (MeanFacts.grouped_mean_some Watch.device_type Watch.user_rating).
    exact Hsome.
  - intros d. unfold MaxChartier.device_sat.
    rewrite OrderFacts.agg_labels, PdFacts.group_keys_in, in_map_iff.
    split.
    + intros [w [E Hw]]. apply Hrated in Hw. exists w. tauto.
    + intros [w [Hw [Hn E]]]. exists w. split; [exact E|].
      apply Hrated. tauto.
  - apply (MeanFacts.grouped_mean_some
             (fun ur : Users.t * Watch.t P =>
                Users.subscription_plan (fst ur))
             (fun ur => Watch.user_rating (snd ur))).
    intros [u w] Hin. apply MeanFacts.merge_inner_in in Hin.
    simpl. apply Hsome. tauto.
  - intros p. unfold MaxChartier.plan_sat.
    rewrite OrderFacts.agg_labels, PdFacts.group_keys_in, in_map_iff.
    split.
    + intros [[u w] [E Hin]]. apply MeanFacts.merge_inner_in in Hin.
      destruct Hin as [Hu [Hw Hk]]. apply Hrated in Hw.
      exists u, w. simpl in E. tauto.
    + intros [u [w [Hu [Hw [Hn [Hk E]]]]]]. exists (u, w).
      split; [exact E|]. apply MeanFacts.merge_inner_in.
      split; [exact Hu|]. split; [apply Hrated; tauto | exact Hk].
  - apply (MeanFacts.grouped_mean_some
             genre_of
             (fun wm : Watch.t P * option Movies.row =>
                Watch.user_rating (fst wm))).
    intros wm Hin. apply filter_In in Hin. destruct Hin as [_ Hn].
    simpl in Hn.
    match type of Hn with
    | Pd.notna ?t = true =>
        destruct t as [x|] eqn:E; [exists x; exact E | discriminate Hn]
    end.
  - intros g. unfold MaxChartier.genre_sat.
    rewrite OrderFacts.agg_labels, PdFacts.group_keys_in, in_map_iff.
    split.
    + intros [wm [E Hin]]. apply filter_In in Hin.
      destruct Hin as [Hin Hn]. exists wm.
      split; [exact Hin|]. split; [|exact E].
      simpl in Hn.
      match type of Hn with
      | Pd.notna ?t = true =>
          destruct t as [x|] eqn:Er; [|discriminate Hn]
      end.
      intros Habs. pose proof (eq_trans (eq_sym Er) Habs) as C.
      discriminate C.
    + intros [wm [Hin [Hn E]]]. exists wm. split; [exact E|].
      apply filter_In. split; [exact Hin|]. simpl.
      match goal with
      | |- Pd.notna ?t = true =>
          destruct t eqn:Er; [reflexivity | exfalso; apply Hn; exact Er]
      end.
Qed.

(* ================================================================== *)
(** * Looking a label up in a grouped aggregate *)

Module LabelFacts.

Lemma at_label_in {V : Type} (l : list (string * V)) (k : string) (v : V) :
  NoDup (map fst l) ->
  (PdExt.at_label l k = Some v <-> In (k, v) l).
Proof.
  induction l as [|[k' v'] l IH]; simpl; intros Hnd.
  - split; [discriminate | contradiction].
  - inversion Hnd as [|? ? Hk' Hl]; subst.
    destruct (String.eqb_spec k k') as [->|Hne].
    + split.
      * intros [= ->]. left. reflexivity.
      * intros [[= ->]|Hin]; [reflexivity|].
        exfalso. apply Hk'. apply (in_map fst) in Hin. exact Hin.
    + rewrite (IH Hl). split; [auto|].
      intros [[= <- _]|Hin]; [congruence | exact Hin].
Qed.

Lemma at_label_none {V : Type} (l : list (string * V)) (k : string) :
  ~ In k (map fst l) -> PdExt.at_label l k = None.
Proof.
  induction l as [|[k' v'] l IH]; simpl; intros H; [reflexivity|].
  destruct (String.eqb_spec k k') as [->|Hne].
  - exfalso. apply H. left. reflexivity.
  - apply IH. intros Hin. apply H. right. exact Hin.
Qed.

Lemma dropna_values_in {K V : Type} (rows : list (K * option V))
      (k : K) (v : V) :
  In (k, v) (PdExt.dropna_values rows) <-> In (k, Some v) rows.
Proof.
  induction rows as [|[k' [v'|]] rows IH]; simpl.
  - tauto.
  - rewrite IH. split; intros [E|H]; auto; left; congruence.
  - rewrite IH. split; [auto | intros [E|H]; [discriminate | exact H]].
Qed.

Lemma dropna_values_labels {K V : Type} (rows : list (K * option V)) :
  NoDup (map fst rows) -> NoDup (map fst (PdExt.dropna_values rows)).
Proof.
  induction rows as [|[k [v|]] rows IH]; simpl; intros Hnd.
  - constructor.
  - inversion Hnd as [|? ? Hk Hl]; subst. constructor; [|auto].
    intros Hin. apply Hk. apply in_map_iff in Hin.
    destruct Hin as [[k' v'] [E Hin]]. simpl in E. subst k'.
    apply dropna_values_in in Hin. apply (in_map fst) in Hin. exact Hin.
  - inversion Hnd; subst. auto.
Qed.

Lemma count_pos_inv {A : Type} (xs : list (option A)) :
  (0 < Pd.count xs)%nat -> exists x, In (Some x) xs.
Proof.
  unfold Pd.count. intros H.
  destruct (Pd.dropna xs) as [|x l] eqn:E; [simpl in H; lia|].
  exists x. apply PdFacts.dropna_in. rewrite E. left. reflexivity.
Qed.

End LabelFacts.

(** X6.  The scatter of monthly spend against engagement has one point per
    row of the users table, in order.  The average watch duration of a user
    whose identifier no watch row carries is missing (the user is not
    filled with zero here); that of a user with watch rows is the sum of
    their durations divided by their number. *)
Theorem scatter_has_missing_average_without_sessions :
  forall (P : Type) (users : list Users.t) (watch : list (Watch.t P)),
    map fst (Charts.engagement users watch) = users /\
    (forall u v,
        In (u, v) (Charts.engagement users watch) ->
        (forall k, Users.user_id u = Some k ->
                   forall w, In w watch -> Watch.user_id w <> Some k) ->
        v = None) /\
    (forall u v k,
        In (u, v) (Charts.engagement users watch) ->
        Users.user_id u = Some k ->
        In (Some k) (map Watch.user_id watch) ->
        let g := Pd.group Watch.user_id k watch in
        v = Some (Pd.sum (durations g) / Pd.of_nat (List.length g))).
Proof.
  intros P users watch.
  assert (Hnd : NoDup (map fst (Charts.avg_watch watch))).
  { unfold Charts.avg_watch. rewrite OrderFacts.agg_labels.
    apply PdFacts.group_keys_nodup. }
  split; [|split].
  - unfold Charts.engagement. rewrite map_map. simpl. apply map_id.
  - intros u v Hin Habs. unfold Charts.engagement in Hin.
    apply in_map_iff in Hin. destruct Hin as [u' [E _]].
    injection E as -> <-. unfold PdExt.map_series.
    destruct (Users.user_id u) as [k|]; [|reflexivity].
    rewrite LabelFacts.at_label_none; [reflexivity|].
    unfold Charts.avg_watch. rewrite OrderFacts.agg_labels.
    intros Hk. apply PdFacts.group_keys_in in Hk.
    apply in_map_iff in Hk. destruct Hk as [w [Ew Hw]].
    exact (Habs k eq_refl w Hw Ew).
  - intros u v k Hin Eu Hk g. unfold Charts.engagement in Hin.
    apply in_map_iff in Hin. destruct Hin as [u' [E _]].
    injection E as -> <-. unfold PdExt.map_series. rewrite Eu.
    assert (Hlen : (0 < List.length g)%nat)
      by (apply CtrFacts.group_nonempty, Hk).
    assert (Hat : PdExt.at_label (Charts.avg_watch watch) k
                  = Some (Some (Pd.sum (durations g)
                                / Pd.of_nat (List.length g)))).
    { apply LabelFacts.at_label_in; [exact Hnd|].
      unfold Charts.avg_watch. apply PdFacts.groupby_agg_in.
      split; [exact Hk|]. fold g.
      rewrite JoinFacts.mean_all_present.
      assert (Hl : List.length (durations g) = List.length g)
        by apply length_map.
      rewrite Hl. symmetry. apply RateFacts.div_some. intros E.
      apply RateFacts.of_nat_zero in E. lia. }
    rewrite Hat. reflexivity.
Qed.

(** X7.  The map of average spend lists a country exactly when one of its
    users has a monthly spend, and lists it once: a country whose users
    all lack a spend is dropped, not drawn with a missing value. *)
Theorem geo_country_lists_countries_with_a_spend :
  forall (users : list Users.t),
    NoDup (map fst (Charts.geo_country users)) /\
    (forall c,
        (exists m, In (c, m) (Charts.geo_country users)) <->
        (exists u x, In u users /\ Users.country u = Some c /\
                     Users.monthly_spend u = Some x)).
Proof.
  intros users. unfold Charts.geo_country. split.
  - apply LabelFacts.dropna_values_labels.
    rewrite OrderFacts.agg_labels. apply PdFacts.group_keys_nodup.
  - intros c. split.
    + intros [m Hin]. apply LabelFacts.dropna_values_in in Hin.
      apply PdFacts.groupby_agg_in in Hin. destruct Hin as [_ E].
      symmetry in E. apply MeanFacts.mean_inv in E. destruct E as [Hpos _].
      apply LabelFacts.count_pos_inv in Hpos. destruct Hpos as [x Hx].
      apply in_map_iff in Hx. destruct Hx as [u [Eu Hu]].
      apply PdFacts.group_in in Hu. destruct Hu as [Hu Hc].
      exists u, x. auto.
    + intros [u [x [Hu [Hc Hx]]]].
      eexists. apply LabelFacts.dropna_values_in.
      apply PdFacts.groupby_agg_in. split.
      * rewrite <- Hc. apply in_map, Hu.
      * symmetry. apply MeanFacts.mean_defined.
        apply (MeanFacts.count_pos _ x). rewrite <- Hx.
        apply in_map. apply PdFacts.group_in. auto.
Qed.

(* ================================================================== *)
(** * Spend brackets *)

Module CutFacts.

Lemma Qle_bool_false (a b : Q) : Qle_bool a b = false -> b < a.
Proof.
  intros H. apply Qnot_le_lt. intros Hle.
  apply Qle_bool_iff in Hle. congruence.
Qed.

Ltac compare_with v b :=
  let E := fresh "E" in
  destruct (Qle_bool v b) eqn:E;
  [apply Qle_bool_iff in E | apply Qle_bool_false in E].

End CutFacts.

(** X8.  The spend brackets are the intervals (0, 5], (5, 10], (10, 15]
    and (15, 100]: a spend gets the label of the interval it lies in, and
    gets none when it is missing, zero or less, or above 100. *)
Theorem spend_brackets_are_right_closed :
  forall (v : Q),
    let b := Pd.cut Story.spend_bins Story.spend_labels (Some v) in
    (b = Some "$0-5"%string <-> 0 < v /\ v <= 5) /\
    (b = Some "$5-10"%string <-> 5 < v /\ v <= 10) /\
    (b = Some "$10-15"%string <-> 10 < v /\ v <= 15) /\
    (b = Some "$15+"%string <-> 15 < v /\ v <= 100) /\
    (b = None <-> v <= 0 \/ 100 < v) /\
    Pd.cut Story.spend_bins Story.spend_labels None = @None string.
Proof.
  intros v b. unfold b, Pd.cut, Pd.bin_index, Pd.searchsorted_left,
    Story.spend_bins, Story.spend_labels.
  cbn [andb filter].
  CutFacts.compare_with v 0; CutFacts.compare_with v 5;
    CutFacts.compare_with v 10; CutFacts.compare_with v 15;
    CutFacts.compare_with v 100;
    try (exfalso; lra);
    cbn;
    repeat split;
    try (intros; discriminate);
    try (intros; lra);
    try (intros [H|H]; lra);
    try (intros; exfalso; lra);
    try (left; lra); try (right; lra).
Qed.

(* ================================================================== *)
(** * The headline share of the story dashboard *)

Module ShareFacts.

Lemma pct_none (a b : nat) : Story.pct a b = None <-> b = 0%nat.
Proof.
  unfold Story.pct, Pd.div. split.
  - destruct (Qeq_bool (Pd.of_nat b) 0) eqn:E; [|discriminate].
    intros _. apply Qeq_bool_iff in E. apply RateFacts.of_nat_zero, E.
  - intros ->. reflexivity.
Qed.

Lemma pct_bounds (a b : nat) (r : Q) :
  (a <= b)%nat -> Story.pct a b = Some r -> 0 <= r /\ r <= 100.
Proof.
  intros Hab. unfold Story.pct.
  destruct (Pd.div (Pd.of_nat a) (Pd.of_nat b)) as [q|] eqn:E;
    [|discriminate].
  intros [= <-].
  destruct (RateFacts.div_nat_bounds a b q Hab E). lra.
Qed.

(** When all the totals are equal, no user is above their third quartile. *)
Lemma no_high_engagement (ue : list (Users.t * Q)) (c : Q) :
  (forall x, In x ue -> snd x == c) -> Story.high_engagement ue = [].
Proof.
  intros Hall. unfold Story.high_engagement.
  apply PdFacts.filter_false. intros x Hx. unfold Story.gt_nan.
  destruct (Pd.quantile (3 # 4) (map snd ue)) as [t|] eqn:E;
    [|reflexivity].
  assert (Ht : c <= t /\ t <= c).
  { apply (QuantileFacts.quantile_in_range (3 # 4) (map snd ue) t c c);
      try lra; [|exact E].
    intros y Hy. apply in_map_iff in Hy. destruct Hy as [z [<- Hz]].
    rewrite (Hall z Hz). split; apply Qle_refl. }
  apply negb_false_iff, Qle_bool_iff. rewrite (Hall x Hx). tauto.
Qed.

Lemma engagement_without_sessions {P : Type} (users : list Users.t) :
  forall x, In x (Story.user_engagement users (@nil (Watch.t P))) ->
            snd x == 0.
Proof.
  intros x Hx. unfold Story.user_engagement, Story.avg_watch_per_user in Hx.
  rewrite JoinFacts.merge_totals_map in Hx.
  apply in_map_iff in Hx. destruct Hx as [u [<- _]]. reflexivity.
Qed.

End ShareFacts.

(** X9.  The headline share of the story dashboard: the users above the
    third quartile of total watch time are users of the engagement frame,
    and those of them below the median spend are among them, so the share
    lies between 0 and 100 whenever it is computed.  The division raises
    exactly when no user is above the third quartile, which is the case
    whenever all the users have the same total. *)
Theorem headline_share_is_a_percentage_or_raises :
  forall (ue : list (Users.t * Q)),
    let high := Story.high_engagement ue in
    let low := Story.high_eng_low_spend high in
    let share := Story.pct (List.length low) (List.length high) in
    (forall x, In x low -> In x high) /\
    (forall x, In x high -> In x ue) /\
    (share = None <-> high = []) /\
    (forall r, share = Some r -> 0 <= r /\ r <= 100) /\
    (forall c, (forall x, In x ue -> snd x == c) -> share = None).
Proof.
  intros ue high low share.
  split; [|split; [|split; [|split]]].
  - intros x Hx. unfold low, Story.high_eng_low_spend in Hx.
    apply filter_In in Hx. tauto.
  - intros x Hx. unfold high, Story.high_engagement in Hx.
    apply filter_In in Hx. tauto.
  - unfold share. rewrite ShareFacts.pct_none. apply length_zero_iff_nil.
  - intros r. apply ShareFacts.pct_bounds.
    apply RateFacts.filter_length_le.
  - intros c Hall. unfold share. apply ShareFacts.pct_none.
    unfold high. rewrite (ShareFacts.no_high_engagement ue c Hall).
    reflexivity.
Qed.

(** X10.  A run of the story dashboard raises when the load raises, when
    no user is above the third quartile of total watch time (the division
    of the headline share raises), and when [qcut] raises on the engagement
    levels.  In particular it raises whenever the watch history is empty. *)
Theorem story_main_raises_when :
  forall (parse_float : string -> option (option Q))
         (w : St.world Story.tables),
    (Story.load_data parse_float w = None ->
     Story.main parse_float w = None) /\
    (forall t w1,
        Story.load_data parse_float w = Some (t, w1) ->
        let ue := Story.user_engagement (Story.users t) (Story.watch t) in
        Story.high_engagement ue = [] \/
        Story.retention_df (Story.user_engagement_clean ue) = None ->
        Story.main parse_float w = None) /\
    (forall t w1,
        Story.load_data parse_float w = Some (t, w1) ->
        Story.watch t = [] ->
        Story.main parse_float w = None).
Proof.
  intros parse_float w.
  assert (Hmain : forall t w1,
             Story.load_data parse_float w = Some (t, w1) ->
             let ue := Story.user_engagement (Story.users t)
                                             (Story.watch t) in
             Story.high_engagement ue = [] \/
             Story.retention_df (Story.user_engagement_clean ue) = None ->
             Story.main parse_float w = None).
  { intros t w1 E ue.
    unfold Story.main, St.bind. rewrite E. cbv zeta. fold ue.
    unfold St.lift, St.emit.
    destruct (Story.pct _ _) as [share|] eqn:Ep; [|reflexivity].
    assert (Hhigh : Story.high_engagement ue <> []).
    { intros Eh. rewrite Eh in Ep. discriminate Ep. }
    destruct (Story.retention_df (Story.user_engagement_clean ue))
      as [df|]; cbn; [|reflexivity].
    intros [H|H]; [contradiction | discriminate]. }
  split; [|split].
  - intros E. unfold Story.main, St.bind. rewrite E. reflexivity.
  - exact Hmain.
  - intros t w1 E Hw. apply (Hmain t w1 E). left. rewrite Hw.
    apply (ShareFacts.no_high_engagement _ 0).
    apply ShareFacts.engagement_without_sessions.
Qed.

(* ================================================================== *)
(** * Engagement levels *)

Module QcutFacts.

Lemma floor_of_zero (x : Q) : x == 0 -> Qfloor x = 0%Z.
Proof. intros E. rewrite E. reflexivity. Qed.

(** The quantile at level 0 is the smallest value. *)
Lemma quantile_zero (xs : list Q) (v : Q) :
  Pd.quantile 0 xs = Some v -> v == nth 0 (Pd.sort_values xs) 0.
Proof.
  intros E.
  assert (Hne : xs <> []) by (intros ->; discriminate E).
  assert (Ev := QuantileFacts.quantile_eq 0 xs Hne). cbv zeta in Ev.
  rewrite E in Ev.
  set (s := Pd.sort_values xs) in *.
  set (pos := 0 * Pd.of_nat (List.length s - 1)) in *.
  assert (Hp : pos == 0) by (unfold pos; ring).
  assert (Hf : Qfloor pos = 0%Z) by (apply floor_of_zero, Hp).
  rewrite Hf in Ev. change (Z.to_nat 0) with 0%nat in Ev.
  change (inject_Z 0) with 0 in Ev.
  assert (Hv : v = nth 0 s 0
                   + (nth (Nat.min (0 + 1) (List.length s - 1)) s 0
                      - nth 0 s 0) * (pos - 0)) by congruence.
  rewrite Hv, Hp. ring.
Qed.

(** The quantile at level 1 is the largest value. *)
Lemma quantile_one (xs : list Q) (v : Q) :
  Pd.quantile 1 xs = Some v ->
  v == nth (List.length (Pd.sort_values xs) - 1) (Pd.sort_values xs) 0.
Proof.
  intros E.
  assert (Hne : xs <> []) by (intros ->; discriminate E).
  assert (Ev := QuantileFacts.quantile_eq 1 xs Hne). cbv zeta in Ev.
  rewrite E in Ev.
  set (s := Pd.sort_values xs) in *.
  set (m := (List.length s - 1)%nat) in *.
  set (pos := 1 * Pd.of_nat m) in *.
  assert (Hp : pos == inject_Z (Z.of_nat m)) by (unfold pos, Pd.of_nat; ring).
  assert (Hf : Qfloor pos = Z.of_nat m).
  { rewrite Hp. apply Qfloor_Z. }
  rewrite Hf, Nat2Z.id in Ev.
  assert (Hv : v = nth m s 0
                   + (nth (Nat.min (m + 1) m) s 0 - nth m s 0)
                     * (pos - inject_Z (Z.of_nat m))) by congruence.
  rewrite Hv, Hp. ring.
Qed.

Lemma edges_bound_column (xs : list Q) (e0 e4 x : Q) :
  Pd.quantile 0 xs = Some e0 -> Pd.quantile 1 xs = Some e4 ->
  In x xs -> e0 <= x /\ x <= e4.
Proof.
  intros E0 E4 Hx.
  destruct (QuantileFacts.sorted_ends xs x Hx) as [Hlo Hhi].
  rewrite (quantile_zero xs e0 E0), (quantile_one xs e4 E4). auto.
Qed.

Lemma unique_bins_length (l : list Q) :
  (List.length (Pd.unique_bins l) <= List.length l)%nat.
Proof.
  induction l as [|b l IH]; simpl; [lia|].
  assert (H := RateFacts.filter_length_le
                 (fun c => negb (Qeq_bool b c)) (Pd.unique_bins l)).
  lia.
Qed.

Lemma filter_full {A : Type} (p : A -> bool) (l : list A) :
  List.length (filter p l) = List.length l ->
  forall x, In x l -> p x = true.
Proof.
  induction l as [|y l IH]; simpl; intros H x Hx; [destruct Hx|].
  assert (Hle := RateFacts.filter_length_le p l).
  destruct (p y) eqn:E; simpl in H; [|lia].
  destruct Hx as [<-|Hx]; [exact E | apply IH; [lia | exact Hx]].
Qed.

(** When dropping the repeated edges drops nothing, the edges are
    pairwise different. *)
Lemma unique_bins_full (l : list Q) :
  List.length (Pd.unique_bins l) = List.length l ->
  Pd.unique_bins l = l /\ ForallOrdPairs (fun a b => ~ a == b) l.
Proof.
  induction l as [|b l IH]; simpl; intros H.
  - split; [reflexivity | constructor].
  - assert (H1 := RateFacts.filter_length_le
                    (fun c => negb (Qeq_bool b c)) (Pd.unique_bins l)).
    assert (H2 := unique_bins_length l).
    destruct IH as [IH1 IH2]; [lia|].
    assert (Hall : forall x, In x (Pd.unique_bins l) ->
                             negb (Qeq_bool b x) = true)
      by (apply filter_full; lia).
    rewrite SumFacts.filter_all by exact Hall.
    rewrite IH1 in *. split; [reflexivity|].
    constructor; [|exact IH2].
    apply Forall_forall. intros x Hx E.
    specialize (Hall x Hx). apply negb_true_iff in Hall.
    apply Qeq_bool_iff in E. congruence.
Qed.

Lemma Qeq_bool_lt (a b : Q) : a < b -> Qeq_bool a b = false.
Proof.
  intros H. destruct (Qeq_bool a b) eqn:E; [|reflexivity].
  apply Qeq_bool_iff in E. lra.
Qed.

(** Five strictly increasing edges hold no repeated edge. *)
Lemma increasing_edges_unique (e0 e1 e2 e3 e4 : Q) :
  e0 < e1 -> e1 < e2 -> e2 < e3 -> e3 < e4 ->
  Pd.unique_bins [e0; e1; e2; e3; e4] = [e0; e1; e2; e3; e4].
Proof.
  intros H01 H12 H23 H34.
  assert (H02 : e0 < e2) by lra. assert (H03 : e0 < e3) by lra.
  assert (H04 : e0 < e4) by lra. assert (H13 : e1 < e3) by lra.
  assert (H14 : e1 < e4) by lra. assert (H24 : e2 < e4) by lra.
  cbn [Pd.unique_bins filter].
  rewrite (Qeq_bool_lt _ _ H34). cbn [negb filter].
  rewrite (Qeq_bool_lt _ _ H23), (Qeq_bool_lt _ _ H24). cbn [negb filter].
  rewrite (Qeq_bool_lt _ _ H12), (Qeq_bool_lt _ _ H13),
    (Qeq_bool_lt _ _ H14). cbn [negb filter].
  rewrite (Qeq_bool_lt _ _ H01), (Qeq_bool_lt _ _ H02),
    (Qeq_bool_lt _ _ H03), (Qeq_bool_lt _ _ H04).
  reflexivity.
Qed.

(** Between the first and the last of five increasing edges, every value
    falls in one of the four bins. *)
Lemma level_defined (e0 e1 e2 e3 e4 v : Q) :
  e0 < e1 -> e1 < e2 -> e2 < e3 -> e3 < e4 ->
  e0 <= v -> v <= e4 ->
  match Pd.bin_index true [e0; e1; e2; e3; e4] v with
  | Some i => nth_error Story.level_labels i
  | None => None
  end <> None.
Proof.
  intros H01 H12 H23 H34 Hlo Hhi.
  unfold Pd.bin_index, Pd.searchsorted_left. cbn [hd andb filter].
  destruct (Qeq_bool v e0) eqn:E0.
  - cbn. discriminate.
  - assert (Hne : ~ v == e0).
    { intros E. apply Qeq_bool_iff in E. congruence. }
    CutFacts.compare_with v e0; CutFacts.compare_with v e1;
      CutFacts.compare_with v e2; CutFacts.compare_with v e3;
      CutFacts.compare_with v e4;
      try (exfalso; lra);
      try (exfalso; apply Hne; lra);
      cbn; discriminate.
Qed.

End QcutFacts.

Module LevelFacts.

Lemma adjacent_pairs {A : Type} (R : A -> A -> Prop) (a b c d e : A) :
  ForallOrdPairs R [a; b; c; d; e] -> R a b /\ R b c /\ R c d /\ R d e.
Proof.
  intros H.
  inversion H as [|? ? Ha H1]; subst.
  inversion H1 as [|? ? Hb H2]; subst.
  inversion H2 as [|? ? Hc H3]; subst.
  inversion H3 as [|? ? Hd H4]; subst.
  inversion Ha; subst. inversion Hb; subst.
  inversion Hc; subst. inversion Hd; subst. auto.
Qed.

(** What [qcut] returns when it returns: the level of every value, found
    among five strictly increasing edges. *)
Lemma qcut4_some (col : list Q) (levels : list (option string)) :
  Pd.qcut4 Story.level_labels col = Some levels ->
  exists e0 e1 e2 e3 e4,
    Pd.quantile 0 col = Some e0 /\
    Pd.quantile (1 # 4) col = Some e1 /\
    Pd.quantile (1 # 2) col = Some e2 /\
    Pd.quantile (3 # 4) col = Some e3 /\
    Pd.quantile 1 col = Some e4 /\
    e0 < e1 /\ e1 < e2 /\ e2 < e3 /\ e3 < e4 /\
    levels = map (fun v =>
                    match Pd.bin_index true [e0; e1; e2; e3; e4] v with
                    | Some i => nth_error Story.level_labels i
                    | None => None
                    end) col.
Proof.
  unfold Pd.qcut4.
  destruct (Pd.quantile 0 col) as [e0|] eqn:E0; [|discriminate].
  destruct (Pd.quantile (1 # 4) col) as [e1|] eqn:E1; [|discriminate].
  destruct (Pd.quantile (1 # 2) col) as [e2|] eqn:E2; [|discriminate].
  destruct (Pd.quantile (3 # 4) col) as [e3|] eqn:E3; [|discriminate].
  destruct (Pd.quantile 1 col) as [e4|] eqn:E4; [|discriminate].
  cbv zeta.
  destruct (Nat.eqb _ _) eqn:El; [|discriminate].
  intros Hs.
  assert (Hl := f_equal (fun o => match o with
                                  | Some x => x
                                  | None => levels
                                  end) Hs).
  cbv beta iota in Hl. clear Hs. apply Nat.eqb_eq in El.
  assert (Hlen : List.length (Pd.unique_bins [e0; e1; e2; e3; e4])
                 = List.length [e0; e1; e2; e3; e4]).
  { assert (H := QcutFacts.unique_bins_length [e0; e1; e2; e3; e4]).
    simpl in El, H |- *. lia. }
  destruct (QcutFacts.unique_bins_full _ Hlen) as [Eu Hd].
  apply adjacent_pairs in Hd. destruct Hd as [H01 [H12 [H23 H34]]].
  assert (M01 : e0 <= e1)
    by (apply (QuantileFacts.quantile_mono 0 (1 # 4) col);
        try assumption; lra).
  assert (M12 : e1 <= e2)
    by (apply (QuantileFacts.quantile_mono (1 # 4) (1 # 2) col);
        try assumption; lra).
  assert (M23 : e2 <= e3)
    by (apply (QuantileFacts.quantile_mono (1 # 2) (3 # 4) col);
        try assumption; lra).
  assert (M34 : e3 <= e4)
    by (apply (QuantileFacts.quantile_mono (3 # 4) 1 col);
        try assumption; lra).
  exists e0, e1, e2, e3, e4.
  repeat (split; [reflexivity|]).
  split; [apply Qle_lteq in M01; destruct M01; [assumption|contradiction]|].
  split; [apply Qle_lteq in M12; destruct M12; [assumption|contradiction]|].
  split; [apply Qle_lteq in M23; destruct M23; [assumption|contradiction]|].
  split; [apply Qle_lteq in M34; destruct M34; [assumption|contradiction]|].
  rewrite <- Hl, Eu. reflexivity.
Qed.

(** The frame [retention_df] builds, row by row. *)
Lemma retention_df_some (clean : list (Users.t * Q))
      (df : list Story.ret_row) :
  Story.retention_df clean = Some df ->
  exists e0 e1 e2 e3 e4,
    Pd.quantile 0 (map snd clean) = Some e0 /\
    Pd.quantile (1 # 4) (map snd clean) = Some e1 /\
    Pd.quantile (1 # 2) (map snd clean) = Some e2 /\
    Pd.quantile (3 # 4) (map snd clean) = Some e3 /\
    Pd.quantile 1 (map snd clean) = Some e4 /\
    e0 < e1 /\ e1 < e2 /\ e2 < e3 /\ e3 < e4 /\
    df = map (Segment.leveled e0 e1 e2 e3 e4) clean.
Proof.
  unfold Story.retention_df.
  destruct (Pd.qcut4 Story.level_labels (map snd clean)) as [levels|] eqn:Eq;
    [|discriminate].
  intros Hdf. apply qcut4_some in Eq.
  destruct Eq as [e0 [e1 [e2 [e3 [e4 [A0 [A1 [A2 [A3 [A4 Hrest]]]]]]]]]].
  destruct Hrest as [H01 [H12 [H23 [H34 El]]]].
  exists e0, e1, e2, e3, e4.
  repeat (split; [assumption|]).
  rewrite El, map_map, CtrFacts.combine_map_r, map_map in Hdf.
  cbn [fst snd] in Hdf. unfold Segment.leveled. congruence.
Qed.

End LevelFacts.


(* ================================================================== *)
(** * The cells of the heat map *)

Module CellFacts.

Lemma list_sum_flat_map {A B : Type} (f : A -> list B) (ks : list A) :
  list_sum (map (fun k => List.length (f k)) ks)
  = List.length (flat_map f ks).
Proof.
  induction ks as [|k ks IH]; simpl; [reflexivity|].
  rewrite length_app, IH. reflexivity.
Qed.

(** The sizes of the groups of distinct labels add up to the number of
    rows that carry one of the labels. *)
Lemma group_sizes {R : Type} (key : R -> option string) (rows : list R)
      (ks : list string) :
  NoDup ks ->
  list_sum (map (fun k => List.length (Pd.group key k rows)) ks)
  = List.length (filter (Pd.has_key_in key ks) rows).
Proof.
  intros Hnd. rewrite list_sum_flat_map.
  apply Permutation_length, PdFacts.groups_partition, Hnd.
Qed.

Lemma sum_over_cells {A B : Type} (cell : A -> B -> nat)
      (xs : list A) (ys : list B) :
  list_sum (flat_map (fun x => map (cell x) ys) xs)
  = list_sum (map (fun x => list_sum (map (cell x) ys)) xs).
Proof.
  induction xs as [|x xs IH]; simpl; [reflexivity|].
  rewrite list_sum_app, IH. reflexivity.
Qed.

Lemma map_flat_map {A B C : Type} (g : B -> C) (f : A -> list B)
      (l : list A) :
  map g (flat_map f l) = flat_map (fun x => map g (f x)) l.
Proof.
  induction l as [|x l IH]; simpl; [reflexivity|].
  rewrite map_app, IH. reflexivity.
Qed.

Lemma list_sum_ext {A : Type} (f g : A -> nat) (l : list A) :
  (forall x, f x = g x) -> list_sum (map f l) = list_sum (map g l).
Proof. intros H. rewrite (map_ext f g H). reflexivity. Qed.

(** Cells cut out by two keys with distinct labels: their sizes add up to
    the number of rows that carry a label of each key. *)
Lemma cell_sizes {R : Type} (k1 k2 : R -> option string) (p : R -> bool)
      (ks1 ks2 : list string) (rows : list R) :
  NoDup ks1 -> NoDup ks2 ->
  list_sum
    (flat_map
       (fun x =>
          map (fun y =>
                 List.length
                   (filter p
                           (filter (fun r => Pd.key_is x (k1 r)
                                             && Pd.key_is y (k2 r)) rows)))
              ks2) ks1)
  = List.length
      (filter (fun r => p r && Pd.has_key_in k1 ks1 r
                        && Pd.has_key_in k2 ks2 r) rows).
Proof.
  intros H1 H2. rewrite sum_over_cells.
  transitivity
    (list_sum
       (map (fun x =>
               List.length
                 (Pd.group k1 x
                           (filter (Pd.has_key_in k2 ks2) (filter p rows))))
            ks1)).
  - apply list_sum_ext. intros x.
    transitivity
      (list_sum
         (map (fun y =>
                 List.length
                   (Pd.group k2 y (Pd.group k1 x (filter p rows)))) ks2)).
    + apply list_sum_ext. intros y. f_equal. unfold Pd.group.
      rewrite !PdFacts.filter_filter. apply filter_ext. intros r.
      destruct (p r), (Pd.key_is x (k1 r)), (Pd.key_is y (k2 r));
        reflexivity.
    + rewrite (group_sizes k2 _ ks2 H2). f_equal. unfold Pd.group.
      rewrite !PdFacts.filter_filter. apply filter_ext. intros r.
      destruct (p r), (Pd.key_is x (k1 r)), (Pd.has_key_in k2 ks2 r);
        reflexivity.
  - rewrite (group_sizes k1 _ ks1 H1). f_equal.
    rewrite !PdFacts.filter_filter. apply filter_ext. intros r.
    destruct (p r), (Pd.has_key_in k1 ks1 r), (Pd.has_key_in k2 ks2 r);
      reflexivity.
Qed.

Lemma level_labels_nodup : NoDup Story.level_labels.
Proof.
  unfold Story.level_labels.
  repeat constructor; simpl; intuition discriminate.
Qed.

Lemma spend_labels_nodup : NoDup Story.spend_labels.
Proof.
  unfold Story.spend_labels.
  repeat constructor; simpl; intuition discriminate.
Qed.

End CellFacts.

(** X12.  Every user of [retention_df] whose active flag is present and
    who has an engagement level and a spend bracket is counted in exactly
    one cell of the retention matrix: the total counts of the cells add up
    to the number of those users.  In every cell the active count is at
    most the total count. *)
Theorem retention_matrix_partitions_the_users :
  forall (df : list Story.ret_row),
    list_sum (map Story.m_total (Story.retention_matrix df))
    = List.length (filter Segment.in_some_cell df) /\
    (forall m, In m (Story.retention_matrix df) ->
               (Story.m_active m <= Story.m_total m)%nat).
Proof.
  intros df. split.
  - unfold Story.retention_matrix.
    rewrite CellFacts.map_flat_map.
    etransitivity;
      [|exact (CellFacts.cell_sizes
                 Story.engagement_level Story.spend_bracket
                 (fun r => Pd.notna (Users.is_active (Story.user r)))
                 Story.level_labels Story.spend_labels df
                 CellFacts.level_labels_nodup
                 CellFacts.spend_labels_nodup)].
    f_equal. apply flat_map_ext. intros level.
    rewrite map_map. apply map_ext. intros bracket.
    cbn [Story.m_total]. unfold Story.total_count, Story.flags.
    apply (RateFacts.count_map_notna
             (fun r => Users.is_active (Story.user r))).
  - intros m Hin. unfold Story.retention_matrix in Hin.
    apply in_flat_map in Hin. destruct Hin as [level [_ Hin]].
    apply in_map_iff in Hin. destruct Hin as [bracket [<- _]].
    apply BoundFacts.active_le_total.
Qed.

(* ================================================================== *)
(** * The content of the target segment *)

Module SegmentFacts.

Lemma key_eqb_eq (a b : option string) : Pd.key_eqb a b = true <-> a = b.
Proof.
  destruct a as [x|], b as [y|]; simpl; try (split; congruence).
  rewrite String.eqb_eq. split; congruence.
Qed.

Lemma isin_in (values : list (option string)) (x : option string) :
  PdExt.isin values x = true <-> In x values.
Proof.
  unfold PdExt.isin. rewrite existsb_exists. split.
  - intros [v [Hv E]]. apply key_eqb_eq in E. subst. exact Hv.
  - intros H. exists x. split; [exact H | apply key_eqb_eq; reflexivity].
Qed.

Lemma sort_desc_in (l : list (string * Q)) (x : string * Q) :
  In x (sort_desc l) <-> In x l.
Proof. unfold sort_desc. apply PdFacts.sort_in. Qed.

Lemma desc_bool_sorted (l : list (string * Q)) :
  StronglySorted (fun a b => Qle_bool (snd b) (snd a) = true) (sort_desc l).
Proof.
  unfold sort_desc.
  apply (SortFacts.sort_sorted
           (fun a b : string * Q => Qle_bool (snd b) (snd a))
           (fun a b => SortFacts.Qle_bool_total (snd b) (snd a))
           (fun a b c H1 H2 =>
              SortFacts.Qle_bool_trans (snd c) (snd b) (snd a) H2 H1)).
Qed.

(** The first [n] bars of a ranking are ranked themselves. *)
Lemma head_sorted (n : nat) (l : list (string * Q)) :
  StronglySorted (fun a b => snd b <= snd a) (PdExt.head n (sort_desc l)).
Proof.
  assert (H := SortFacts.firstn_sorted _ n _ (desc_bool_sorted l)).
  unfold PdExt.head.
  induction H as [|a l' Hs IH Ha]; constructor; [exact IH|].
  eapply Forall_impl; [|exact Ha]. intros z Hz. apply Qle_bool_iff, Hz.
Qed.

(** A bar past the first [n] of a ranking is no larger than any of them. *)
Lemma head_boundary (n : nat) (l : list (string * Q)) (s b : string * Q) :
  In s (PdExt.head n (sort_desc l)) -> In b (skipn n (sort_desc l)) ->
  snd b <= snd s.
Proof.
  intros Hs Hb. apply Qle_bool_iff.
  exact (SortFacts.sorted_firstn_skipn _ n _ (desc_bool_sorted l) s b Hs Hb).
Qed.

End SegmentFacts.

(** X13.  The chart of the genres watched by the target segment shows at
    most ten genres, none twice, by non-increasing minutes; a genre that is
    left out has no more minutes than any genre shown; and every genre
    shown is the primary genre of a movie matched to a session of a user
    whose identifier is among those of the segment. *)
Theorem top_genres_are_the_ten_largest :
  forall (P : Type) (watch : list (Watch.t P)) (ids : list (option string))
         (movies : list Movies.row),
    let target_watch := Segment.target_watch watch ids movies in
    let totals :=
      Pd.groupby_agg genre_of (fun g => Pd.sum (durations (map fst g)))
                     target_watch in
    let shown := Segment.genre_engagement target_watch in
    (List.length shown <= 10)%nat /\
    StronglySorted (fun a b => snd b <= snd a) shown /\
    NoDup (map fst shown) /\
    (forall bar, In bar shown -> In bar totals) /\
    (forall bar, In bar totals -> ~ In bar shown ->
                 forall s, In s shown -> snd bar <= snd s) /\
    (forall g m, In (g, m) shown ->
                 exists w mv,
                   In w watch /\ In (Watch.user_id w) ids /\
                   In mv movies /\
                   Pd.key_eqb (Watch.movie_id w) (Movies.movie_id mv) = true /\
                   Movies.genre_primary mv = Some g).
Proof.
  intros P watch ids movies target_watch totals shown.
  assert (Hshown : shown = PdExt.head 10 (sort_desc totals)) by reflexivity.
  assert (Hsub : forall bar, In bar shown -> In bar totals).
  { intros bar Hb. rewrite Hshown in Hb. unfold PdExt.head in Hb.
    apply SortFacts.in_firstn in Hb.
    apply SegmentFacts.sort_desc_in, Hb. }
  split; [|split; [|split; [|split; [|split]]]].
  - rewrite Hshown. unfold PdExt.head. apply firstn_le_length.
  - rewrite Hshown. apply SegmentFacts.head_sorted.
  - rewrite Hshown. unfold PdExt.head. rewrite <- firstn_map.
    assert (Hnd : NoDup (map fst (sort_desc totals))).
    { eapply Permutation_NoDup;
        [apply Permutation_sym, OrderFacts.sort_desc_labels|].
      unfold totals. rewrite OrderFacts.agg_labels.
      apply PdFacts.group_keys_nodup. }
    rewrite <- (firstn_skipn 10 (map fst (sort_desc totals))) in Hnd.
    apply NoDup_app_remove_r in Hnd. exact Hnd.
  - exact Hsub.
  - intros bar Hb Hnot s Hs.
    assert (Hin : In bar (sort_desc totals))
      by (apply SegmentFacts.sort_desc_in, Hb).
    rewrite <- (firstn_skipn 10 (sort_desc totals)) in Hin.
    apply in_app_or in Hin. destruct Hin as [Hin|Hin].
    + exfalso. apply Hnot. rewrite Hshown. exact Hin.
    + rewrite Hshown in Hs.
      exact (SegmentFacts.head_boundary 10 totals s bar Hs Hin).
  - intros g m Hin. apply Hsub in Hin. unfold totals in Hin.
    apply PdFacts.groupby_agg_in in Hin. destruct Hin as [Hg _].
    apply in_map_iff in Hg. destruct Hg as [wm [Eg Hwm]].
    unfold target_watch, Segment.target_watch in Hwm.
    apply SumFacts.merge_genre_in in Hwm. destruct Hwm as [Hw Hm].
    apply filter_In in Hw. destruct Hw as [Hw Hid].
    apply SegmentFacts.isin_in in Hid.
    unfold genre_of in Eg. destruct (snd wm) as [mv|]; [|discriminate].
    unfold Pd.matches in Hm. apply filter_In in Hm.
    destruct Hm as [Hmv Hk].
    exists (fst wm), mv. auto.
Qed.

(* ================================================================== *)
(** * How many values lie above the third quartile *)

Module QuarterFacts.

Lemma filter_perm {A : Type} (p : A -> bool) (l l' : list A) :
  Permutation l l' -> Permutation (filter p l) (filter p l').
Proof.
  induction 1 as [|x l l' _ IH|x y l|l l' l'' _ IH1 _ IH2]; simpl.
  - apply perm_nil.
  - destruct (p x); [apply perm_skip|]; exact IH.
  - destruct (p x), (p y); try apply Permutation_refl. apply perm_swap.
  - eapply perm_trans; eassumption.
Qed.

(** The floor of three quarters of [m] leaves at most a quarter, rounded
    up, above it. *)
Lemma three_quarters (m : nat) :
  let i := Z.to_nat (Qfloor ((3 # 4) * Pd.of_nat m)) in
  (i <= m)%nat /\ (4 * (m - i) <= m + 3)%nat.
Proof.
  intros i.
  destruct (QuantileFacts.position (3 # 4) m) as [Hf [Hi [_ Hg]]];
    [lra | lra |].
  fold i in Hi. split; [exact Hi|].
  set (f := Qfloor ((3 # 4) * Pd.of_nat m)) in *.
  assert (Hq : 3 * Pd.of_nat m - 4 * inject_Z f < 4) by lra.
  assert (Hz : (3 * Z.of_nat m - 4 * f < 4)%Z).
  { rewrite Zlt_Qlt. unfold Zminus.
    rewrite inject_Z_plus, inject_Z_opp, !inject_Z_mult.
    change (inject_Z 3) with 3. change (inject_Z 4) with 4.
    unfold Pd.of_nat in Hq. lra. }
  unfold i. lia.
Qed.

(** In a sorted column, the values strictly above a threshold that is at
    least the value at index [i] all come after index [i]. *)
Lemma above_index (xs : list Q) (t : Q) (i : nat) :
  let s := Pd.sort_values xs in
  (i < List.length s)%nat -> nth i s 0 <= t ->
  (List.length (filter (fun x => negb (Qle_bool x t)) xs)
   <= List.length s - (i + 1))%nat.
Proof.
  intros s Hi Ht.
  assert (Hp : Permutation xs s)
    by (apply Permutation_sym, PdFacts.sort_perm).
  rewrite (Permutation_length
             (filter_perm (fun x => negb (Qle_bool x t)) _ _ Hp)).
  rewrite <- (firstn_skipn (i + 1) s) at 1.
  rewrite filter_app, length_app.
  rewrite PdFacts.filter_false.
  - simpl. etransitivity; [apply RateFacts.filter_length_le|].
    rewrite length_skipn. lia.
  - intros x Hx. apply negb_false_iff, Qle_bool_iff.
    destruct (In_nth _ x 0 Hx) as [k [Hk <-]].
    rewrite length_firstn in Hk.
    rewrite nth_firstn.
    destruct (Nat.ltb_spec k (i + 1)) as [Hlt|Hge]; [|lia].
    eapply Qle_trans; [|exact Ht].
    apply SortFacts.sort_values_nth; fold s; lia.
Qed.

(** At most a quarter of a column, rounded up, lies strictly above its
    third quartile. *)
Lemma above_third_quartile (xs : list Q) (t : Q) :
  Pd.quantile (3 # 4) xs = Some t ->
  (4 * List.length (filter (fun x => negb (Qle_bool x t)) xs)
   <= List.length xs + 2)%nat.
Proof.
  intros E.
  assert (Hne : xs <> []) by (intros ->; discriminate E).
  destruct (QuantileFacts.quantile_between (3 # 4) xs Hne)
    as [v [Ev [Hi [Hlo _]]]]; [lra | lra |].
  rewrite E in Ev. assert (v = t) by congruence. subst v.
  set (s := Pd.sort_values xs) in *.
  set (n := List.length s) in *.
  assert (Hn : (0 < n)%nat).
  { unfold n, s. rewrite QuantileFacts.sorted_length.
    apply QuantileFacts.length_pos, Hne. }
  destruct (three_quarters (n - 1)) as [_ Hq].
  set (i := Z.to_nat (Qfloor ((3 # 4) * Pd.of_nat (n - 1)))) in *.
  assert (Hab := above_index xs t i).
  cbv zeta in Hab. fold s in Hab. fold n in Hab.
  specialize (Hab ltac:(lia) Hlo).
  assert (Hlen : List.length xs = n).
  { unfold n, s. symmetry. apply QuantileFacts.sorted_length. }
  lia.
Qed.

End QuarterFacts.

(** X14.  The users counted as highly engaged (total watch time strictly
    above the third quartile) are at most a quarter of the users, rounded
    up: four times their number is at most the number of users plus two.
    The same bound holds for the target segment, which is part of the
    cleaned engagement frame. *)
Theorem high_engagement_is_at_most_a_quarter :
  forall (ue : list (Users.t * Q)),
    (4 * List.length (Story.high_engagement ue) <= List.length ue + 2)%nat /\
    (4 * List.length (Segment.target_segment ue) <= List.length ue + 2)%nat /\
    (forall x, In x (Segment.target_segment ue) ->
               In x ue /\ Users.monthly_spend (fst x) <> None).
Proof.
  intros ue.
  assert (Hhigh : (4 * List.length (Story.high_engagement ue)
                   <= List.length ue + 2)%nat).
  { unfold Story.high_engagement, Story.gt_nan.
    destruct (Pd.quantile (3 # 4) (map snd ue)) as [t|] eqn:E.
    - assert (H := QuarterFacts.above_third_quartile (map snd ue) t E).
      rewrite RateFacts.filter_map_comm, !length_map in H. exact H.
    - rewrite PdFacts.filter_false by reflexivity. simpl. lia. }
  split; [exact Hhigh|]. split.
  - etransitivity; [|exact Hhigh].
    apply Nat.mul_le_mono_l.
    unfold Segment.target_segment, Story.high_engagement.
    apply RateFacts.filter_length_imp.
    intros x Hx. apply andb_true_iff in Hx. tauto.
  - intros x Hx. unfold Segment.target_segment in Hx.
    apply filter_In in Hx. destruct Hx as [Hin Hx].
    apply andb_true_iff in Hx. destruct Hx as [_ Hlt].
    split; [exact Hin|]. unfold Story.lt_nan in Hlt.
    unfold Users.t in *.
    destruct (Users.monthly_spend (fst x)) as [v|];
      [discriminate | discriminate Hlt].
Qed.

(* ================================================================== *)
(** * Missing files *)

Module MemoFacts.

Ltac read_until H w :=
  repeat first
    [ rewrite H; reflexivity
    | match goal with
      | |- context [St.fs w ?p] =>
          destruct (St.fs w p) as [[]|]; cbv beta iota;
          try reflexivity
      end ].

(** A load whose file is not there raises. *)
Lemma max_chartier_body_missing (parse_float : string -> option (option Q))
      (base name : string) (w : St.world MaxChartier.tables) :
  In name StExt.file_names ->
  St.fs w (St.path_join base name) = None ->
  MaxChartier.load_body parse_float base w = None.
Proof.
  intros Hin H.
  unfold MaxChartier.load_body, St.bind, St.read_users, St.read_watch,
    St.read_movies, St.read_recs.
  simpl in Hin.
  destruct Hin as [<-|[<-|[<-|[<-|[]]]]]; read_until H w.
Qed.

End MemoFacts.

(** X16.  When nothing is memoised for the call and one of the four files
    is not in the directory, [load_data] of the Max Chartier dashboard
    raises, and so does a run of its page. *)
Theorem load_raises_on_a_missing_file :
  forall (parse_float : string -> option (option Q)) (name : string),
    In name StExt.file_names ->
    (forall arg w,
        St.lookup (MaxChartier.args arg) (St.cache w) = None ->
        St.fs w (St.path_join (MaxChartier.base_path arg) name) = None ->
        MaxChartier.load_data parse_float arg w = None) /\
    (forall exclude_outliers w,
        St.lookup [] (St.cache w) = None ->
        St.fs w name = None ->
        MaxChartier.main parse_float exclude_outliers w = None).
Proof.
  intros parse_float name Hin.
  assert (Hload : forall arg w,
             St.lookup (MaxChartier.args arg) (St.cache w) = None ->
             St.fs w (St.path_join (MaxChartier.base_path arg) name)
             = None ->
             MaxChartier.load_data parse_float arg w = None).
  { intros arg w Hc Hf. unfold MaxChartier.load_data, St.cache_data.
    rewrite Hc.
    rewrite (MemoFacts.max_chartier_body_missing
               parse_float (MaxChartier.base_path arg) name w Hin Hf).
    reflexivity. }
  split; [exact Hload|].
  intros e w Hc Hf. unfold MaxChartier.main, St.bind.
  assert (Hp : St.path_join "." name = name).
  { simpl in Hin. destruct Hin as [<-|[<-|[<-|[<-|[]]]]]; reflexivity. }
  rewrite (Hload None w Hc); [reflexivity|].
  cbn [MaxChartier.base_path]. rewrite Hp. exact Hf.
Qed.

(* ================================================================== *)
(** * Sections that draw their chart *)

Module ChartFacts.

(** A header, a chart, a comment and the rule, appended to the page. *)
Lemma chart_only {T : Type} (w : St.world T) (section : St.M T unit)
      (title text : string) (fig : St.figure) :
  section w
  = Some (tt, St.mk (St.fs w) (St.cache w)
                    ((((St.page w ++ [St.Header title])
                         ++ [St.PlotlyChart fig])
                        ++ [St.Markdown text])
                       ++ [St.Markdown "---"])) ->
  StExt.renders_chart_only section w.
Proof.
  intros E.
  exists [St.Header title; St.PlotlyChart fig; St.Markdown text;
          St.Markdown "---"].
  split; [|split; reflexivity].
  rewrite E, <- !app_assoc. reflexivity.
Qed.

Lemma some_rating_some_rated {P : Type} (watch : list (Watch.t P)) :
  (exists r, In r watch /\ Watch.user_rating r <> None) ->
  empty (MaxChartier.watch_rated watch) = false.
Proof.
  intros [r [Hr Hn]].
  assert (Hin : In r (MaxChartier.watch_rated watch)).
  { unfold MaxChartier.watch_rated. apply filter_In. split; [exact Hr|].
    destruct (Watch.user_rating r); [reflexivity | congruence]. }
  destruct (MaxChartier.watch_rated watch); [destruct Hin | reflexivity].
Qed.

End ChartFacts.

(** X17.  As soon as one [user_rating] of the watch history is present,
    the sections on satisfaction by device, by plan and by genre each draw
    their chart and put no informational message on the page; so does the
    section on the click-through rate by type as soon as the recommendation
    log has a row. *)
Theorem rated_sections_draw_their_chart :
  forall (T : Type) (w : St.world T) (users : list Users.t)
         (watch : list (Watch.t (option Q))) (movies : list Movies.row),
    ((exists r, In r watch /\ Watch.user_rating r <> None) ->
     let watch_rated := MaxChartier.watch_rated watch in
     StExt.renders_chart_only
       (MaxChartier.satisfaction_by_device watch_rated) w /\
     StExt.renders_chart_only
       (MaxChartier.satisfaction_by_plan users watch_rated) w /\
     StExt.renders_chart_only
       (MaxChartier.satisfaction_by_genre
          watch_rated (MaxChartier.watch_genre watch movies)) w) /\
    (forall recs : list Recs.raw,
        recs <> [] ->
        StExt.renders_chart_only
          (MaxChartier.ctr_by_type (MaxChartier.astype_str recs)) w).
Proof.
  intros T w users watch movies. split.
  - intros Hsome watch_rated.
    assert (E : empty watch_rated = false)
      by (apply ChartFacts.some_rating_some_rated, Hsome).
    repeat split; eapply ChartFacts.chart_only;
      unfold MaxChartier.satisfaction_by_device,
        MaxChartier.satisfaction_by_plan,
        MaxChartier.satisfaction_by_genre;
      rewrite E; reflexivity.
  - intros recs Hne.
    assert (E : empty (MaxChartier.astype_str recs) = false).
    { rewrite CtrFacts.astype_str_map.
      destruct recs; [congruence | reflexivity]. }
    eapply ChartFacts.chart_only. unfold MaxChartier.ctr_by_type.
    rewrite E. reflexivity.
Qed.

(* ================================================================== *)
(** * The minutes of the engagement frame *)

Module MassFacts.

Lemma option_string_dec (a b : option string) : {a = b} + {a <> b}.
Proof. decide equality. apply string_dec. Qed.

(** The total of a user is the sum of the durations of its sessions. *)
Lemma total_of_minutes {P : Type} (u : Users.t) (watch : list (Watch.t P)) :
  total_of u (watch_sum_by_user watch)
  = Charts.minutes_of watch (Users.user_id u).
Proof.
  unfold Charts.minutes_of. destruct (Users.user_id u) as [k|] eqn:Eu.
  - destruct (in_dec option_string_dec (Some k) (map Watch.user_id watch))
      as [Hin|Hout].
    + apply JoinFacts.total_of_present; assumption.
    + rewrite JoinFacts.total_of_absent.
      * unfold Pd.group. rewrite PdFacts.filter_false; [reflexivity|].
        intros w Hw. destruct (Pd.key_is k (Watch.user_id w)) eqn:Ek;
          [|reflexivity].
        apply PdFacts.key_is_true in Ek. exfalso. apply Hout.
        rewrite <- Ek. apply in_map, Hw.
      * intros k' Ek' w Hw Ew. apply Hout.
        assert (k' = k) by congruence. subst k'.
        rewrite <- Ew. apply in_map, Hw.
  - apply JoinFacts.total_of_absent. intros k' Ek'.
    rewrite Eu in Ek'. discriminate Ek'.
Qed.

Lemma sum_over_present (f : option string -> Q)
      (ids : list (option string)) :
  f None == 0 ->
  Pd.sum (map f ids) == Pd.sum (map (fun k => f (Some k)) (Pd.dropna ids)).
Proof.
  intros H0.
  induction ids as [|[k|] ids IH];
    cbn [map Pd.dropna Pd.sum fold_right].
  - reflexivity.
  - fold (Pd.sum (map f ids)).
    fold (Pd.sum (map (fun k => f (Some k)) (Pd.dropna ids))).
    rewrite IH. reflexivity.
  - fold (Pd.sum (map f ids)). rewrite IH, H0. apply Qplus_0_l.
Qed.

Lemma sum_over_ids {P : Type} (watch : list (Watch.t P))
      (ids : list (option string)) :
  Pd.sum (map (Charts.minutes_of watch) ids)
  == Pd.sum (map (fun k => Charts.minutes_of watch (Some k)) (Pd.dropna ids)).
Proof.
  induction ids as [|[k|] ids IH];
    cbn [map Pd.dropna Pd.sum fold_right].
  - reflexivity.
  - fold (Pd.sum (map (Charts.minutes_of watch) ids)).
    fold (Pd.sum (map (fun k => Charts.minutes_of watch (Some k))
                      (Pd.dropna ids))).
    rewrite IH. reflexivity.
  - fold (Pd.sum (map (Charts.minutes_of watch) ids)).
    rewrite IH. apply Qplus_0_l.
Qed.

Lemma sum_of_groups {R : Type} (key : R -> option string) (val : R -> Q)
      (rows : list R) (ks : list string) :
  NoDup ks ->
  Pd.sum (map (fun k => Pd.sum (map val (Pd.group key k rows))) ks)
  == Pd.sum (map val (filter (Pd.has_key_in key ks) rows)).
Proof.
  intros Hnd.
  assert (E : map (fun k => Pd.sum (map val (Pd.group key k rows))) ks
              = map (fun g : string * list R => Pd.sum (map val (snd g)))
                    (map (fun k => (k, Pd.group key k rows)) ks)).
  { rewrite map_map. reflexivity. }
  rewrite E, SumFacts.sum_pieces, PdFacts.flat_map_map. simpl.
  apply SumFacts.sum_perm, Permutation_map.
  apply PdFacts.groups_partition, Hnd.
Qed.


(** In exact arithmetic, the totals of the engagement frame add up to the
    minutes of the sessions whose user is in the users table. *)
Lemma exact_totals {P : Type} (users : list Users.t)
      (watch : list (Watch.t P)) :
  NoDup (Pd.dropna (map Users.user_id users)) ->
  Pd.sum (map (fun u => total_of u (watch_sum_by_user watch)) users)
  == Pd.sum (durations
               (filter (Pd.has_key_in
                          Watch.user_id
                          (Pd.dropna (map Users.user_id users)))
                       watch)).
Proof.
  intros Hnd.
  rewrite (map_ext _ (fun u => Charts.minutes_of watch (Users.user_id u))
                   (fun u => total_of_minutes u watch)).
  rewrite <- (map_map Users.user_id (Charts.minutes_of watch)).
  rewrite sum_over_ids.
  apply (sum_of_groups Watch.user_id Watch.watch_duration_minutes
                       watch _ Hnd).
Qed.

(** The join reads a total off the first row with the user's identifier:
    two lists of totals with the same labels and equal values give equal
    totals. *)
Lemma total_of_ext (u : Users.t) (t1 t2 : list (string * Q)) :
  Forall2 (fun a b => fst a = fst b /\ snd a == snd b) t1 t2 ->
  total_of u t1 == total_of u t2.
Proof.
  unfold total_of, Pd.matches, total_key.
  induction 1 as [|a b t1 t2 [Hk Hv] _ IH]; [reflexivity|].
  cbn [filter]. rewrite Hk.
  destruct (Pd.key_eqb (Users.user_id u) (Some (fst b))); [exact Hv|].
  exact IH.
Qed.

Lemma rounded_totals {P : Type} (watch : list (Watch.t P)) :
  Float64.whole (durations watch) = true ->
  Forall2 (fun a b => fst a = fst b /\ snd a == snd b)
          (Rounded.watch_sum_by_user watch) (watch_sum_by_user watch).
Proof.
  intros Hw. unfold Rounded.watch_sum_by_user, watch_sum_by_user,
               Pd.groupby_agg.
  assert (Hg : forall g, In g (Pd.groupby Watch.user_id watch) ->
                         Float64.sum (durations (snd g))
                         == Pd.sum (durations (snd g))).
  { intros [k g] Hin. apply PdFacts.groupby_in in Hin.
    destruct Hin as [_ ->]. apply Float64Facts.sum_exact.
    unfold Pd.group, durations. apply Float64Facts.whole_filter, Hw. }
  induction (Pd.groupby Watch.user_id watch) as [|g gs IH];
    [constructor|].
  cbn [map]. constructor.
  - split; [reflexivity|]. apply Hg. left. reflexivity.
  - apply IH. intros g' Hin. apply Hg. right. exact Hin.
Qed.

Lemma rounded_totals_map {P : Type} (users : list Users.t)
      (watch : list (Watch.t P)) :
  map snd (merge_totals users (Rounded.watch_sum_by_user watch))
  = map (fun u => total_of u (Rounded.watch_sum_by_user watch)) users.
Proof.
  unfold merge_totals. rewrite JoinFacts.merge_left_single.
  - rewrite !map_map. reflexivity.
  - intros u. apply JoinFacts.matches_at_most_one.
    unfold Rounded.watch_sum_by_user. rewrite OrderFacts.agg_labels.
    apply PdFacts.group_keys_nodup.
Qed.

(** The minutes of a user in absolute value. *)
Lemma abs_minutes {P : Type} (watch : list (Watch.t P))
      (users : list Users.t) :
  NoDup (Pd.dropna (map Users.user_id users)) ->
  Pd.sum (map (fun u => Qabs (Charts.minutes_of watch (Users.user_id u)))
              users)
  <= Pd.sum (map Qabs (durations watch)).
Proof.
  intros Hnd.
  set (absm := fun id : option string =>
                 match id with
                 | Some k =>
                     Pd.sum (map (fun w => Qabs (Watch.watch_duration_minutes w))
                                 (Pd.group Watch.user_id k watch))
                 | None => 0
                 end).
  assert (H1 : Pd.sum (map (fun u => Qabs (Charts.minutes_of
                                             watch (Users.user_id u))) users)
               <= Pd.sum (map (fun u => absm (Users.user_id u)) users)).
  { apply Float64Facts.sum_le_map. intros u _. unfold Charts.minutes_of, absm.
    destruct (Users.user_id u) as [k|]; [|apply Qle_refl].
    unfold durations. rewrite <- (map_map Watch.watch_duration_minutes Qabs).
    apply Float64Facts.abs_sum. }
  assert (H2 : Pd.sum (map (fun u => absm (Users.user_id u)) users)
               == Pd.sum (map (fun w => Qabs (Watch.watch_duration_minutes w))
                              (filter (Pd.has_key_in
                                         Watch.user_id
                                         (Pd.dropna (map Users.user_id users)))
                                      watch))).
  { rewrite <- (map_map Users.user_id absm).
    rewrite (sum_over_present absm) by reflexivity.
    apply (sum_of_groups Watch.user_id
                         (fun w => Qabs (Watch.watch_duration_minutes w))
                         watch _ Hnd). }
  assert (H3 := Float64Facts.abs_filter
                  Watch.watch_duration_minutes
                  (Pd.has_key_in Watch.user_id
                                 (Pd.dropna (map Users.user_id users)))
                  watch).
  rewrite (map_map Watch.watch_duration_minutes Qabs) in H3.
  unfold durations.
  eapply Qle_trans; [exact H1|]. rewrite H2. exact H3.
Qed.

End MassFacts.

(** X18.  When the identifiers present in the users table are pairwise
    distinct and the durations are whole numbers of minutes whose absolute
    values add up to less than [2^53], the float64 totals of the engagement
    frame add up to the float64 sum of the minutes of the sessions whose
    user is in the users table: the join counts every such session once
    and no other. *)
Theorem engagement_totals_add_up :
  forall (P : Type) (users : list Users.t) (watch : list (Watch.t P)),
    let ids := Pd.dropna (map Users.user_id users) in
    NoDup ids ->
    Float64.whole (durations watch) = true ->
    Float64.sum (map snd (merge_totals users
                                       (Rounded.watch_sum_by_user watch)))
    == Rounded.total (filter (Pd.has_key_in Watch.user_id ids) watch).
Proof.
  intros P users watch ids Hnd Hw.
  rewrite MassFacts.rounded_totals_map.
  assert (Hext : forall u,
             In u users ->
             total_of u (Rounded.watch_sum_by_user watch)
             == total_of u (watch_sum_by_user watch)).
  { intros u _. apply MassFacts.total_of_ext, MassFacts.rounded_totals, Hw. }
  assert (Hi := proj1 (Float64Facts.whole_elim _ Hw)).
  rewrite forallb_forall in Hi.
  assert (Hb := proj2 (Float64Facts.whole_elim _ Hw)).
  assert (Hwhole : Float64.whole
                     (map (fun u => total_of
                                      u (Rounded.watch_sum_by_user watch))
                          users) = true).
  { apply Float64Facts.whole_intro.
    - intros x Hx. apply in_map_iff in Hx. destruct Hx as [u [<- Hu]].
      destruct (Float64Facts.sum_integral
                  (match Users.user_id u with
                   | Some k => durations (Pd.group Watch.user_id k watch)
                   | None => []
                   end)) as [z Hz].
      + intros y Hy. exists (Qfloor y). apply Float64Facts.integral_Z, Hi.
        destruct (Users.user_id u) as [k|]; [|destruct Hy].
        unfold durations in *. apply in_map_iff in Hy.
        destruct Hy as [w [<- Hin]]. apply in_map.
        apply PdFacts.group_in in Hin. tauto.
      + exists z. rewrite (Hext u Hu), MassFacts.total_of_minutes.
        unfold Charts.minutes_of.
        destruct (Users.user_id u); exact Hz.
    - rewrite map_map.
      eapply Qle_lt_trans; [|exact Hb].
      eapply Qle_trans; [|exact (MassFacts.abs_minutes watch users Hnd)].
      apply Float64Facts.sum_le_map. intros u Hu.
      rewrite (Hext u Hu), MassFacts.total_of_minutes. apply Qle_refl. }
  rewrite (Float64Facts.sum_exact _ Hwhole).
  rewrite (Float64Facts.sum_eq_map _ _ users Hext).
  rewrite (MassFacts.exact_totals users watch Hnd).
  unfold Rounded.total. symmetry. apply Float64Facts.sum_exact.
  unfold durations. apply Float64Facts.whole_filter, Hw.
Qed.


(* ================================================================== *)
(** * The further theorems at work on the sample tables *)

(** The quartiles of the sample sessions on [tv]. *)
Lemma fence_on_sample :
  let group := Pd.group Sess.device_type "tv" (Device.sess Sample.watch) in
  group <> [] /\
  exists q1 q3,
    Pd.quantile (1 # 4) (Device.minutes group) = Some q1 /\
    Pd.quantile (3 # 4) (Device.minutes group) = Some q3 /\
    q1 <= q3.
Proof.
  intros group.
  assert (Hne : group <> []) by (vm_compute; discriminate).
  split; [exact Hne|].
  destruct (fence_encloses_quartiles group Hne)
    as [q1 [q3 [E1 [E3 [_ [_ [Hq _]]]]]]].
  exists q1, q3. auto.
Defined.


(** The quartile row of the sample [mobile] sessions. *)
Lemma qstats_on_sample :
  let qs := Charts.mk_quartiles (Some (60 # 4)) (Some (30 # 2))
                                (Some (60 # 4)) in
  In ("mobile"%string, qs) (Charts.qstats (Device.sess Sample.watch)) /\
  exists q1 q2 q3,
    Charts.q_first qs = Some q1 /\ Charts.q_median qs = Some q2 /\
    Charts.q_third qs = Some q3 /\ q1 <= q2 /\ q2 <= q3.
Proof.
  intros qs.
  assert (H : In ("mobile"%string, qs)
                 (Charts.qstats (Device.sess Sample.watch))).
  { vm_compute. left. reflexivity. }
  split; [exact H|].
  destruct (qstats_rows_are_ordered _ _ _ H)
    as [q1 [q2 [q3 [E1 [E2 [E3 [H12 [H23 _]]]]]]]].
  exists q1, q2, q3. auto.
Defined.

(** The sample user [u3] has no session: no average in the scatter. *)
Lemma scatter_on_sample :
  let u := Sample.user "u3" "Premium" (Some 20) (Some true) in
  exists v,
    In (u, v) (Charts.engagement Sample.users Sample.watch) /\
    (forall k, Users.user_id u = Some k ->
               forall w, In w Sample.watch -> Watch.user_id w <> Some k) /\
    v = None.
Proof.
  intros u. exists None.
  assert (Hin : In (u, None)
                   (Charts.engagement Sample.users Sample.watch)).
  { vm_compute. do 2 right. left. reflexivity. }
  assert (Habs : forall k, Users.user_id u = Some k ->
                           forall w, In w Sample.watch ->
                                     Watch.user_id w <> Some k).
  { intros k [= <-] w Hw. simpl in Hw.
    destruct Hw as [<-|[<-|[<-|[<-|[<-|[<-|[]]]]]]]; discriminate. }
  split; [exact Hin|]. split; [exact Habs|].
  destruct (scatter_has_missing_average_without_sessions
              (option Q) Sample.users Sample.watch) as [_ [Hnone _]].
  exact (Hnone u None Hin Habs).
Defined.

(** An engagement frame where both users have the same total. *)
Lemma headline_share_on_equal_totals :
  let ue := [(Sample.user "u1" "Basic" (Some 8) (Some true), 30);
             (Sample.user "u2" "Basic" (Some 9) (Some false), 30)] in
  (forall x, In x ue -> snd x == 30) /\
  Story.pct (List.length (Story.high_eng_low_spend (Story.high_engagement ue)))
            (List.length (Story.high_engagement ue)) = None.
Proof.
  intros ue.
  assert (H : forall x, In x ue -> snd x == 30).
  { intros x [<-|[<-|[]]]; reflexivity. }
  split; [exact H|].
  destruct (headline_share_is_a_percentage_or_raises ue)
    as [_ [_ [_ [_ Hnone]]]].
  exact (Hnone 30 H).
Defined.

(** A directory whose watch history has no row. *)
Lemma story_main_on_empty_watch :
  let fs := fun path : string =>
              if String.eqb path "watch_history.csv"
              then Some (St.WatchFile [])
              else Sample.files path in
  let w := St.mk fs [] [] in
  exists t w1,
    Story.load_data Sample.parse_float w = Some (t, w1) /\
    Story.watch t = [] /\
    Story.main Sample.parse_float w = None.
Proof.
  intros fs w.
  destruct (Story.load_data Sample.parse_float w) as [[t w1]|] eqn:E.
  - assert (Hw : Story.watch t = []).
    { vm_compute in E. injection E as <- _. reflexivity. }
    exists t, w1. split; [reflexivity|]. split; [exact Hw|].
    exact (proj2 (proj2 (story_main_raises_when Sample.parse_float w))
                 t w1 E Hw).
  - exfalso. vm_compute in E. discriminate E.
Defined.


(** An empty directory, with nothing memoised. *)
Lemma load_on_empty_directory :
  In "movies.csv"%string StExt.file_names /\
  MaxChartier.load_data Sample.parse_float (Some "data/"%string)
                        (St.mk (fun _ => None) [] []) = None.
Proof.
  assert (H : In "movies.csv"%string StExt.file_names).
  { simpl. do 2 right. left. reflexivity. }
  split; [exact H|].
  exact (proj1 (load_raises_on_a_missing_file
                  Sample.parse_float "movies.csv" H)
               (Some "data/"%string) (St.mk (fun _ => None) [] [])
               eq_refl eq_refl).
Defined.

(** The sample watch history has ratings. *)
Lemma rated_sections_on_sample :
  (exists r, In r Sample.watch /\ Watch.user_rating r <> None) /\
  StExt.renders_chart_only
    (MaxChartier.satisfaction_by_device
       (MaxChartier.watch_rated Sample.watch))
    (@Sample.fresh unit).
Proof.
  assert (H : exists r, In r Sample.watch /\ Watch.user_rating r <> None).
  { exists (Sample.session "u1" "tv" 10 (Some 4)).
    split; [left; reflexivity | discriminate]. }
  split; [exact H|].
  exact (proj1 (proj1 (rated_sections_draw_their_chart
                         unit Sample.fresh Sample.users Sample.watch
                         Sample.movies) H)).
Defined.

(** The sample users have distinct identifiers and the sample durations
    are whole minutes. *)
Lemma engagement_totals_on_sample :
  NoDup (Pd.dropna (map Users.user_id Sample.users)) /\
  Float64.whole (durations Sample.watch) = true /\
  Float64.sum (map snd (merge_totals
                          Sample.users
                          (Rounded.watch_sum_by_user Sample.watch)))
  == Rounded.total
       (filter (Pd.has_key_in
                  Watch.user_id
                  (Pd.dropna (map Users.user_id Sample.users)))
               Sample.watch).
Proof.
  assert (H : NoDup (Pd.dropna (map Users.user_id Sample.users))).
  { simpl. repeat constructor; simpl; intuition discriminate. }
  assert (Hw : Float64.whole (durations Sample.watch) = true)
    by (vm_compute; reflexivity).
  split; [exact H|]. split; [exact Hw|].
  exact (engagement_totals_add_up (option Q) Sample.users Sample.watch H Hw).
Defined.


(** The rates of the sample tables: the Basic plan, the heat-map cell of the
    medium level in the second bracket, that bracket, the first algorithm
    version and the trending recommendations. *)
Lemma rates_on_sample :
  let recs := MaxChartier.astype_str Sample.recs in
  let cell := Story.mk_matrix "Medium" "$5-10" 1 1 in
  let trending := MaxChartier.mk_summary "trending" 3 2 (Some (2 # 3)) in
  Story.retention_df
    (Story.user_engagement_clean
       (Story.user_engagement Sample.users Sample.watch))
  = Some Sample.retention_rows /\
  (In ("Basic"%string, Some (1 # 2))
      (MaxChartier.retention_rate Sample.users) /\
   0 <= 1 # 2 /\ 1 # 2 <= 1) /\
  (In cell (Story.retention_matrix Sample.retention_rows) /\
   exists r, Story.retention_rate false cell = Some r /\
             r == 100 /\ 0 <= r /\ r <= 100) /\
  (exists b, In b (Story.spend_brackets Sample.retention_rows) /\
             Story.retention b = Some (1 # 2) /\
             0 <= 1 # 2 /\ 1 # 2 <= 1) /\
  (In ("v1"%string, Some (1 # 2)) (MaxChartier.ctr recs) /\
   0 <= 1 # 2 /\ 1 # 2 <= 1) /\
  (In trending (MaxChartier.rec_summary recs) /\
   (forall x,
       In x (Pd.group Recs.recommendation_type "trending" recs) ->
       Recs.recommendation_id x <> None) /\
   0 <= 2 # 3 /\ 2 # 3 <= 1).
Proof.
  intros recs cell trending.
  destruct (rates_within_unit_interval
              Sample.users Sample.retention_rows recs)
    as [Hplan [Hcell [Hbracket [Hversion Htype]]]].
  split; [vm_compute; reflexivity|].
  assert (Hb : In ("Basic"%string, Some (1 # 2))
                  (MaxChartier.retention_rate Sample.users)).
  { vm_compute. left. reflexivity. }
  assert (Hc : In cell (Story.retention_matrix Sample.retention_rows)).
  { vm_compute. do 5 right. left. reflexivity. }
  assert (Hv : In ("v1"%string, Some (1 # 2)) (MaxChartier.ctr recs)).
  { vm_compute. left. reflexivity. }
  assert (Ht : In trending (MaxChartier.rec_summary recs)).
  { vm_compute. right. left. reflexivity. }
  assert (Hid : forall x,
             In x (Pd.group Recs.recommendation_type "trending" recs) ->
             Recs.recommendation_id x <> None).
  { intros x Hx. vm_compute in Hx.
    destruct Hx as [<-|[<-|[<-|[]]]]; discriminate. }
  split; [exact (conj Hb (Hplan "Basic"%string (1 # 2) Hb))|].
  split.
  { split; [exact Hc|]. exists (1000 # 10).
    split; [reflexivity|]. split; [reflexivity|].
    exact (Hcell false cell (1000 # 10) Hc eq_refl). }
  split.
  { exists (nth 1 (Story.spend_brackets Sample.retention_rows)
                (Story.mk_bracket "" 0 None None None)).
    assert (Hin : In (nth 1 (Story.spend_brackets Sample.retention_rows)
                          (Story.mk_bracket "" 0 None None None))
                     (Story.spend_brackets Sample.retention_rows)).
    { apply nth_In. vm_compute. repeat constructor. }
    split; [exact Hin|]. split; [reflexivity|].
    exact (Hbracket _ (1 # 2) Hin eq_refl). }
  split; [exact (conj Hv (Hversion "v1"%string (1 # 2) Hv))|].
  split; [exact Ht|]. split; [exact Hid|].
  exact (Htype trending (2 # 3) Ht Hid eq_refl).
Defined.

(** The click-through rate of the sample trending records, all of which
    carry an identifier, and of the first algorithm version. *)
Lemma ctr_on_sample :
  let recs := MaxChartier.astype_str Sample.recs in
  let s := MaxChartier.mk_summary "trending" 3 2 (Some (2 # 3)) in
  let g := Pd.group Recs.recommendation_type "trending" Sample.recs in
  let v := Pd.group Recs.algorithm_version "v1" Sample.recs in
  (In ("v1"%string, Some (1 # 2)) (MaxChartier.ctr recs) /\
   exists r, Some (1 # 2) = Some r /\
             r == Pd.of_nat (MaxChartier.clicked_records v)
                  / Pd.of_nat (List.length v)) /\
  In s (MaxChartier.rec_summary recs) /\
  (forall x, In x g -> Recs.recommendation_id x <> None) /\
  exists r, MaxChartier.type_ctr s = Some r /\
            r == Pd.of_nat (MaxChartier.clicked_records g)
                 / Pd.of_nat (List.length g).
Proof.
  intros recs s g v.
  destruct (ctr_is_clicks_over_records Sample.recs)
    as [Hversion [_ [_ Htype]]].
  assert (Hv : In ("v1"%string, Some (1 # 2)) (MaxChartier.ctr recs)).
  { vm_compute. left. reflexivity. }
  assert (Hin : In s (MaxChartier.rec_summary recs)).
  { vm_compute. right. left. reflexivity. }
  assert (Hid : forall x, In x g -> Recs.recommendation_id x <> None).
  { intros x Hx. vm_compute in Hx.
    destruct Hx as [<-|[<-|[<-|[]]]]; discriminate. }
  split; [exact (conj Hv (Hversion "v1"%string (Some (1 # 2)) Hv))|].
  split; [exact Hin|]. split; [exact Hid|].
  exact (Htype s Hin Hid).
Defined.
